(** * Deep Q-Learning reinforcer of vel: a shallow embedding

    Source: [vel/rl/reinforcers/old/dqn_reinforcer.py].

    Conventions of the embedding.
    - Scalars of float tensors that feed the temporal-difference target and
      the loss are exact rationals in canonical form ([Qc]); rounding,
      infinities and NaN of 32-bit floats are outside this part of the
      model. The arithmetic of the temporal-difference target on 32-bit
      floats, with infinities and NaN, is in [Float32].
    - Gradient tensors are lists of real numbers ([R]) because their global
      norm needs a square root.
    - Python objects that are mutated in place (models, env-roller,
      optimizer, callbacks, the batch dictionary) are passed and returned
      explicitly; the order of the calls on them is recorded in a trace.
    - Operations that raise in Python return [Raised]; the only unbounded
      loop (the warm-up loop of [train_batch]) is driven by fuel and returns
      [OutOfFuel] when the fuel is exhausted. *)

From Stdlib Require Import ZArith QArith Qcanon Reals Lra Lia Permutation.
From Stdlib Require Import Ascii Decimal DecimalString DecimalN SpecFloat.
From Stdlib Require Lqa.
From stdpp Require Import base option list gmap strings.

(** ** Outcomes of a call *)

Inductive error : Type :=
| KeyError (key : string)
| TypeError
| ShapeError
| IndexError
| NotANumber.

Inductive outcome (A : Type) : Type :=
| Returned (a : A)
| Raised (e : error)
| OutOfFuel.

Arguments Returned {A} a.
Arguments Raised {A} e.
Arguments OutOfFuel {A}.

Definition bind {A B : Type} (m : outcome A) (k : A → outcome B) : outcome B :=
  match m with
  | Returned a => k a
  | Raised e => Raised e
  | OutOfFuel => OutOfFuel
  end.

Notation "'do' x <- m ; k" := (bind m (fun x => k))
  (at level 10, x pattern, m at level 100, k at level 200,
   format "'[v' 'do'  x  <-  m ; '/' k ']'").

(** [traverse f l] runs [f] on the elements of [l] from left to right and
    stops at the first one that raises. *)
Fixpoint traverse {A B : Type} (f : A → outcome B) (l : list A) : outcome (list B) :=
  match l with
  | [] => Returned []
  | x :: l' => do y <- f x; do ys <- traverse f l'; Returned (y :: ys)
  end.

(** ** Scalars and tensors *)

Module Tensor.

Local Open Scope Qc_scope.

Definition Qcltb (x y : Qc) : bool :=
  match x ?= y with Lt => true | _ => false end.

Definition abs (x : Qc) : Qc := if Qcltb x 0 then - x else x.

(** [numpy.ndarray.astype(np.float32)] on an array of booleans. *)
Definition astype_float32 (b : bool) : Qc := if b then 1 else 0.

(** Element-wise binary operation on one-dimensional tensors with torch's
    broadcasting: equal sizes combine index by index, a tensor of size one
    is stretched, any other pair of sizes raises. *)
Definition broadcast2 (f : Qc → Qc → Qc) (xs ys : list Qc) : outcome (list Qc) :=
  if decide (length xs = length ys) then Returned (zip_with f xs ys)
  else match xs, ys with
       | [x], _ => Returned (map (f x) ys)
       | _, [y] => Returned (map (λ x, f x y) xs)
       | _, _ => Raised ShapeError
       end.

(** [row.argmax()]: the index of the first largest entry; an empty row
    raises. *)
Fixpoint argmax_from (best_i : nat) (best : Qc) (i : nat) (row : list Qc) : nat :=
  match row with
  | [] => best_i
  | x :: row' =>
      if Qcltb best x then argmax_from i x (S i) row'
      else argmax_from best_i best (S i) row'
  end.

Definition argmax (row : list Qc) : outcome nat :=
  match row with
  | [] => Raised IndexError
  | x :: row' => Returned (argmax_from 0 x 1 row')
  end.

(** [row.max()]: the largest entry; an empty row raises. *)
Definition max (row : list Qc) : outcome Qc :=
  match row with
  | [] => Raised IndexError
  | x :: row' => Returned (fold_left (λ best y, if Qcltb best y then y else best) row' x)
  end.

(** One row of [input.gather(1, index)]: negative and too large indices
    raise. *)
Definition gather_row (row : list Qc) (index : Z) : outcome Qc :=
  if decide (index < 0)%Z then Raised IndexError
  else match row !! Z.to_nat index with
       | Some v => Returned v
       | None => Raised IndexError
       end.

(** [input.gather(1, index.unsqueeze(1)).squeeze(1)]: the index may have
    fewer rows than the input, never more. *)
Fixpoint gather (input : list (list Qc)) (index : list Z) {struct index}
    : outcome (list Qc) :=
  match index, input with
  | [], _ => Returned []
  | i :: index', row :: input' =>
      do v <- gather_row row i; do vs <- gather input' index'; Returned (v :: vs)
  | _ :: _, [] => Raised ShapeError
  end.

Definition sum (xs : list Qc) : Qc := foldr Qcplus 0 xs.

(** [torch.mean]: on an empty tensor torch yields NaN, which has no
    rational counterpart. *)
Definition mean (xs : list Qc) : outcome Qc :=
  match xs with
  | [] => Raised NotANumber
  | _ => Returned (sum xs / Q2Qc (inject_Z (Z.of_nat (length xs))))
  end.

(** [F.smooth_l1_loss(input, target, reduction='none')] on one pair. *)
Definition smooth_l1 (input target : Qc) : Qc :=
  let z := abs (input - target) in
  if Qcltb z 1 then Q2Qc (1 # 2) * z * z else z - Q2Qc (1 # 2).

Definition smooth_l1_loss (input target : list Qc) : outcome (list Qc) :=
  broadcast2 smooth_l1 input target.

End Tensor.

(** ** Gradients and their clipping *)

(** One entry of [model.parameters()], as far as the reinforcer looks at
    it: the flag [requires_grad] and the gradient tensor [grad] ([None]
    until a backward pass has filled it). *)
Record Param : Type := mkParam {
  requires_grad : bool;
  grad : option (list R)
}.

Module Grad.

Local Open Scope R_scope.

Definition sum_sq (g : list R) : R := foldr (λ x acc, x * x + acc) 0 g.

(** [p.grad.data.norm(2)]; a parameter without gradient counts as zero. *)
Definition norm (p : Param) : R :=
  match grad p with
  | Some g => sqrt (sum_sq g)
  | None => 0
  end.

(** [p.grad.data.mul_(c)] *)
Definition mul_ (c : R) (p : Param) : Param :=
  {| requires_grad := requires_grad p; grad := map (Rmult c) <$> grad p |}.

Definition has_grad (p : Param) : bool :=
  match grad p with Some _ => true | None => false end.

(** [total_norm += param_norm ** 2] over the parameters that [selected]
    lets through and that have a gradient. *)
Definition total_sq (selected : Param → bool) (parameters : list Param) : R :=
  foldr (λ p acc, norm p ^ 2 + acc) 0
    (filter (λ p, selected p && has_grad p = true) parameters).

(** The global 2-norm of these gradients: [total_norm ** (1. / 2)]. *)
Definition total_norm (selected : Param → bool) (parameters : list Param) : R :=
  sqrt (total_sq selected parameters).

Definition eps : R := / 1000000.

(** [torch.nn.utils.clip_grad_norm_(filter(selected, parameters), max_norm)].
    The iterator handed over yields the entries of [parameters] that satisfy
    [selected]; torch drops those without gradient, scales the gradients of
    the others in place by [max_norm / (total_norm + 1e-6)] when that
    coefficient is below one, and returns the norm measured before. *)
Definition clip_grad_norm_ (selected : Param → bool) (parameters : list Param)
    (max_norm : R) : list Param * R :=
  let total := total_norm selected parameters in
  let clip_coef := max_norm / (total + eps) in
  (if Rlt_dec clip_coef 1
   then map (λ p, if selected p && has_grad p then mul_ clip_coef p else p) parameters
   else parameters,
   total).

End Grad.

(** ** Data model *)

(** The carrier types of the collaborators, which the reinforcer treats as
    opaque. *)
Class Carriers : Type := {
  (** one observation of the environment *)
  Observation : Type;
  (** what [Model.state_dict()] returns and [load_state_dict] accepts *)
  StateDict : Type;
  (** the env-roller: the environment together with the replay buffer *)
  EnvRoller : Type;
  (** the optimizer behind [batch_info.optimizer] *)
  Optimizer : Type;
  (** the record of one completed episode *)
  EpisodeInfo : Type;
  (** a registered callback, with whatever state it keeps *)
  Callback : Type;
  (** [epoch_info.result_accumulator] *)
  ResultAccumulator : Type;
  (** the frozen result of an epoch *)
  EpochResult : Type;
  EnvFactory : Type;
  ModelFactory : Type;
  ReplayEnvRollerFactory : Type;
  Environment : Type;
  Device : Type
}.

Section Data.
Context `{Carriers}.

(** A model: its weights, the mode set by [train()]/[eval()], and its
    parameter list with the gradients. *)
Record Model : Type := mkModel {
  state_dict : StateDict;
  training : bool;
  parameters : list Param
}.

(** The dictionary that [env_roller.sample] returns: aligned arrays under
    the keys 'states', 'states+1', 'dones', 'rewards', 'actions' and
    'weights'. *)
Record BatchSample : Type := mkBatchSample {
  states : list Observation;
  states_plus_1 : list Observation;
  dones : list bool;
  rewards : list Qc;
  actions : list Z;
  weights : list Qc
}.

(** Values stored in the scratch dictionary of a batch. *)
Inductive Value : Type :=
| VFloat (q : Qc)
| VNorm (r : R)
| VInt (z : Z)
| VEpisodes (es : list EpisodeInfo).

Record EpochInfo : Type := mkEpochInfo {
  batches_per_epoch : Z;
  callbacks : list Callback;
  optimizer : Optimizer;
  result_accumulator : ResultAccumulator;
  result : option EpochResult
}.

(** [BatchInfo]: the batch number, the epoch it belongs to (whose optimizer
    and callbacks it exposes) and the scratch dictionary [data_dict] behind
    [batch_info[key]]. *)
Record BatchInfo : Type := mkBatchInfo {
  epoch_info : EpochInfo;
  batch_number : Z;
  data_dict : gmap string Value
}.

Record DqnReinforcerSettings : Type := mkSettings {
  epsilon_schedule : Qc → Qc;
  train_frequency : Z;
  batch_size : Z;
  double_dqn : bool;
  target_update_frequency : Z;
  discount_factor : Qc;
  max_grad_norm : option R
}.

(** The reinforcer. [device], [environment] and [last_observation] are set
    by [__init__] and never read again by the methods below; the
    environment object itself is shared with the env-roller, which steps
    it. *)
Record DqnReinforcer : Type := mkReinforcer {
  device : Device;
  settings : DqnReinforcerSettings;
  environment : Environment;
  train_model : Model;
  target_model : Model;
  last_observation : Observation;
  env_roller : EnvRoller
}.

Record DqnReinforcerFactory : Type := mkFactory {
  factory_settings : DqnReinforcerSettings;
  env_factory : EnvFactory;
  model_factory : ModelFactory;
  env_roller_factory : ReplayEnvRollerFactory;
  seed : Z
}.

(** The calls on collaborators, in the order they are made. *)
Inductive Event : Type :=
| EvEpochBegin (callback : nat)
| EvBatchBegin (batch : Z) (callback : nat)
| EvBatchEnd (batch : Z) (callback : nat)
| EvEpochEnd (callback : nat)
| EvCalculate (batch : Z)
| EvFreezeResults
| EvFreezeEpochResult
| EvRollout
| EvZeroGrad
| EvSample (size : Z)
| EvBackward (loss : Qc)
| EvUpdate (sample : BatchSample) (losses : list Qc)
| EvClip (max_norm : R)
| EvStep.

End Data.

(** ** Collaborators *)

(** The operations of the collaborators (spec section 6). They are total
    functions on the state they own; what they read is passed to them. *)
Class Collaborators `{Carriers} : Type := {
  (** [Model.__call__]: per-action values for a batch of observations;
      may depend on the mode of the model. *)
  forward : Model → list Observation → list (list Qc);
  (** [Model.reset_weights()]: a fresh initialisation of the weights. *)
  reset_weights : StateDict → StateDict;
  (** [Model.to(device)] *)
  to : Model → Device → Model;
  (** [loss.backward()]: given the loss as a function of the weights of the
      model the graph was recorded on, the parameter list of that model
      with the gradients accumulated. *)
  backward : (StateDict → outcome Qc) → Model → list Param;

  (** [ReplayEnvRollerBase] *)
  is_ready_for_sampling : EnvRoller → bool;
  rollout : BatchInfo → Model → EnvRoller → EnvRoller * option EpisodeInfo;
  sample : BatchInfo → Z → Model → EnvRoller → EnvRoller * BatchSample;
  update : BatchSample → list Qc → EnvRoller → EnvRoller;
  (** [environment.reset()] on the environment that the env-roller and the
      reinforcer share. *)
  reset : EnvRoller → EnvRoller * Observation;

  (** The optimizer, bound by the driver to the parameters of the train
      model: [zero_grad()] gives the parameter list with cleared
      gradients, [step(closure=None)] the new optimizer state and weights. *)
  zero_grad : Optimizer → Model → list Param;
  step : Optimizer → Model → Optimizer * StateDict;

  (** Callback hooks. A hook may change the callback itself, the scratch
      dictionary of the batch and the optimizer. *)
  on_epoch_begin : Callback → EpochInfo → Callback * Optimizer;
  on_epoch_end : Callback → EpochInfo → Callback * Optimizer;
  on_batch_begin : Callback → BatchInfo → Callback * (gmap string Value * Optimizer);
  on_batch_end : Callback → BatchInfo → Callback * (gmap string Value * Optimizer);

  (** [epoch_info.result_accumulator] and [epoch_info.freeze_epoch_result] *)
  calculate : BatchInfo → ResultAccumulator → ResultAccumulator;
  freeze_results : ResultAccumulator → ResultAccumulator;
  freeze_epoch_result : EpochInfo → EpochResult;

  (** The factories bound by [DqnReinforcerFactory]. *)
  instantiate_env : EnvFactory → Z → Environment;
  instantiate_env_roller :
    ReplayEnvRollerFactory → Environment → Device → DqnReinforcerSettings → EnvRoller;
  (** [model_factory.instantiate(action_space=env.action_space)] *)
  instantiate_model : ModelFactory → Environment → Model;

  (** Modelled from the spec: the constructor of [BatchInfo] (vel.api, not
      under src/) creates the context of one batch with its scratch
      dictionary (spec sections 3 and 6); what the dictionary holds at
      creation is left open. *)
  new_data_dict : EpochInfo → Z → gmap string Value
}.

(** ** The reinforcer *)

Section Reinforcer.
Context `{Collaborators}.

Local Open Scope Z_scope.

(** *** Small accessors *)

Definition set_training (b : bool) (m : Model) : Model :=
  {| state_dict := state_dict m; training := b; parameters := parameters m |}.

(** [model.eval()] and [model.train()] *)
Definition eval : Model → Model := set_training false.
Definition train : Model → Model := set_training true.

Definition set_parameters (ps : list Param) (m : Model) : Model :=
  {| state_dict := state_dict m; training := training m; parameters := ps |}.

(** [model.load_state_dict(sd)] *)
Definition load_state_dict (sd : StateDict) (m : Model) : Model :=
  {| state_dict := sd; training := training m; parameters := parameters m |}.

(** [batch_info[key]] *)
Definition getitem (batch_info : BatchInfo) (key : string) : outcome Value :=
  match data_dict batch_info !! key with
  | Some v => Returned v
  | None => Raised (KeyError key)
  end.

(** [batch_info[key] = v] *)
Definition setitem (key : string) (v : Value) (batch_info : BatchInfo) : BatchInfo :=
  {| epoch_info := epoch_info batch_info;
     batch_number := batch_number batch_info;
     data_dict := <[key := v]> (data_dict batch_info) |}.

Definition set_optimizer (o : Optimizer) (e : EpochInfo) : EpochInfo :=
  {| batches_per_epoch := batches_per_epoch e; callbacks := callbacks e;
     optimizer := o; result_accumulator := result_accumulator e;
     result := result e |}.

Definition set_callbacks (cbs : list Callback) (e : EpochInfo) : EpochInfo :=
  {| batches_per_epoch := batches_per_epoch e; callbacks := cbs;
     optimizer := optimizer e; result_accumulator := result_accumulator e;
     result := result e |}.

Definition set_result_accumulator (a : ResultAccumulator) (e : EpochInfo) : EpochInfo :=
  {| batches_per_epoch := batches_per_epoch e; callbacks := callbacks e;
     optimizer := optimizer e; result_accumulator := a; result := result e |}.

Definition set_result (r : EpochResult) (e : EpochInfo) : EpochInfo :=
  {| batches_per_epoch := batches_per_epoch e; callbacks := callbacks e;
     optimizer := optimizer e; result_accumulator := result_accumulator e;
     result := Some r |}.

Definition set_epoch_info (e : EpochInfo) (b : BatchInfo) : BatchInfo :=
  {| epoch_info := e; batch_number := batch_number b; data_dict := data_dict b |}.

Definition set_data_dict (d : gmap string Value) (b : BatchInfo) : BatchInfo :=
  {| epoch_info := epoch_info b; batch_number := batch_number b; data_dict := d |}.

(** The argument of [Schedule.value] must be a number. *)
Definition as_float (v : Value) : outcome Qc :=
  match v with
  | VFloat q => Returned q
  | VInt z => Returned (Q2Qc (inject_Z z))
  | _ => Raised TypeError
  end.

(** *** [create] and [DqnReinforcerFactory] *)

(** [create(model_config, model, env, env_roller, ...)]: the attrs class
    [DqnReinforcerSettings] has no validators and [create] checks nothing. *)
Definition create (model_config_seed : Z) (model : ModelFactory) (env : EnvFactory)
    (env_roller : ReplayEnvRollerFactory) (epsilon_schedule : Qc → Qc)
    (train_frequency batch_size target_update_frequency : Z)
    (discount_factor : Qc) (max_grad_norm : option R) (double_dqn : bool)
    : outcome DqnReinforcerFactory :=
  let settings :=
    {| epsilon_schedule := epsilon_schedule;
       train_frequency := train_frequency;
       batch_size := batch_size;
       double_dqn := double_dqn;
       target_update_frequency := target_update_frequency;
       discount_factor := discount_factor;
       max_grad_norm := max_grad_norm |} in
  Returned {| factory_settings := settings; env_factory := env;
              model_factory := model; env_roller_factory := env_roller;
              seed := model_config_seed |}.

(** [DqnReinforcer.__init__] *)
Definition init (device : Device) (settings : DqnReinforcerSettings)
    (environment : Environment) (train_model target_model : Model)
    (env_roller : EnvRoller) : DqnReinforcer :=
  let '(roller, observation) := reset env_roller in
  {| device := device; settings := settings; environment := environment;
     train_model := to train_model device;
     target_model := to target_model device;
     last_observation := observation;
     env_roller := roller |}.

(** [DqnReinforcerFactory.instantiate] *)
Definition instantiate (factory : DqnReinforcerFactory) (device : Device)
    : outcome DqnReinforcer :=
  let env := instantiate_env (env_factory factory) (seed factory) in
  let env_roller :=
    instantiate_env_roller (env_roller_factory factory) env device
      (factory_settings factory) in
  let train_model := instantiate_model (model_factory factory) env in
  let target_model := instantiate_model (model_factory factory) env in
  Returned (init device (factory_settings factory) env train_model target_model env_roller).

(** *** [initialize_training] *)

Definition initialize_training (self : DqnReinforcer) : DqnReinforcer :=
  let train_model :=
    load_state_dict (reset_weights (state_dict (train_model self))) (train_model self) in
  let target_model := load_state_dict (state_dict train_model) (target_model self) in
  {| device := device self; settings := settings self;
     environment := environment self;
     train_model := train_model; target_model := target_model;
     last_observation := last_observation self;
     env_roller := env_roller self |}.

(** *** [train_batch]: the rollout phase (lines 112-130) *)

(** The local variables of the rollout loops, with the trace. *)
Record Rolling : Type := mkRolling {
  roller : EnvRoller;
  frames : Z;
  episode_information : list EpisodeInfo;
  rolling_trace : list Event
}.

(** The body shared by both loops: one [rollout] call, the optional
    episode record appended, [frames += 1]. *)
Definition rollout_step (batch_info : BatchInfo) (model : Model) (s : Rolling) : Rolling :=
  let '(roller', maybe_episode_info) := rollout batch_info model (roller s) in
  {| roller := roller';
     frames := frames s + 1;
     episode_information :=
       match maybe_episode_info with
       | Some info => episode_information s ++ [info]
       | None => episode_information s
       end;
     rolling_trace := rolling_trace s ++ [EvRollout] |}.

(** [while not self.env_roller.is_ready_for_sampling(): ...] *)
Fixpoint warm_up (fuel : nat) (batch_info : BatchInfo) (model : Model) (s : Rolling)
    : outcome Rolling :=
  if is_ready_for_sampling (roller s) then Returned s
  else match fuel with
       | O => OutOfFuel
       | S fuel' => warm_up fuel' batch_info model (rollout_step batch_info model s)
       end.

(** [for i in range(self.settings.train_frequency): ...] *)
Definition steady (train_frequency : Z) (batch_info : BatchInfo) (model : Model)
    (s : Rolling) : Rolling :=
  Nat.iter (Z.to_nat train_frequency) (rollout_step batch_info model) s.

Definition rollout_phase (fuel : nat) (settings : DqnReinforcerSettings)
    (batch_info : BatchInfo) (model : Model) (s : Rolling) : outcome Rolling :=
  if negb (is_ready_for_sampling (roller s))
  then warm_up fuel batch_info model s
  else Returned (steady (train_frequency settings) batch_info model s).

(** *** [train_batch]: the temporal-difference target (lines 144-155) *)

(** [values]: the bootstrap value of every sampled transition. *)
Definition bootstrap_values (settings : DqnReinforcerSettings)
    (target_model model : Model) (observation_tplus1 : list Observation)
    : outcome (list Qc) :=
  if double_dqn settings then
    let target_values := forward target_model observation_tplus1 in
    let model_values := forward model observation_tplus1 in
    do selected <- traverse Tensor.argmax model_values;
    Tensor.gather target_values (map Z.of_nat selected)
  else
    traverse Tensor.max (forward target_model observation_tplus1).

(** [rewards + discount_factor * values * (1 - dones)] on exact scalars;
    [Float32.expected_q_of] is the same line on 32-bit floats. *)
Definition expected_q_of (settings : DqnReinforcerSettings) (values : list Qc)
    (batch_sample : BatchSample) : outcome (list Qc) :=
  let dones_tensor := map Tensor.astype_float32 (dones batch_sample) in
  do bootstrap <-
    Tensor.broadcast2 Qcmult
      (map (Qcmult (discount_factor settings)) values)
      (map (λ d, (1 - d)%Qc) dones_tensor);
  Tensor.broadcast2 Qcplus (rewards batch_sample) bootstrap.

Definition td_target (settings : DqnReinforcerSettings) (target_model model : Model)
    (batch_sample : BatchSample) : outcome (list Qc) :=
  do values <- bootstrap_values settings target_model model (states_plus_1 batch_sample);
  expected_q_of settings values batch_sample.

(** *** [train_batch]: the loss (lines 157-163) *)

(** [q_selected]: the value of the taken action in every sample. *)
Definition q_selected_of (model : Model) (batch_sample : BatchSample) : outcome (list Qc) :=
  Tensor.gather (forward model (states batch_sample)) (actions batch_sample).

Definition original_losses_of (model : Model) (batch_sample : BatchSample)
    (expected_q : list Qc) : outcome (list Qc) :=
  do q_selected <- q_selected_of model batch_sample;
  Tensor.smooth_l1_loss q_selected expected_q.

(** [torch.mean(weights_tensor * original_losses)] *)
Definition weighted_mean (batch_sample : BatchSample) (original_losses : list Qc)
    : outcome Qc :=
  do weighted <- Tensor.broadcast2 Qcmult (weights batch_sample) original_losses;
  Tensor.mean weighted.

(** The scalar that [loss.backward()] differentiates, as a function of the
    weights of the train model: [expected_q] was computed under
    [torch.no_grad()] and is passed detached, so it enters as a constant. *)
Definition objective (model : Model) (batch_sample : BatchSample) (expected_q : list Qc)
    (w : StateDict) : outcome Qc :=
  do original_losses <- original_losses_of (load_state_dict w model) batch_sample expected_q;
  weighted_mean batch_sample original_losses.

(** The loss computation of one batch sample (lines 144-163): the
    detached target, the per-sample losses and the scalar loss. *)
Definition compute_loss (settings : DqnReinforcerSettings) (target_model model : Model)
    (batch_sample : BatchSample) : outcome (list Qc * list Qc * Qc) :=
  do expected_q <- td_target settings target_model model batch_sample;
  do original_losses <- original_losses_of model batch_sample expected_q;
  do loss <- weighted_mean batch_sample original_losses;
  Returned (expected_q, original_losses, loss).

(** *** [train_batch]: gradient clipping (lines 169-175) *)

Definition clip_phase (settings : DqnReinforcerSettings) (model : Model)
    (batch_info : BatchInfo) (trace : list Event) : Model * BatchInfo * list Event :=
  match max_grad_norm settings with
  | Some max_norm =>
      let '(ps, grad_norm) :=
        Grad.clip_grad_norm_ requires_grad (parameters model) max_norm in
      (set_parameters ps model,
       setitem "grad_norm" (VNorm grad_norm) batch_info,
       trace ++ [EvClip max_norm])
  | None => (model, batch_info, trace)
  end.

(** *** [train_batch] *)

Definition set_models (train_model target_model : Model) (env_roller : EnvRoller)
    (self : DqnReinforcer) : DqnReinforcer :=
  {| device := device self; settings := settings self;
     environment := environment self;
     train_model := train_model; target_model := target_model;
     last_observation := last_observation self;
     env_roller := env_roller |}.

(** Lines 165-180: backward pass, priority feedback, gradient clipping,
    optimizer step and the scratch fields of the batch. [model] is the
    train model the loss was computed on, [rolled] the state the rollout
    phase ended in, [roller] the env-roller after sampling. *)
Definition optimise (batch_info : BatchInfo) (self : DqnReinforcer)
    (model target_model : Model) (rolled : Rolling) (roller : EnvRoller)
    (batch_sample : BatchSample) (expected_q original_losses : list Qc) (loss : Qc)
    (trace : list Event) : BatchInfo * DqnReinforcer * list Event :=
  let model :=
    set_parameters (backward (objective model batch_sample expected_q) model) model in
  let trace := trace ++ [EvBackward loss] in
  let roller := update batch_sample original_losses roller in
  let trace := trace ++ [EvUpdate batch_sample original_losses] in
  let '(model, batch_info, trace) := clip_phase (settings self) model batch_info trace in
  let '(optimizer', weights') := step (optimizer (epoch_info batch_info)) model in
  let model := load_state_dict weights' model in
  let batch_info :=
    set_epoch_info (set_optimizer optimizer' (epoch_info batch_info)) batch_info in
  let trace := trace ++ [EvStep] in
  let batch_info := setitem "frames" (VInt (frames rolled)) batch_info in
  let batch_info :=
    setitem "episode_infos" (VEpisodes (episode_information rolled)) batch_info in
  (batch_info, set_models model target_model roller self, trace).

(** Lines 132-180: experience replay and the training step, from the
    state [rolled] the rollout phase ended in. *)
Definition replay_phase (batch_info : BatchInfo) (self : DqnReinforcer)
    (model target_model : Model) (rolled : Rolling)
    : outcome (BatchInfo * DqnReinforcer * list Event) :=
  let settings := settings self in
  let model := train model in
  let model := set_parameters (zero_grad (optimizer (epoch_info batch_info)) model) model in
  let trace := rolling_trace rolled ++ [EvZeroGrad] in
  let '(roller, batch_sample) :=
    sample batch_info (batch_size settings) model (roller rolled) in
  let trace := trace ++ [EvSample (batch_size settings)] in
  do (expected_q, original_losses, loss) <-
    compute_loss settings target_model model batch_sample;
  Returned (optimise batch_info self model target_model rolled roller batch_sample
              expected_q original_losses loss trace).

Definition train_batch (fuel : nat) (batch_info : BatchInfo) (self : DqnReinforcer)
    (trace : list Event) : outcome (BatchInfo * DqnReinforcer * list Event) :=
  let settings := settings self in
  (* 1. Prepare everything *)
  let model := eval (train_model self) in
  let target_model := eval (target_model self) in
  (* 2. Choose and evaluate actions, roll out env *)
  do progress <- getitem batch_info "progress";
  do progress <- as_float progress;
  let batch_info :=
    setitem "epsilon_value" (VFloat (epsilon_schedule settings progress)) batch_info in
  do rolled <-
    rollout_phase fuel settings batch_info model
      {| roller := env_roller self; frames := 0;
         episode_information := []; rolling_trace := trace |};
  (* 2. Perform experience replay and train the network *)
  replay_phase batch_info self model target_model rolled.

(** *** [train_epoch] *)

(** One turn of [for callback in batch_info.callbacks: callback.hook(batch_info)]
    for the callback at position [k]: the hook runs on the batch context as
    it is now, and what it changed is stored back. *)
Definition batch_hook_step
    (hook : Callback → BatchInfo → Callback * (gmap string Value * Optimizer))
    (event : nat → Event) (st : BatchInfo * list Event) (k : nat)
    : BatchInfo * list Event :=
  let '(batch_info, trace) := st in
  match callbacks (epoch_info batch_info) !! k with
  | None => st
  | Some callback =>
      let '(callback', (data, optimizer')) := hook callback batch_info in
      let epoch :=
        set_callbacks (<[k := callback']> (callbacks (epoch_info batch_info)))
          (set_optimizer optimizer' (epoch_info batch_info)) in
      (set_data_dict data (set_epoch_info epoch batch_info), trace ++ [event k])
  end.

Definition batch_hooks
    (hook : Callback → BatchInfo → Callback * (gmap string Value * Optimizer))
    (event : nat → Event) (batch_info : BatchInfo) (trace : list Event)
    : BatchInfo * list Event :=
  foldl (batch_hook_step hook event) (batch_info, trace)
    (seq 0 (length (callbacks (epoch_info batch_info)))).

(** The same for [for callback in epoch_info.callbacks: callback.hook(epoch_info)]. *)
Definition epoch_hook_step (hook : Callback → EpochInfo → Callback * Optimizer)
    (event : nat → Event) (st : EpochInfo * list Event) (k : nat)
    : EpochInfo * list Event :=
  let '(epoch, trace) := st in
  match callbacks epoch !! k with
  | None => st
  | Some callback =>
      let '(callback', optimizer') := hook callback epoch in
      (set_callbacks (<[k := callback']> (callbacks epoch))
         (set_optimizer optimizer' epoch),
       trace ++ [event k])
  end.

Definition epoch_hooks (hook : Callback → EpochInfo → Callback * Optimizer)
    (event : nat → Event) (epoch : EpochInfo) (trace : list Event)
    : EpochInfo * list Event :=
  foldl (epoch_hook_step hook event) (epoch, trace) (seq 0 (length (callbacks epoch))).

(** The body of the loop over the batches of an epoch (lines 82-92). *)
Definition epoch_batch (fuel : nat) (st : EpochInfo * DqnReinforcer * list Event)
    (batch_idx : nat) : outcome (EpochInfo * DqnReinforcer * list Event) :=
  let '(epoch, self, trace) := st in
  let idx := Z.of_nat batch_idx in
  let batch_info :=
    {| epoch_info := epoch; batch_number := idx; data_dict := new_data_dict epoch idx |} in
  let '(batch_info, trace) := batch_hooks on_batch_begin (EvBatchBegin idx) batch_info trace in
  do (batch_info, self, trace) <- train_batch fuel batch_info self trace;
  let '(batch_info, trace) := batch_hooks on_batch_end (EvBatchEnd idx) batch_info trace in
  let epoch :=
    set_result_accumulator
      (calculate batch_info (result_accumulator (epoch_info batch_info)))
      (epoch_info batch_info) in
  Returned (epoch, self, trace ++ [EvCalculate idx]).

(** [for batch_idx in tqdm.trange(epoch_info.batches_per_epoch, ...)] *)
Fixpoint epoch_batches (fuel : nat) (st : EpochInfo * DqnReinforcer * list Event)
    (batch_indices : list nat) : outcome (EpochInfo * DqnReinforcer * list Event) :=
  match batch_indices with
  | [] => Returned st
  | batch_idx :: rest =>
      do st' <- epoch_batch fuel st batch_idx;
      epoch_batches fuel st' rest
  end.

Definition train_epoch (fuel : nat) (epoch : EpochInfo) (self : DqnReinforcer)
    (trace : list Event) : outcome (EpochInfo * DqnReinforcer * list Event) :=
  let '(epoch, trace) := epoch_hooks on_epoch_begin EvEpochBegin epoch trace in
  do (epoch, self, trace) <-
    epoch_batches fuel (epoch, self, trace)
      (seq 0 (Z.to_nat (batches_per_epoch epoch)));
  let epoch := set_result_accumulator (freeze_results (result_accumulator epoch)) epoch in
  let trace := trace ++ [EvFreezeResults] in
  let epoch := set_result (freeze_epoch_result epoch) epoch in
  let trace := trace ++ [EvFreezeEpochResult] in
  let '(epoch, trace) := epoch_hooks on_epoch_end EvEpochEnd epoch trace in
  Returned (epoch, self, trace).

(** A training run after [initialize_training]: one [train_epoch] per
    epoch context handed in by the driver. *)
Fixpoint train_epochs (fuel : nat) (epochs : list EpochInfo) (self : DqnReinforcer)
    (trace : list Event) : outcome (list EpochInfo * DqnReinforcer * list Event) :=
  match epochs with
  | [] => Returned ([], self, trace)
  | epoch :: rest =>
      do (epoch', self, trace) <- train_epoch fuel epoch self trace;
      do (rest', self, trace) <- train_epochs fuel rest self trace;
      Returned (epoch' :: rest', self, trace)
  end.

End Reinforcer.

(** ** The temporal-difference target on 32-bit floats

    Line 155 of [train_batch] on the values that float32 tensors hold:
    IEEE 754 binary32 numbers (24 bits of precision, largest exponent 128)
    with their signed zeros, infinities and NaN, and the operations with
    rounding to nearest even, as [SpecFloat] specifies them. The tensors
    have one dimension and equal sizes; [discount_factor] is the Python
    float after torch's conversion to the tensor's type. *)

Module Float32.

#[warnings="-notation-for-abbreviation"]
Notation float := spec_float.

Definition prec : Z := 24.
Definition emax : Z := 128.

Definition add : float → float → float := SFadd prec emax.
Definition sub : float → float → float := SFsub prec emax.
Definition mul : float → float → float := SFmul prec emax.

Definition zero : float := S754_zero false.
Definition one : float := S754_finite false (2 ^ 23) (-23).

(** [numpy.ndarray.astype(np.float32)] on an array of booleans. *)
Definition astype_float32 (b : bool) : float := if b then one else zero.

Definition is_finite (x : float) : bool :=
  match x with
  | S754_zero _ | S754_finite _ _ _ => true
  | S754_infinity _ | S754_nan => false
  end.

(** One entry of
    [rewards_tensor + discount_factor * values * (1 - dones_tensor.float())]. *)
Definition expected_q (discount_factor reward value : float) (done : bool) : float :=
  add reward (mul (mul discount_factor value) (sub one (astype_float32 done))).

(** The tensor [expected_q] of line 155. *)
Definition expected_q_of (discount_factor : float) (rewards values : list float)
    (dones : list bool) : list float :=
  let dones_tensor := map astype_float32 dones in
  zip_with add rewards
    (zip_with mul (map (mul discount_factor) values) (map (sub one) dones_tensor)).

(** The float32 nearest to 0.9, that is [0x3F666666]. *)
Definition nine_tenths : float := S754_finite false 15099494 (-24).

End Float32.

(** ** Vocabulary of the statements *)

Module Vocabulary.

Local Open Scope Qc_scope.

(** [a] is an index of a largest entry of [row]. *)
Definition maximises (row : list Qc) (a : nat) : Prop :=
  ∃ v, row !! a = Some v ∧ ∀ x, x ∈ row → x <= v.

(** [v] is the largest entry of [row]. *)
Definition is_max (row : list Qc) (v : Qc) : Prop :=
  v ∈ row ∧ ∀ x, x ∈ row → x <= v.

Section WithCollaborators.
Context `{Collaborators}.

(** The state of the rollout loops after [n] rollout steps. *)
Definition rollouts (n : nat) (batch_info : BatchInfo) (model : Model) (s : Rolling)
    : Rolling :=
  Nat.iter n (rollout_step batch_info model) s.

(** The env-roller is ready for sampling after [n] rollout steps and was
    not ready after any smaller number of steps. *)
Definition ready_after (n : nat) (batch_info : BatchInfo) (model : Model) (s : Rolling)
    : Prop :=
  is_ready_for_sampling (roller (rollouts n batch_info model s)) = true ∧
  ∀ k, (k < n)%nat →
    is_ready_for_sampling (roller (rollouts k batch_info model s)) = false.

(** The batch context once [epsilon_value] is stored (line 110). *)
Definition with_epsilon (self : DqnReinforcer) (progress : Qc) (batch_info : BatchInfo)
    : BatchInfo :=
  setitem "epsilon_value" (VFloat (epsilon_schedule (settings self) progress)) batch_info.

(** The local variables at the start of the rollout phase (lines 106, 112). *)
Definition start_rolling (self : DqnReinforcer) (trace : list Event) : Rolling :=
  {| roller := env_roller self; frames := 0;
     episode_information := []; rolling_trace := trace |}.

(** The train model after [model.train()] and [optimizer.zero_grad()]
    (lines 133-134). *)
Definition prepared (batch_info : BatchInfo) (self : DqnReinforcer) : Model :=
  let model := train (eval (train_model self)) in
  set_parameters (zero_grad (optimizer (epoch_info batch_info)) model) model.

(** The events of the clipping step. *)
Definition clip_events (settings : DqnReinforcerSettings) : list Event :=
  match max_grad_norm settings with
  | Some max_norm => [EvClip max_norm]
  | None => []
  end.

(** The events of a batch other than its rollouts. *)
Definition is_rollout (e : Event) : bool :=
  match e with EvRollout => true | _ => false end.



Definition count (p : Event → bool) (trace : list Event) : nat :=
  length (filter (λ e, p e = true) trace).



(** One transition of a batch sample, and the batch sample made of a
    list of transitions. *)
Record Row : Type := mkRow {
  row_state : Observation;
  row_next : Observation;
  row_done : bool;
  row_reward : Qc;
  row_action : Z;
  row_weight : Qc
}.

Definition batch_of (rows : list Row) : BatchSample :=
  {| states := map row_state rows;
     states_plus_1 := map row_next rows;
     dones := map row_done rows;
     rewards := map row_reward rows;
     actions := map row_action rows;
     weights := map row_weight rows |}.

(** The model maps every observation of a batch on its own. *)
Definition row_wise (model : Model) : Prop :=
  ∃ f : Observation → list Qc,
    ∀ observations, forward model observations = map f observations.

(** [torch.mean(weights * F.smooth_l1_loss(q_selected, expected_q))] on
    aligned tensors. *)
Definition weighted_smooth_l1_mean (weights q_selected expected_q : list Qc) : Qc :=
  (Tensor.sum (zip_with Qcmult weights (zip_with Tensor.smooth_l1 q_selected expected_q))
   / Q2Qc (inject_Z (Z.of_nat (length expected_q))))%Qc.

(** The tensors [expected_q] and [weights * original_losses] of a batch of
    rows, from the bootstrap values and the values of the taken actions. *)
Definition expected_of (settings : DqnReinforcerSettings) (rows : list Row)
    (values : list Qc) : list Qc :=
  zip_with Qcplus (map row_reward rows)
    (zip_with Qcmult (map (Qcmult (discount_factor settings)) values)
       (map (λ d, (1 - d)%Qc) (map Tensor.astype_float32 (map row_done rows)))).

Definition weighted_of (settings : DqnReinforcerSettings) (rows : list Row)
    (values qs : list Qc) : list Qc :=
  zip_with Qcmult (map row_weight rows)
    (zip_with Tensor.smooth_l1 qs (expected_of settings rows values)).

(** The ranges that spec section 3 gives for the settings. *)
Definition valid_settings (s : DqnReinforcerSettings) : Prop :=
  (1 ≤ train_frequency s)%Z ∧ (1 ≤ batch_size s)%Z ∧
  (1 ≤ target_update_frequency s)%Z ∧
  (0 <= discount_factor s)%Qc ∧ (discount_factor s < 1)%Qc ∧
  match max_grad_norm s with Some c => (0 < c)%R | None => True end.

(** The reinforcer with another [target_update_frequency]. *)
Definition set_target_update_frequency (k : Z) (self : DqnReinforcer) : DqnReinforcer :=
  {| device := device self;
     settings :=
       {| epsilon_schedule := epsilon_schedule (settings self);
          train_frequency := train_frequency (settings self);
          batch_size := batch_size (settings self);
          double_dqn := double_dqn (settings self);
          target_update_frequency := k;
          discount_factor := discount_factor (settings self);
          max_grad_norm := max_grad_norm (settings self) |};
     environment := environment self;
     train_model := train_model self; target_model := target_model self;
     last_observation := last_observation self;
     env_roller := env_roller self |}.

End WithCollaborators.

End Vocabulary.

(** ** Reordered batches *)

Module Reordering.

(** The list [l] in the order [σ]: position [k] of the result holds the
    item that [l] has at position [σ !! k]. *)
Definition reorder {A : Type} (σ : list nat) (l : list A) : list A :=
  omap (λ i, l !! i) σ.

Section WithCollaborators.
Context `{Collaborators}.

(** The network gives one row of values per observation, and its output
    follows every reordering of the batch. Networks that map every
    observation on its own are of this kind, and so are networks that
    normalise over the batch. *)
Definition batchwise (model : Model) : Prop :=
  ∀ observations,
    length (forward model observations) = length observations ∧
    ∀ σ, Permutation σ (seq 0 (length observations)) →
         forward model (reorder σ observations) = reorder σ (forward model observations).

End WithCollaborators.

End Reordering.

(** ** A toy instance of the collaborators

    The scenario of spec section 8: two discrete actions, reward +1 on
    action 0 and -1 on action 1, episodes of five steps. The network is a
    table of one value per action, the replay buffer a list that is warm
    from three transitions on, and replay is uniform (all weights one). *)

Module Toy.

Record Transition : Type := mkTransition {
  t_state : Z;
  t_next : Z;
  t_action : Z;
  t_reward : Qc;
  t_done : bool
}.

#[export] Instance carriers : Carriers := {|
  Observation := Z;
  StateDict := list Qc;
  EnvRoller := list Transition;
  Optimizer := Z;
  EpisodeInfo := Z;
  Callback := nat;
  ResultAccumulator := list Z;
  EpochResult := nat;
  EnvFactory := unit;
  ModelFactory := unit;
  ReplayEnvRollerFactory := unit;
  Environment := unit;
  Device := unit
|}.

Definition greedy (model : Model) : Z :=
  match Tensor.argmax (state_dict model) with
  | Returned a => Z.of_nat a
  | _ => 0%Z
  end.

Definition toy_rollout (batch_info : BatchInfo) (model : Model) (buffer : list Transition)
    : list Transition * option Z :=
  let t := Z.of_nat (length buffer) in
  let a := greedy model in
  let last := (t mod 5 =? 4)%Z in
  (buffer ++ [{| t_state := (t mod 5)%Z; t_next := ((t + 1) mod 5)%Z; t_action := a;
                 t_reward := if (a =? 0)%Z then 1%Qc else (- (1))%Qc;
                 t_done := last |}],
   if last then Some (t / 5)%Z else None).

Definition toy_sample (batch_info : BatchInfo) (size : Z) (model : Model)
    (buffer : list Transition) : list Transition * BatchSample :=
  let rows := take (Z.to_nat size) (reverse buffer) in
  (buffer,
   {| states := map t_state rows;
      states_plus_1 := map t_next rows;
      dones := map t_done rows;
      rewards := map t_reward rows;
      actions := map t_action rows;
      weights := map (λ _, 1%Qc) rows |}).

Definition toy_gradients : list Param :=
  [ {| requires_grad := true; grad := Some [3%R; 4%R] |};
    {| requires_grad := false; grad := Some [1%R] |} ].

#[export] Instance collaborators : Collaborators := {|
  forward model observations := map (λ _, state_dict model) observations;
  reset_weights w := map (λ _, 0%Qc) w;
  to model device := model;
  backward loss model := toy_gradients;
  is_ready_for_sampling buffer := bool_decide (3 ≤ length buffer);
  rollout := toy_rollout;
  sample := toy_sample;
  update batch_sample losses buffer := buffer;
  reset buffer := (buffer, 0%Z);
  zero_grad o model :=
    map (λ p, {| requires_grad := requires_grad p; grad := None |}) (parameters model);
  step o model := ((o + 1)%Z, map (λ w, (w - Q2Qc (1 # 10))%Qc) (state_dict model));
  on_epoch_begin callback epoch := (S callback, optimizer epoch);
  on_epoch_end callback epoch := (S callback, optimizer epoch);
  on_batch_begin callback batch_info :=
    (S callback, (data_dict batch_info, optimizer (epoch_info batch_info)));
  on_batch_end callback batch_info :=
    (S callback, (data_dict batch_info, optimizer (epoch_info batch_info)));
  calculate batch_info accumulator := accumulator ++ [batch_number batch_info];
  freeze_results accumulator := accumulator;
  freeze_epoch_result epoch := length (result_accumulator epoch);
  instantiate_env factory seed := tt;
  instantiate_env_roller factory env device settings := [];
  instantiate_model factory env :=
    {| state_dict := [0%Qc; 0%Qc]; training := true; parameters := [] |};
  new_data_dict epoch idx := {[ "progress" := VFloat (Q2Qc (1 # 2)) ]}
|}.

Definition toy_settings (double : bool) (cap : option R) : DqnReinforcerSettings :=
  {| epsilon_schedule := λ progress, (1 - progress)%Qc;
     train_frequency := 1;
     batch_size := 2;
     double_dqn := double;
     target_update_frequency := 10;
     discount_factor := Q2Qc (9 # 10);
     max_grad_norm := cap |}.

(** Train and target network disagree: the train network prefers action 1,
    the target network values action 0 highest. *)
Definition toy_train_model : Model :=
  {| state_dict := [Q2Qc 1; Q2Qc 3]; training := true;
     parameters := [ {| requires_grad := true; grad := None |};
                     {| requires_grad := false; grad := None |} ] |}.

Definition toy_target_model : Model :=
  {| state_dict := [Q2Qc 5; Q2Qc 2]; training := true;
     parameters := [ {| requires_grad := true; grad := None |};
                     {| requires_grad := false; grad := None |} ] |}.

Definition toy_reinforcer (double : bool) (cap : option R) (buffer : list Transition)
    : DqnReinforcer :=
  {| device := tt; settings := toy_settings double cap; environment := tt;
     train_model := toy_train_model; target_model := toy_target_model;
     last_observation := 0%Z; env_roller := buffer |}.

Definition toy_epoch (batches : Z) : EpochInfo :=
  {| batches_per_epoch := batches; callbacks := [0%nat; 0%nat]; optimizer := 0%Z;
     result_accumulator := []; result := None |}.

(** A sample of two transitions, the first of which ends its episode. *)
Definition toy_batch_sample : BatchSample :=
  {| states := [4%Z; 0%Z];
     states_plus_1 := [0%Z; 1%Z];
     dones := [true; false];
     rewards := [Q2Qc 1; Q2Qc (-1)];
     actions := [0%Z; 1%Z];
     weights := [Q2Qc 1; Q2Qc 1] |}.

(** The same sample, transition by transition. *)
Definition toy_rows : list Vocabulary.Row :=
  [ {| Vocabulary.row_state := 4%Z; Vocabulary.row_next := 0%Z;
       Vocabulary.row_done := true; Vocabulary.row_reward := Q2Qc 1;
       Vocabulary.row_action := 0%Z; Vocabulary.row_weight := Q2Qc 1 |};
    {| Vocabulary.row_state := 0%Z; Vocabulary.row_next := 1%Z;
       Vocabulary.row_done := false; Vocabulary.row_reward := Q2Qc (-1);
       Vocabulary.row_action := 1%Z; Vocabulary.row_weight := Q2Qc 1 |} ].

Definition toy_batch : BatchInfo :=
  {| epoch_info := toy_epoch 2; batch_number := 0;
     data_dict := {[ "progress" := VFloat (Q2Qc (1 # 2)) ]} |}.

End Toy.

(** ** More of the reinforcer: metrics and what a batch reports *)

Module Reporting.

(** The metrics that [DqnReinforcer.metrics] builds, by class and name. *)
Inductive Metric : Type :=
| FramesMetric (name : string)
| FPSMetric (name : string)
| EpisodeRewardMetric (name : string)
| EpisodeRewardMetricQuantile (name : string) (quantile : Qc)
| EpisodeLengthMetric (name : string)
| AveragingNamedMetric (name : string).

Section WithCollaborators.
Context `{Collaborators}.

(** [DqnReinforcer.metrics] (lines 52-66) *)
Definition metrics (self : DqnReinforcer) : list Metric :=
  let my_metrics :=
    [ FramesMetric "frames";
      FPSMetric "fps";
      EpisodeRewardMetric "PMM:episode_rewards";
      EpisodeRewardMetricQuantile "P09:episode_rewards" (Q2Qc (9 # 10));
      EpisodeRewardMetricQuantile "P01:episode_rewards" (Q2Qc (1 # 10));
      EpisodeLengthMetric "episode_length" ] in
  match max_grad_norm (settings self) with
  | Some _ => my_metrics ++ [AveragingNamedMetric "grad_norm"]
  | None => my_metrics
  end.

(** [DqnReinforcer.model] (lines 68-70) *)
Definition model (self : DqnReinforcer) : Model := train_model self.

(** The episode records that the first [n] rollout steps return, in the
    order of the steps. *)
Definition episodes_of (n : nat) (batch_info : BatchInfo) (policy : Model) (s : Rolling)
    : list EpisodeInfo :=
  omap (λ k, (rollout batch_info policy
                (roller (Vocabulary.rollouts k batch_info policy s))).2)
    (seq 0 n).

(** The keys of the batch dictionary that [train_batch] assigns. *)
Definition written_keys : list string :=
  ["epsilon_value"; "grad_norm"; "frames"; "episode_infos"].

End WithCollaborators.

End Reporting.

(** Variants of the toy instance: the same collaborators with another
    forward pass of the networks, another readiness test of the replay
    buffer and another initial batch dictionary. *)
Module ToyVariant.

Import Toy.

Definition variant (forward' : Model → list Observation → list (list Qc))
    (ready : list Transition → bool) (initial : gmap string Value)
    : Collaborators := {|
  forward := forward';
  reset_weights := reset_weights (Collaborators := Toy.collaborators);
  to := to (Collaborators := Toy.collaborators);
  backward := backward (Collaborators := Toy.collaborators);
  is_ready_for_sampling := ready;
  rollout := rollout (Collaborators := Toy.collaborators);
  sample := sample (Collaborators := Toy.collaborators);
  update := update (Collaborators := Toy.collaborators);
  reset := reset (Collaborators := Toy.collaborators);
  zero_grad := zero_grad (Collaborators := Toy.collaborators);
  step := step (Collaborators := Toy.collaborators);
  on_epoch_begin := on_epoch_begin (Collaborators := Toy.collaborators);
  on_epoch_end := on_epoch_end (Collaborators := Toy.collaborators);
  on_batch_begin := on_batch_begin (Collaborators := Toy.collaborators);
  on_batch_end := on_batch_end (Collaborators := Toy.collaborators);
  calculate := calculate (Collaborators := Toy.collaborators);
  freeze_results := freeze_results (Collaborators := Toy.collaborators);
  freeze_epoch_result := freeze_epoch_result (Collaborators := Toy.collaborators);
  instantiate_env := instantiate_env (Collaborators := Toy.collaborators);
  instantiate_env_roller := instantiate_env_roller (Collaborators := Toy.collaborators);
  instantiate_model := instantiate_model (Collaborators := Toy.collaborators);
  new_data_dict epoch idx := initial
|}.

Definition collaborators (ready : list Transition → bool)
    (initial : gmap string Value) : Collaborators :=
  variant (forward (Collaborators := Toy.collaborators)) ready initial.

(** A replay buffer that never gets ready for sampling. *)
Definition stuck : Collaborators :=
  collaborators (λ _, false) {[ "progress" := VFloat (Q2Qc (1 # 2)) ]}.

(** A driver that does not provide the training progress. *)
Definition without_progress : Collaborators :=
  collaborators (λ buffer, bool_decide (3 ≤ length buffer)) ∅.

(** Networks whose output depends on the position in the batch: the row
    at position [i] is the table of the network with [i] added to every
    entry. *)
Definition positional_forward (model : Model) (observations : list Observation)
    : list (list Qc) :=
  imap (λ i _, map (λ w, (w + Q2Qc (inject_Z (Z.of_nat i)))%Qc) (state_dict model))
    observations.

Definition positional : Collaborators :=
  variant positional_forward (λ buffer, bool_decide (3 ≤ length buffer))
    {[ "progress" := VFloat (Q2Qc (1 # 2)) ]}.

(** Networks whose output depends on the whole batch, but not on its
    order: the table of the network with the size of the batch added to
    every entry. *)
Definition batch_dependent_forward (model : Model) (observations : list Observation)
    : list (list Qc) :=
  map (λ _, map (λ w, (w + Q2Qc (inject_Z (Z.of_nat (length observations))))%Qc)
              (state_dict model))
    observations.

Definition batch_dependent : Collaborators :=
  variant batch_dependent_forward (λ buffer, bool_decide (3 ≤ length buffer))
    {[ "progress" := VFloat (Q2Qc (1 # 2)) ]}.

End ToyVariant.

(** ** The learning-rate cycle of waterboy

    Source: [waterboy/phase/cycle.py], classes [CycleCallback] and
    [CyclePhase]. Python integers and the entries of numpy integer arrays
    are unbounded integers ([Z]); the values that serve as learning rates
    are numbers of an arbitrary type or lists of such values. *)

Module Py.

(** Exceptions of the code modelled below. *)
Inductive exception : Type :=
| IndexError
| TypeError
| ValueError
| OverflowError
| FileNotFoundError (path : string).

Inductive result (A : Type) : Type :=
| Ok (a : A)
| Raise (e : exception).

Arguments Ok {A} a.
Arguments Raise {A} e.

Definition and_then {A B : Type} (m : result A) (k : A → result B) : result B :=
  match m with
  | Ok a => k a
  | Raise e => Raise e
  end.

(** Whether a call returned. *)
Definition returned {A : Type} (m : result A) : bool :=
  match m with
  | Ok _ => true
  | Raise _ => false
  end.

End Py.

Notation "'try' x <- m ; k" := (Py.and_then m (fun x => k))
  (at level 10, x pattern, m at level 100, k at level 200,
   format "'[v' 'try'  x  <-  m ; '/' k ']'").

Module Cycle.
Import Py.

Local Open Scope Z_scope.

(** A list comprehension: [f] on the items from left to right, up to the
    first one that raises. *)
Fixpoint comprehension {A B : Type} (f : A → result B) (l : list A) : result (list B) :=
  match l with
  | [] => Ok []
  | x :: l' => try y <- f x; try ys <- comprehension f l'; Ok (y :: ys)
  end.

(** The value of [self.epochs]: an integer, or a float when the power
    [cycle_mult ** cycles] has a negative exponent. *)
Inductive Epochs : Type :=
| Int (n : Z)
| Float.

Definition number_of_epochs (cycle_len cycle_mult cycles : Z) : Epochs :=
  if decide (cycle_mult > 1) then
    if decide (cycles < 0) then Float
    else Int (cycle_len * (cycle_mult ^ cycles - 1) / (cycle_mult - 1))
  else Int (cycle_mult * cycles).

(** [np.zeros(n, dtype=int)]: a float as the size is a type error, a
    negative size a value error. *)
Definition zeros (n : Epochs) : result (list Z) :=
  match n with
  | Float => Raise TypeError
  | Int n => if decide (n < 0) then Raise ValueError else Ok (replicate (Z.to_nat n) 0)
  end.

(** The position that index [i] denotes in a numpy array of length [len]:
    indices from [-len] to [len - 1] are valid, negative ones count from
    the end. *)
Definition position (len : nat) (i : Z) : result nat :=
  if decide (0 ≤ i < Z.of_nat len) then Ok (Z.to_nat i)
  else if decide (- Z.of_nat len ≤ i < 0) then Ok (Z.to_nat (Z.of_nat len + i))
  else Raise IndexError.

(** [arr[i] = v] *)
Definition np_setitem (arr : list Z) (i : Z) (v : Z) : result (list Z) :=
  try k <- position (length arr) i;
  Ok (<[k := v]> arr).

(** [arr[i]] *)
Definition np_getitem (arr : list Z) (i : Z) : result Z :=
  try k <- position (length arr) i;
  match arr !! k with
  | Some v => Ok v
  | None => Raise IndexError
  end.

(** The arrays and counters of [_init_cycle_dict]. *)
Record Filling : Type := mkFilling {
  dict_arr : list Z;
  length_arr : list Z;
  start_arr : list Z;
  c_len : Z;
  idx : Z
}.

(** The body of the inner loop, [for j in range(c_len)]. *)
Definition fill_one (i current_start : Z) (f : Filling) : result Filling :=
  try dict_arr' <- np_setitem (dict_arr f) (idx f) i;
  try length_arr' <- np_setitem (length_arr f) (idx f) (c_len f);
  try start_arr' <- np_setitem (start_arr f) (idx f) current_start;
  Ok {| dict_arr := dict_arr'; length_arr := length_arr'; start_arr := start_arr';
        c_len := c_len f; idx := idx f + 1 |}.

Fixpoint fill_cycle (steps : nat) (i current_start : Z) (f : Filling) : result Filling :=
  match steps with
  | O => Ok f
  | S steps' =>
      try f' <- fill_one i current_start f;
      fill_cycle steps' i current_start f'
  end.

(** The body of the outer loop, [for i in range(self.cycles)]. *)
Definition fill_next (cycle_mult : Z) (i : Z) (f : Filling) : result Filling :=
  let current_start := idx f in
  try f' <- fill_cycle (Z.to_nat (c_len f)) i current_start f;
  Ok {| dict_arr := dict_arr f'; length_arr := length_arr f'; start_arr := start_arr f';
        c_len := c_len f' * cycle_mult; idx := idx f' |}.

Fixpoint fill_cycles (cycle_mult : Z) (cycle_indices : list nat) (f : Filling)
    : result Filling :=
  match cycle_indices with
  | [] => Ok f
  | i :: rest =>
      try f' <- fill_next cycle_mult (Z.of_nat i) f;
      fill_cycles cycle_mult rest f'
  end.

(** [CycleCallback._init_cycle_dict] *)
Definition _init_cycle_dict (epochs : Epochs) (cycles cycle_len cycle_mult : Z)
    : result (list Z * list Z * list Z) :=
  try dict_arr0 <- zeros epochs;
  try length_arr0 <- zeros epochs;
  try start_arr0 <- zeros epochs;
  try f <- fill_cycles cycle_mult (seq 0 (Z.to_nat cycles))
             {| dict_arr := dict_arr0; length_arr := length_arr0;
                start_arr := start_arr0; c_len := cycle_len; idx := 0 |};
  Ok (dict_arr f, length_arr f, start_arr f).

(** The float [numerator / denominator] of two numpy integers; a zero
    denominator gives an infinity or NaN, with a warning and no exception.
    Rounding is outside the model. *)
Inductive Quotient : Type :=
| Finite (q : Qc)
| Infinity
| NegativeInfinity
| NaN.

Definition true_divide (numerator denominator : Z) : Quotient :=
  if decide (denominator = 0) then
    if decide (0 < numerator) then Infinity
    else if decide (numerator < 0) then NegativeInfinity
    else NaN
  else Finite (Qc_of_Z numerator / Qc_of_Z denominator)%Qc.

(** The value of an integer in numpy's [int64]: arithmetic on [int64]
    scalars wraps around modulo [2^64]. *)
Definition int64 (z : Z) : Z := (z + 2 ^ 63) mod 2 ^ 64 - 2 ^ 63.

Definition fits_int64 (z : Z) : Prop := - 2 ^ 63 ≤ z < 2 ^ 63.

(** The conversion of a Python integer that meets an [int64] scalar. *)
Definition as_int64 (z : Z) : result Z :=
  if decide (fits_int64 z) then Ok z else Raise OverflowError.

(** The fields of the batch context that [on_batch_begin] reads. *)
Record BatchInfo : Type := mkBatchInfo {
  local_epoch_number : Z;
  batches_per_epoch : Z;
  batch_number : Z
}.

Section Values.

(** The numbers that serve as learning rates. *)
Context {Number : Type}.

(** A learning rate: a number, or a list ([isinstance(lr, list)]). *)
#[warnings="-register-all"] Inductive Value : Type :=
| Num (x : Number)
| List (items : list Value).

(** A parameter group of the optimizer: its learning-rate entries by name. *)
#[warnings="-notation-for-abbreviation"] Local Notation ParamGroup := (gmap string Value).

Record CycleCallback : Type := mkCycleCallback {
  max_lr : Value;
  min_lr : Value;
  cycles : Z;
  cycle_len : Z;
  cycle_mult : Z;
  init_iter : Z;
  init_lr : Value;
  epochs : Epochs;
  optimizer : list ParamGroup;
  interpolate : string;
  cycle_dict : list Z;
  cycle_lengths : list Z;
  cycle_starts : list Z
}.

(** [CycleCallback.__init__] *)
Definition init (optimizer : list ParamGroup) (max_lr min_lr : Value)
    (cycles cycle_len cycle_mult init_iter : Z) (init_lr : Value) (interpolate : string)
    : result CycleCallback :=
  let epochs := number_of_epochs cycle_len cycle_mult cycles in
  try arrays <- _init_cycle_dict epochs cycles cycle_len cycle_mult;
  Ok {| max_lr := max_lr; min_lr := min_lr; cycles := cycles;
        cycle_len := cycle_len; cycle_mult := cycle_mult;
        init_iter := init_iter; init_lr := init_lr; epochs := epochs;
        optimizer := optimizer; interpolate := interpolate;
        cycle_dict := arrays.1.1; cycle_lengths := arrays.1.2;
        cycle_starts := arrays.2 |}.

(** The parameter groups after [set_lr]: a list is zipped with the groups,
    any other value goes to every group. *)
Definition with_lr (lr : Value) (groups : list ParamGroup) : list ParamGroup :=
  match lr with
  | List lrs =>
      zip_with (λ group_lr param_group, <["lr" := group_lr]> param_group) lrs
        (take (length lrs) groups)
      ++ drop (length lrs) groups
  | Num _ => map (λ param_group, <["lr" := lr]> param_group) groups
  end.

(** [CycleCallback.set_lr] *)
Definition set_lr (self : CycleCallback) (lr : Value) : CycleCallback :=
  {| max_lr := max_lr self; min_lr := min_lr self; cycles := cycles self;
     cycle_len := cycle_len self; cycle_mult := cycle_mult self;
     init_iter := init_iter self; init_lr := init_lr self; epochs := epochs self;
     optimizer := with_lr lr (optimizer self); interpolate := interpolate self;
     cycle_dict := cycle_dict self; cycle_lengths := cycle_lengths self;
     cycle_starts := cycle_starts self |}.

(** [waterboy.util.intepolate.interpolate_single(start, end, coefficient, how)]
    is not under src/. *)
Variable interpolate_single : Value → Value → Quotient → string → result Value.

(** The learning rate of [on_batch_begin] outside the warm-up: the branch
    [isinstance(self.max_lr, list)] zips the two lists, and [zip] refuses a
    number as its second argument. *)
Definition interpolated (self : CycleCallback) (interpolation_number : Quotient)
    : result Value :=
  match max_lr self with
  | List max_lrs =>
      match min_lr self with
      | List min_lrs =>
          try lrs <- comprehension
                       (λ pair, interpolate_single pair.1 pair.2 interpolation_number
                                  (interpolate self))
                       (zip max_lrs min_lrs);
          Ok (List lrs)
      | Num _ => Raise TypeError
      end
  | Num _ =>
      interpolate_single (max_lr self) (min_lr self) interpolation_number
        (interpolate self)
  end.

(** [CycleCallback.on_batch_begin]. The entries [cycle_length] and
    [cycle_start] are numpy [int64] scalars, so that the numerator and the
    denominator are computed in [int64]: every operation wraps around. The
    Python integers of the batch context are converted to [int64] on the
    way, which NumPy refuses with [OverflowError] for an integer outside
    its range (NumPy 2; older versions promote such an operand to another
    type instead). *)
Definition on_batch_begin (self : CycleCallback) (batch_info : BatchInfo)
    : result CycleCallback :=
  try cycle_length <- np_getitem (cycle_lengths self) (local_epoch_number batch_info - 1);
  try cycle_start <- np_getitem (cycle_starts self) (local_epoch_number batch_info - 1);
  try _ <- as_int64 (local_epoch_number batch_info);
  try _ <- as_int64 (batches_per_epoch batch_info);
  try _ <- as_int64 (batch_number batch_info);
  let numerator :=
    int64 (int64 (int64 (int64 (local_epoch_number batch_info - cycle_start) - 1)
                  * batches_per_epoch batch_info)
           + batch_number batch_info) in
  let denominator := int64 (cycle_length * batches_per_epoch batch_info) in
  let interpolation_number := true_divide numerator denominator in
  try lr <-
    (if decide (cycle_start = 0 ∧ numerator < init_iter self) then Ok (init_lr self)
     else interpolated self interpolation_number);
  Ok (set_lr self lr).

(** [CyclePhase]: the optimizer factory together with
    [module_util.to_parameter_groups] and [model.get_layer_groups] is the
    field [optimizer_factory], from models to parameter groups. *)
Context {Model Source : Type}.

Record CyclePhase : Type := mkCyclePhase {
  phase_max_lr : Value;
  phase_min_lr : Value;
  phase_cycles : Z;
  phase_cycle_len : Z;
  phase_cycle_mult : Z;
  phase_epochs : Epochs;
  phase_interpolate : string;
  phase_init_iter : Z;
  phase_init_lr : Value;
  optimizer_factory : Model → list ParamGroup;
  freeze : bool;
  _optimizer_instance : option (list ParamGroup);
  _source : option Source;
  special_callback : option CycleCallback
}.

(** [CyclePhase.__init__] *)
Definition phase_init (optimizer_factory : Model → list ParamGroup)
    (max_lr min_lr : Value) (cycles cycle_len cycle_mult : Z) (interpolate : string)
    (init_lr : Value) (init_iter : Z) (freeze : bool) : CyclePhase :=
  {| phase_max_lr := max_lr; phase_min_lr := min_lr; phase_cycles := cycles;
     phase_cycle_len := cycle_len; phase_cycle_mult := cycle_mult;
     phase_epochs := number_of_epochs cycle_len cycle_mult cycles;
     phase_interpolate := interpolate;
     phase_init_iter := init_iter; phase_init_lr := init_lr;
     optimizer_factory := optimizer_factory; freeze := freeze;
     _optimizer_instance := None; _source := None; special_callback := None |}.

(** [CyclePhase.number_of_epochs] *)
Definition phase_number_of_epochs (self : CyclePhase) : Epochs := phase_epochs self.

(** [CyclePhase.set_up_phase]: the phase after the call and the optimizer
    that is returned. The optimizer and the source are assigned before the
    callback is built. *)
Definition set_up_phase (self : CyclePhase) (model : Model) (source : Source)
    : result (CyclePhase * list ParamGroup) :=
  let optimizer_instance := optimizer_factory self model in
  try callback <- init optimizer_instance (phase_max_lr self) (phase_min_lr self)
                    (phase_cycles self) (phase_cycle_len self) (phase_cycle_mult self)
                    (phase_init_iter self) (phase_init_lr self) (phase_interpolate self);
  Ok ({| phase_max_lr := phase_max_lr self; phase_min_lr := phase_min_lr self;
         phase_cycles := phase_cycles self; phase_cycle_len := phase_cycle_len self;
         phase_cycle_mult := phase_cycle_mult self; phase_epochs := phase_epochs self;
         phase_interpolate := phase_interpolate self;
         phase_init_iter := phase_init_iter self; phase_init_lr := phase_init_lr self;
         optimizer_factory := optimizer_factory self; freeze := freeze self;
         _optimizer_instance := Some optimizer_instance; _source := Some source;
         special_callback := Some callback |},
      optimizer_instance).


End Values.

Arguments Value : clear implicits.
Arguments CycleCallback : clear implicits.
Arguments CyclePhase : clear implicits.

#[warnings="-notation-for-abbreviation"] Notation ParamGroup Number := (gmap string (Value Number)) (only parsing).

(** The layout that the arrays are meant to have: cycle [i] spans
    [cycle_len * cycle_mult ^ i] epochs (none when that is negative) and
    starts where the cycles before it end. *)
Definition length_of_cycle (cycle_len cycle_mult : Z) (i : nat) : Z :=
  cycle_len * cycle_mult ^ Z.of_nat i.

Definition span_of_cycle (cycle_len cycle_mult : Z) (i : nat) : nat :=
  Z.to_nat (length_of_cycle cycle_len cycle_mult i).

(** The epochs that the [n] cycles from cycle [a] on span together. *)
Definition total (cycle_len cycle_mult : Z) (a n : nat) : nat :=
  sum_list (map (span_of_cycle cycle_len cycle_mult) (seq a n)).

(** One entry per epoch of the [n] cycles from cycle [a] on. *)
Definition segments (cycle_len cycle_mult : Z) (a n : nat) (entry : nat → Z) : list Z :=
  flat_map (λ i, replicate (span_of_cycle cycle_len cycle_mult i) (entry i)) (seq a n).

Definition start_of_cycle (cycle_len cycle_mult : Z) (i : nat) : Z :=
  Z.of_nat (total cycle_len cycle_mult 0 i).

Definition layout (cycle_len cycle_mult : Z) (cycles : nat) (entry : nat → Z) : list Z :=
  segments cycle_len cycle_mult 0 cycles entry.

(** The callback whose arrays hold the layout of its cycles, followed by
    zeros up to [e] epochs. *)
Definition scheduled {Number : Type} (optimizer : list (ParamGroup Number))
    (max_lr min_lr : Value Number) (cycles cycle_len cycle_mult init_iter : Z)
    (init_lr : Value Number) (interpolate : string) (e : Z) : CycleCallback Number :=
  let n := Z.to_nat cycles in
  let rest := replicate (Z.to_nat (e - start_of_cycle cycle_len cycle_mult n)) 0 in
  {| max_lr := max_lr; min_lr := min_lr; cycles := cycles;
     cycle_len := cycle_len; cycle_mult := cycle_mult;
     init_iter := init_iter; init_lr := init_lr;
     epochs := Int e; optimizer := optimizer; interpolate := interpolate;
     cycle_dict := layout cycle_len cycle_mult n Z.of_nat ++ rest;
     cycle_lengths := layout cycle_len cycle_mult n (length_of_cycle cycle_len cycle_mult)
                      ++ rest;
     cycle_starts := layout cycle_len cycle_mult n (start_of_cycle cycle_len cycle_mult)
                     ++ rest |}.

(** Linear interpolation on rationals, for use as [interpolate_single] in
    examples. *)
Definition linear (start finish : Value Qc) (coefficient : Quotient) (how : string)
    : result (Value Qc) :=
  match start, finish, coefficient with
  | Num a, Num b, Finite t => Ok (Num (a + (b - a) * t)%Qc)
  | _, _, _ => Raise TypeError
  end.

End Cycle.

(** ** The classic storage of waterboy

    Source: [waterboy/storage/classic.py], class [ClassicStorage]. The files
    of the checkpoint directory are a finite map from file names to the
    objects that [torch.save] wrote; [model_config.checkpoint_dir(name)]
    is the file of that name in the directory. File names are ASCII. *)

Module Classic.
Import Py.

Local Open Scope Z_scope.

(** *** File names *)

(** The decimal digits of a natural number, as [str] prints them. *)
Definition digits (n : N) : string := NilEmpty.string_of_uint (N.to_uint n).

Fixpoint zeros (n : nat) : string :=
  match n with
  | O => EmptyString
  | S n' => String "0"%char (zeros n')
  end.

(** Zero padding on the left up to [width] characters. *)
Definition zero_pad (width : nat) (s : string) : string :=
  (zeros (width - String.length s) +:+ s)%string.

(** ['{:08}'.format(epoch_idx)]: the padding goes between the sign and the
    digits. *)
Definition format_08 (epoch_idx : Z) : string :=
  if decide (epoch_idx < 0) then String "-"%char (zero_pad 7 (digits (Z.to_N (- epoch_idx))))
  else zero_pad 8 (digits (Z.to_N epoch_idx)).

(** [ClassicStorage.checkpoint_filename] *)
Definition checkpoint_filename (epoch_idx : Z) : string :=
  ("checkpoint_" +:+ format_08 epoch_idx +:+ ".data")%string.

(** [ClassicStorage.checkpoint_best_filename] *)
Definition checkpoint_best_filename (epoch_idx : Z) : string :=
  ("checkpoint_best_" +:+ format_08 epoch_idx +:+ ".data")%string.

(** [ClassicStorage.checkpoint_hidden_filename] *)
Definition checkpoint_hidden_filename (epoch_idx : Z) : string :=
  ("checkpoint_hidden_" +:+ format_08 epoch_idx +:+ ".data")%string.

(** *** The pattern of [_persisted_last_epoch] *)

(** The rest of [s] after the prefix [p], if [s] starts with [p]. *)
Fixpoint after_prefix (p s : string) : option string :=
  match p with
  | EmptyString => Some s
  | String a p' =>
      match s with
      | EmptyString => None
      | String b s' => if decide (a = b) then after_prefix p' s' else None
      end
  end.

Definition is_digit (c : ascii) : bool :=
  (48 <=? nat_of_ascii c)%nat && (nat_of_ascii c <=? 57)%nat.

(** The longest prefix of digits and what follows it: the greedy [\d+]. *)
Fixpoint span_digits (s : string) : string * string :=
  match s with
  | EmptyString => (EmptyString, EmptyString)
  | String c s' =>
      if is_digit c then (String c (span_digits s').1, (span_digits s').2)
      else (EmptyString, s)
  end.

(** Group 1 of [re.match('checkpoint_(\\d+)\\.data', x)]. The match is
    anchored at the start of [x] only. The character after the digits is no
    digit, so that backtracking into [\d+] cannot produce another match. *)
Definition re_match (x : string) : option string :=
  match after_prefix "checkpoint_" x with
  | Some rest =>
      let found := span_digits rest in
      if decide (found.1 = EmptyString) then None
      else match after_prefix ".data" found.2 with
           | Some _ => Some found.1
           | None => None
           end
  | None => None
  end.

(** [int(s)] for a string of digits. *)
Definition int (s : string) : Z :=
  match NilEmpty.uint_of_string s with
  | Some d => Z.of_N (N.of_uint d)
  | None => 0
  end.

(** The body of the loop of [_persisted_last_epoch]. *)
Definition step (epoch_number : Z) (x : string) : Z :=
  match re_match x with
  | Some group =>
      let idx := int group in
      if decide (idx > epoch_number) then idx else epoch_number
  | None => epoch_number
  end.

(** The loop of [_persisted_last_epoch] over the names of [os.listdir]. *)
Definition last_epoch_of (names : list string) : Z := fold_left step names 0.

(** The checkpoint index that the loop reads off a file name. *)
Definition recognised (x : string) : option Z := int <$> re_match x.

Fixpoint digits_only (s : string) : bool :=
  match s with
  | EmptyString => true
  | String c s' => is_digit c && digits_only s'
  end.

Section Storage.

(** The objects that models and optimizers give as their state. *)
Context {Obj : Type}.

(** What [torch.save] writes and [torch.load] reads back: the state of a
    model, or a hidden-state dictionary. *)
Inductive Saved : Type :=
| State (state : Obj)
| Hidden (hidden_state : gmap string Obj).

(** The files of the checkpoint directory. *)
#[warnings="-notation-for-abbreviation"] Local Notation Files := (gmap string Saved).

(** [torch.save(obj, path)] *)
Definition torch_save (obj : Saved) (path : string) (files : Files) : Files :=
  <[path := obj]> files.

(** [torch.load(path)] *)
Definition torch_load (path : string) (files : Files) : result Saved :=
  match files !! path with
  | Some obj => Ok obj
  | None => Raise (FileNotFoundError path)
  end.

(** [os.remove(path)] *)
Definition os_remove (path : string) (files : Files) : result Files :=
  match files !! path with
  | Some _ => Ok (delete path files)
  | None => Raise (FileNotFoundError path)
  end.

(** [os.listdir(directory)], in some order. *)
Definition os_listdir (files : Files) : list string := (map_to_list files).*1.

(** The collaborators of the storage: model, optimizer, callbacks,
    checkpoint strategy, metrics backend, and the [restore] of the base
    class. Methods that change their object return the changed object;
    [load_state_dict] returns the model as the call leaves it and the
    exception that it raised, if any. *)
Class Collaborators : Type := {
  Model : Type;
  Optimizer : Type;
  Callback : Type;
  Strategy : Type;
  Backend : Type;
  Base : Type;
  Result : Type;
  Frame : Type;
  Streaming : Type;
  state_dict : Model → Obj;
  load_state_dict : Model → Saved → Model * option exception;
  optimizer_state_dict : Optimizer → Obj;
  callback_write_state_dict : Callback → gmap string Obj → gmap string Obj;
  strategy_restore : Strategy → Saved → Strategy;
  strategy_write_state_dict : Strategy → gmap string Obj → gmap string Obj;
  should_delete_previous_checkpoint : Strategy → Z → Strategy * bool;
  should_store_best_checkpoint : Strategy → Z → Result → Strategy * bool;
  current_best_checkpoint_idx : Strategy → option Z;
  store_best_checkpoint_idx : Strategy → Z → Strategy;
  backend_get_frame : Backend → Frame;
  backend_clean : Backend → Z → Backend;
  backend_store : Backend → Result → Backend;
  base_restore : Base → Saved → Base
}.

Context `{Collaborators}.

Record ClassicStorage : Type := mkClassicStorage {
  base : Base;
  backend : Backend;
  streaming : list Streaming;
  checkpoint_strategy : Strategy;
  cleaned : bool
}.

(** [ClassicStorage.__init__]: [streaming or []]. *)
Definition init (base : Base) (backend : Backend) (checkpoint_strategy : Strategy)
    (streaming : option (list Streaming)) : ClassicStorage :=
  {| base := base; backend := backend;
     streaming := match streaming with
                  | Some (item :: items) => item :: items
                  | _ => []
                  end;
     checkpoint_strategy := checkpoint_strategy; cleaned := false |}.

(** [create] of [waterboy/storage/classic.py] *)
Definition create (base : Base) (backend : Backend) (checkpoint_strategy : Strategy)
    (streaming : option (list Streaming)) : ClassicStorage :=
  init base backend checkpoint_strategy streaming.

(** [ClassicStorage.restore] *)
Definition restore (self : ClassicStorage) (hidden_state : Saved) : ClassicStorage :=
  {| base := base_restore (base self) hidden_state; backend := backend self;
     streaming := streaming self;
     checkpoint_strategy := strategy_restore (checkpoint_strategy self) hidden_state;
     cleaned := cleaned self |}.

(** [ClassicStorage._persisted_last_epoch] *)
Definition _persisted_last_epoch (files : Files) : Z := last_epoch_of (os_listdir files).

(** [ClassicStorage.resume_learning]: the storage and the model after the
    call, the epoch to resume from and the hidden state. The [try] statement
    covers both loads and [load_state_dict]; only [FileNotFoundError] is
    caught. *)
Definition resume_learning (self : ClassicStorage) (model : Model) (files : Files)
    : result (ClassicStorage * Model * Z * option Saved) :=
  let last_epoch := _persisted_last_epoch files in
  if decide (last_epoch > 0) then
    match torch_load (checkpoint_filename last_epoch) files with
    | Raise (FileNotFoundError _) => Ok (self, model, 0, None)
    | Raise e => Raise e
    | Ok state =>
        let loaded := load_state_dict model state in
        match loaded.2 with
        | Some (FileNotFoundError _) => Ok (self, loaded.1, 0, None)
        | Some e => Raise e
        | None =>
            match torch_load (checkpoint_hidden_filename last_epoch) files with
            | Raise (FileNotFoundError _) => Ok (self, loaded.1, 0, None)
            | Raise e => Raise e
            | Ok hidden_state =>
                Ok (restore self hidden_state, loaded.1, last_epoch, Some hidden_state)
            end
        end
    end
  else Ok (self, model, last_epoch, None).

(** [ClassicStorage.get_frame] *)
Definition get_frame (self : ClassicStorage) : Frame := backend_get_frame (backend self).

(** [ClassicStorage.clean] *)
Definition clean (self : ClassicStorage) (global_epoch_idx : Z) : ClassicStorage :=
  if cleaned self then self
  else {| base := base self; backend := backend_clean (backend self) global_epoch_idx;
          streaming := streaming self; checkpoint_strategy := checkpoint_strategy self;
          cleaned := true |}.

(** [ClassicStorage.streaming_callbacks] *)
Definition streaming_callbacks (self : ClassicStorage) : list Streaming := streaming self.

(** The fields of the epoch context that [checkpoint] reads. *)
Record EpochInfo : Type := mkEpochInfo {
  global_epoch_idx : Z;
  optimizer : option Optimizer;
  callbacks : list Callback;
  result : Result
}.

Definition with_strategy (self : ClassicStorage) (strategy : Strategy) : ClassicStorage :=
  {| base := base self; backend := backend self; streaming := streaming self;
     checkpoint_strategy := strategy; cleaned := cleaned self |}.

Definition with_backend (self : ClassicStorage) (backend : Backend) : ClassicStorage :=
  {| base := base self; backend := backend; streaming := streaming self;
     checkpoint_strategy := checkpoint_strategy self; cleaned := cleaned self |}.

(** The hidden state that [checkpoint] saves. *)
Definition hidden_state_of (self : ClassicStorage) (epoch_info : EpochInfo)
    (state_dict : option (gmap string Obj)) : gmap string Obj :=
  let state_dict := default ∅ state_dict in
  let hidden_state := state_dict in
  let hidden_state :=
    match optimizer epoch_info with
    | Some optimizer => <["optimizer" := optimizer_state_dict optimizer]> hidden_state
    | None => hidden_state
    end in
  let hidden_state :=
    fold_left (λ hidden_state callback, callback_write_state_dict callback hidden_state)
      (callbacks epoch_info) hidden_state in
  strategy_write_state_dict (checkpoint_strategy self) hidden_state.

(** The step of [checkpoint] that deletes the previous checkpoint. *)
Definition delete_previous (self : ClassicStorage) (epoch_info : EpochInfo) (files : Files)
    : Py.result (ClassicStorage * Files) :=
  if decide (global_epoch_idx epoch_info > 1) then
    let asked :=
      should_delete_previous_checkpoint (checkpoint_strategy self)
        (global_epoch_idx epoch_info) in
    let self := with_strategy self asked.1 in
    if asked.2 then
      let prev_epoch_idx := global_epoch_idx epoch_info - 1 in
      try files <- os_remove (checkpoint_filename prev_epoch_idx) files;
      try files <- os_remove (checkpoint_hidden_filename prev_epoch_idx) files;
      Ok (self, files)
    else Ok (self, files)
  else Ok (self, files).

(** The step of [checkpoint] that stores the best checkpoint. *)
Definition store_best (self : ClassicStorage) (epoch_info : EpochInfo) (model : Model)
    (files : Files) : Py.result (ClassicStorage * Files) :=
  let asked :=
    should_store_best_checkpoint (checkpoint_strategy self)
      (global_epoch_idx epoch_info) (result epoch_info) in
  let self := with_strategy self asked.1 in
  if asked.2 then
    let best_checkpoint_idx := current_best_checkpoint_idx (checkpoint_strategy self) in
    try files <-
      match best_checkpoint_idx with
      | Some best_checkpoint_idx =>
          os_remove (checkpoint_best_filename best_checkpoint_idx) files
      | None => Ok files
      end;
    let files :=
      torch_save (State (state_dict model))
        (checkpoint_best_filename (global_epoch_idx epoch_info)) files in
    Ok (with_strategy self
          (store_best_checkpoint_idx (checkpoint_strategy self)
             (global_epoch_idx epoch_info)),
        files)
  else Ok (self, files).

(** [ClassicStorage.checkpoint] *)
Definition checkpoint (self : ClassicStorage) (epoch_info : EpochInfo) (model : Model)
    (state_dict_arg : option (gmap string Obj)) (files : Files)
    : Py.result (ClassicStorage * Files) :=
  let self := clean self (global_epoch_idx epoch_info) in
  let files :=
    torch_save (State (state_dict model))
      (checkpoint_filename (global_epoch_idx epoch_info)) files in
  let hidden_state := hidden_state_of self epoch_info state_dict_arg in
  let files :=
    torch_save (Hidden hidden_state)
      (checkpoint_hidden_filename (global_epoch_idx epoch_info)) files in
  try after_delete <- delete_previous self epoch_info files;
  try after_best <- store_best after_delete.1 epoch_info model after_delete.2;
  Ok (with_backend after_best.1 (backend_store (backend after_best.1) (result epoch_info)),
      after_best.2).

End Storage.

Arguments Saved : clear implicits.
Arguments Collaborators : clear implicits.

#[warnings="-notation-for-abbreviation"] Notation Files Obj := (gmap string (Saved Obj)) (only parsing).

End Classic.

(** ** Toy instances of the cycle and of the storage *)

Module ToyCycle.
Import Py Cycle.

Definition groups : list (ParamGroup Qc) :=
  [ {[ "lr" := Num (Q2Qc 1) ]};
    <["momentum" := Num (Q2Qc (9 # 10))]> {[ "lr" := Num (Q2Qc 1) ]} ].

Definition highest : Value Qc := Num (Q2Qc 1).

Definition lowest : Value Qc := Num (Q2Qc (1 # 10)).

Definition warm : Value Qc := Num (Q2Qc 0).

(** Three cycles of one, two and four epochs. *)
Definition growing : result (CycleCallback Qc) :=
  init groups highest lowest 3 1 2 2 warm "linear".

(** Three cycles of one epoch each. *)
Definition constant : result (CycleCallback Qc) :=
  init groups highest lowest 3 1 1 0 warm "linear".

Definition factory (model : unit) : list (ParamGroup Qc) := groups.

End ToyCycle.

Module ToyStorage.
Import Py Classic.

(** Models and optimizers are their single weight; a callback writes one
    entry; the strategy remembers the best index, always deletes the
    previous checkpoint and stores a best one for positive results; the
    backend is the list of the stored results. *)
Definition collaborators : Collaborators Z :=
  {| Model := Z;
     Optimizer := Z;
     Callback := string * Z;
     Strategy := option Z;
     Backend := list Z;
     Base := unit;
     Result := Z;
     Frame := list Z;
     Streaming := unit;
     state_dict := λ model, model;
     load_state_dict := λ model saved,
       match saved with
       | State state => (state, None)
       | Hidden _ => (model, Some TypeError)
       end;
     optimizer_state_dict := λ optimizer, optimizer;
     callback_write_state_dict := λ callback hidden_state,
       <[callback.1 := callback.2]> hidden_state;
     strategy_restore := λ strategy _, strategy;
     strategy_write_state_dict := λ _ hidden_state, hidden_state;
     should_delete_previous_checkpoint := λ strategy _, (strategy, true);
     should_store_best_checkpoint := λ strategy _ result,
       (strategy, bool_decide (0 < result)%Z);
     current_best_checkpoint_idx := λ strategy, strategy;
     store_best_checkpoint_idx := λ _ epoch_idx, Some epoch_idx;
     backend_get_frame := λ backend, backend;
     backend_clean := λ _ _, [];
     backend_store := λ backend result, result :: backend;
     base_restore := λ base _, base |}.

Definition storage : @ClassicStorage Z collaborators :=
  @create Z collaborators tt [7%Z] None None.

Definition epoch (n : Z) : @EpochInfo Z collaborators :=
  @mkEpochInfo Z collaborators n (Some 4%Z) [("seen", 2%Z)] 1%Z.

Definition trained : @Model Z collaborators := 3%Z.

Definition fresh : @Model Z collaborators := 0%Z.

(** The directory after the checkpoint of the first epoch. *)
Definition first_files : Files Z :=
  <[checkpoint_hidden_filename 1 := Hidden ∅]>
    (<[checkpoint_filename 1 := State 3%Z]> ∅).

End ToyStorage.

(** * Proofs *)

(** ** Outcomes *)

Lemma bind_Returned {A B} (m : outcome A) (k : A → outcome B) (b : B) :
  bind m k = Returned b → ∃ a, m = Returned a ∧ k a = Returned b.
Proof. destruct m; simpl; intros; [eauto | discriminate | discriminate]. Qed.

(** Inverts the first [bind] of a computation that is known to return. *)
Tactic Notation "inv_bind" hyp(H) "as" simple_intropattern(a) ident(Ha) :=
  apply bind_Returned in H; destruct H as (a & Ha & H).

Lemma traverse_Returned {A B} (f : A → outcome B) (l : list A) (r : list B) :
  traverse f l = Returned r → Forall2 (λ x y, f x = Returned y) l r.
Proof.
  revert r; induction l as [|x l IH]; simpl; intros r H.
  - injection H as <-. constructor.
  - inv_bind H as y Hy. inv_bind H as ys Hys. injection H as <-. constructor; auto.
Qed.

Lemma traverse_Forall2 {A B} (f : A → outcome B) (l : list A) (r : list B) :
  Forall2 (λ x y, f x = Returned y) l r → traverse f l = Returned r.
Proof. induction 1 as [|x y l r Hx _ IH]; simpl; [done|]. by rewrite Hx, IH. Qed.

(** ** Tensors *)

Module TensorFacts.
Import Tensor Vocabulary.
Local Open Scope Qc_scope.

Lemma Qcltb_lt (x y : Qc) : Qcltb x y = true ↔ x < y.
Proof.
  unfold Qcltb. rewrite Qclt_alt. destruct (x ?= y); split; congruence.
Qed.

Lemma Qcltb_ge (x y : Qc) : Qcltb x y = false ↔ y <= x.
Proof.
  split; intros Hxy.
  - destruct (Qclt_le_dec x y) as [Hlt|Hle]; [|done].
    apply Qcltb_lt in Hlt. congruence.
  - destruct (Qcltb x y) eqn:E; [|done].
    apply Qcltb_lt in E. by apply Qclt_not_le in E.
Qed.

Lemma argmax_from_maximises (done : list Qc) (row : list Qc) (best_i : nat) (best : Qc) :
  done !! best_i = Some best →
  (∀ x, x ∈ done → x <= best) →
  maximises (done ++ row) (argmax_from best_i best (length done) row).
Proof.
  revert done best_i best.
  induction row as [|x row IH]; intros done best_i best Hbest Hmax; simpl.
  - exists best. rewrite app_nil_r. done.
  - replace (done ++ x :: row) with ((done ++ [x]) ++ row) by by rewrite <- app_assoc.
    replace (S (length done)) with (length (done ++ [x]))
      by (rewrite length_app; simpl; lia).
    destruct (Qcltb best x) eqn:E.
    + apply Qcltb_lt in E. apply IH.
      * by rewrite lookup_app_r, Nat.sub_diag.
      * intros y [Hy | ->%list_elem_of_singleton]%elem_of_app.
        -- apply Qclt_le_weak. eapply Qcle_lt_trans; eauto.
        -- apply Qcle_refl.
    + apply Qcltb_ge in E. apply IH.
      * rewrite lookup_app_l; [done|]. by eapply lookup_lt_Some.
      * intros y [Hy | ->%list_elem_of_singleton]%elem_of_app; auto.
  Qed.

Lemma argmax_maximises (row : list Qc) (a : nat) :
  argmax row = Returned a → maximises row a.
Proof.
  destruct row as [|x row]; simpl; [done|]. intros [= <-].
  apply (argmax_from_maximises [x] row 0 x); [done|].
  intros y ->%list_elem_of_singleton. apply Qcle_refl.
Qed.

Lemma fold_max_is_max (done row : list Qc) (best : Qc) :
  best ∈ done →
  (∀ x, x ∈ done → x <= best) →
  is_max (done ++ row) (fold_left (λ best y, if Qcltb best y then y else best) row best).
Proof.
  revert done best.
  induction row as [|x row IH]; intros done best Hin Hmax; simpl.
  - rewrite app_nil_r. by split.
  - replace (done ++ x :: row) with ((done ++ [x]) ++ row) by by rewrite <- app_assoc.
    destruct (Qcltb best x) eqn:E.
    + apply Qcltb_lt in E. apply IH.
      * apply elem_of_app. right. by apply list_elem_of_singleton.
      * intros y [Hy | ->%list_elem_of_singleton]%elem_of_app.
        -- apply Qclt_le_weak. eapply Qcle_lt_trans; eauto.
        -- apply Qcle_refl.
    + apply Qcltb_ge in E. apply IH.
      * apply elem_of_app. by left.
      * intros y [Hy | ->%list_elem_of_singleton]%elem_of_app; auto.
Qed.

Lemma max_is_max (row : list Qc) (v : Qc) :
  Tensor.max row = Returned v → is_max row v.
Proof.
  destruct row as [|x row]; simpl; [done|]. intros [= <-].
  apply (fold_max_is_max [x] row x).
  - by apply list_elem_of_singleton.
  - intros y ->%list_elem_of_singleton. apply Qcle_refl.
Qed.

Lemma broadcast2_aligned (f : Qc → Qc → Qc) (xs ys : list Qc) :
  length xs = length ys → broadcast2 f xs ys = Returned (zip_with f xs ys).
Proof. intros Hlen. unfold broadcast2. by rewrite decide_True. Qed.

Lemma gather_Returned (input : list (list Qc)) (index : list Z) (vs : list Qc) :
  gather input index = Returned vs →
  length vs = length index ∧
  ∀ i a, index !! i = Some a →
    ∃ row v, input !! i = Some row ∧ (0 ≤ a)%Z ∧
             row !! Z.to_nat a = Some v ∧ vs !! i = Some v.
Proof.
  revert input vs.
  induction index as [|a index IH]; intros input vs Hg; simpl in Hg.
  - injection Hg as <-. split; [done|]. intros i b Hb. by rewrite lookup_nil in Hb.
  - destruct input as [|row input]; [done|].
    inv_bind Hg as v Hv. inv_bind Hg as vs' Hvs. injection Hg as <-.
    destruct (IH _ _ Hvs) as [Hlen Hrows].
    split; [simpl; by rewrite Hlen|].
    intros [|i] b Hb; simpl in *.
    + injection Hb as ->. unfold gather_row in Hv.
      destruct (decide (b < 0)%Z); [done|].
      destruct (row !! Z.to_nat b) as [w|] eqn:Hw; [|done].
      injection Hv as ->. exists row, v. repeat split; auto. lia.
    + by apply Hrows.
Qed.

End TensorFacts.

Lemma traverse_is_Returned {A B} (f : A → outcome B) (l : list A) :
  Forall (λ x, ∃ y, f x = Returned y) l → ∃ r, traverse f l = Returned r.
Proof.
  induction 1 as [|x l [y Hy] _ [r Hr]]; simpl; [by eexists|].
  rewrite Hy; simpl. rewrite Hr; simpl. by eexists.
Qed.

Lemma gather_is_Returned (input : list (list Qc)) (index : list Z) :
  (∀ i a, index !! i = Some a →
     ∃ row, input !! i = Some row ∧ (0 ≤ a < Z.of_nat (length row))%Z) →
  ∃ vs, Tensor.gather input index = Returned vs.
Proof.
  revert input. induction index as [|a index IH]; intros input Hok; simpl.
  - by eexists.
  - destruct (Hok 0%nat a eq_refl) as (row & Hrow & Ha).
    destruct input as [|row' input]; [done|]. injection Hrow as ->.
    unfold Tensor.gather_row. rewrite decide_False by lia.
    destruct (lookup_lt_is_Some_2 row (Z.to_nat a)) as [v Hv]; [lia|].
    rewrite Hv; simpl.
    destruct (IH input) as [vs Hvs].
    { intros i b Hb. apply (Hok (S i) b Hb). }
    rewrite Hvs; simpl. by eexists.
Qed.

(** ** The temporal-difference target *)

(** ** The target on 32-bit floats *)

Module Float32Facts.
Import Float32.

Lemma expected_q_of_lookup (discount_factor : float) (rewards values : list float)
    (dones : list bool) (i : nat) (reward value : float) (done : bool) :
  rewards !! i = Some reward → values !! i = Some value → dones !! i = Some done →
  expected_q_of discount_factor rewards values dones !! i
  = Some (expected_q discount_factor reward value done).
Proof.
  intros Hr Hv Hd. unfold expected_q_of.
  by rewrite !lookup_zip_with, !list_lookup_fmap, Hr, Hv, Hd.
Qed.

Lemma length_expected_q_of (discount_factor : float) (rewards values : list float)
    (dones : list bool) :
  length values = length rewards → length dones = length rewards →
  length (expected_q_of discount_factor rewards values dones) = length rewards.
Proof.
  intros Hv Hd. unfold expected_q_of. rewrite !length_zip_with, !length_map. lia.
Qed.

(** The bootstrap term of a terminal transition: a zero when the
    discounted value is finite, NaN otherwise. *)
Lemma bootstrap_terminal (x : float) :
  if is_finite x then ∃ s, mul x (sub one (astype_float32 true)) = S754_zero s
  else mul x (sub one (astype_float32 true)) = S754_nan.
Proof. destruct x as [s|s| |s m e]; cbn; eauto. Qed.

Lemma expected_q_terminal (discount_factor reward value : float) :
  if is_finite (mul discount_factor value) then
    match reward with
    | S754_zero _ => ∃ s, expected_q discount_factor reward value true = S754_zero s
    | _ => expected_q discount_factor reward value true = reward
    end
  else expected_q discount_factor reward value true = S754_nan.
Proof.
  unfold expected_q. pose proof (bootstrap_terminal (mul discount_factor value)) as Hb.
  destruct (is_finite (mul discount_factor value)).
  - destruct Hb as [s ->]. destruct reward as [[]|[]| |]; destruct s; cbn; eauto.
  - rewrite Hb. by destruct reward.
Qed.

(** Infinite and NaN outputs of the target network make the discounted
    value infinite or NaN. *)
Lemma mul_not_finite (discount_factor value : float) :
  is_finite value = false → is_finite (mul discount_factor value) = false.
Proof. destruct discount_factor as [| | |], value as [| | |]; cbn; done. Qed.

End Float32Facts.

Section Target.
Context `{Collaborators}.
Import Tensor TensorFacts Vocabulary.
Local Open Scope Qc_scope.

(** C1. In [train_batch] the bootstrap values are computed by
    [bootstrap_values]. With [double_dqn] the value of sample [i] is the
    target network's output on next-state [i] at an index that maximises
    the train network's output on that next-state; without it, it is the
    largest entry of the target network's output on next-state [i]. The
    computation returns whenever the network outputs have the shapes the
    selection needs. *)
Theorem bootstrap_values_selection (settings : DqnReinforcerSettings)
    (target_model model : Model) (next : list Observation) :
  let target_values := forward target_model next in
  let model_values := forward model next in
  (∀ values, bootstrap_values settings target_model model next = Returned values →
     if double_dqn settings then
       length values = length model_values ∧
       ∀ i model_row, model_values !! i = Some model_row →
         ∃ target_row a v,
           target_values !! i = Some target_row ∧ maximises model_row a ∧
           target_row !! a = Some v ∧ values !! i = Some v
     else
       length values = length target_values ∧
       ∀ i target_row, target_values !! i = Some target_row →
         ∃ v, values !! i = Some v ∧ is_max target_row v) ∧
  ((if double_dqn settings then
      ∀ i model_row, model_values !! i = Some model_row →
        model_row ≠ [] ∧
        ∃ target_row, target_values !! i = Some target_row ∧
                      (length model_row ≤ length target_row)%nat
    else ∀ target_row, target_row ∈ target_values → target_row ≠ []) →
   ∃ values, bootstrap_values settings target_model model next = Returned values).
Proof.
  intros target_values model_values. unfold bootstrap_values.
  fold target_values model_values. split.
  - intros values Hv. destruct (double_dqn settings).
    + inv_bind Hv as selected Hsel.
      apply traverse_Returned in Hsel. apply gather_Returned in Hv as [Hlen Hrows].
      split.
      { rewrite Hlen, length_map. symmetry. by eapply Forall2_length. }
      intros i model_row Hi.
      destruct (Forall2_lookup_l _ _ _ _ _ Hsel Hi) as (a & Ha & Harg).
      destruct (Hrows i (Z.of_nat a)) as (target_row & v & Ht & _ & Hv & Hval).
      { by rewrite list_lookup_fmap, Ha. }
      rewrite Nat2Z.id in Hv. exists target_row, a, v.
      split_and!; auto using argmax_maximises.
    + apply traverse_Returned in Hv. split.
      { symmetry. by eapply Forall2_length. }
      intros i target_row Hi.
      destruct (Forall2_lookup_l _ _ _ _ _ Hv Hi) as (v & Hval & Hmax).
      exists v. split; auto using max_is_max.
  - destruct (double_dqn settings); intros Hshape.
    + destruct (traverse_is_Returned argmax model_values) as [selected Hsel].
      { apply Forall_lookup. intros i row Hi. destruct (Hshape i row Hi) as [Hne _].
        destruct row; [done|]. by eexists. }
      rewrite Hsel; simpl. apply gather_is_Returned.
      intros i a Ha. rewrite list_lookup_fmap in Ha.
      destruct (selected !! i) as [n|] eqn:Hn; [|done]. injection Ha as <-.
      apply traverse_Returned in Hsel.
      destruct (Forall2_lookup_r _ _ _ _ _ Hsel Hn) as (row & Hrow & Harg).
      destruct (Hshape i row Hrow) as (_ & target_row & Ht & Hle).
      exists target_row. split; [done|].
      apply argmax_maximises in Harg as (v & Hv & _).
      apply lookup_lt_Some in Hv. lia.
    + apply traverse_is_Returned, Forall_forall. intros row Hrow.
      destruct row; [by apply Hshape in Hrow|]. by eexists.
Qed.

(** The target on exact scalars: given the bootstrap values of a batch
    whose arrays are aligned, [td_target] returns, and for every sample
    [expected_q] is [reward + discount_factor * value * (1 - done)]; where
    [done] is set it is the reward itself. *)
Lemma td_target_pointwise (settings : DqnReinforcerSettings)
    (target_model model : Model) (batch_sample : BatchSample) (values : list Qc) :
  bootstrap_values settings target_model model (states_plus_1 batch_sample)
    = Returned values →
  length values = length (rewards batch_sample) →
  length (dones batch_sample) = length (rewards batch_sample) →
  ∃ expected_q,
    td_target settings target_model model batch_sample = Returned expected_q ∧
    length expected_q = length (rewards batch_sample) ∧
    ∀ i reward value done,
      rewards batch_sample !! i = Some reward →
      values !! i = Some value →
      dones batch_sample !! i = Some done →
      expected_q !! i
        = Some (reward + discount_factor settings * value * (1 - astype_float32 done)) ∧
      (done = true → expected_q !! i = Some reward).
Proof.
  intros Hvalues Hlen_v Hlen_d. unfold td_target, expected_q_of.
  rewrite Hvalues; simpl.
  rewrite broadcast2_aligned by (by rewrite !length_map, Hlen_v, Hlen_d). simpl.
  rewrite broadcast2_aligned
    by (by rewrite length_zip_with, !length_map, Hlen_v, Hlen_d, Nat.min_id).
  eexists. split; [done|]. split.
  { rewrite !length_zip_with, !length_map. lia. }
  intros i reward value done Hr Hv Hd.
  assert (zip_with Qcplus (rewards batch_sample)
            (zip_with Qcmult (map (Qcmult (discount_factor settings)) values)
               (map (λ d, 1 - d) (map astype_float32 (dones batch_sample)))) !! i
          = Some (reward + discount_factor settings * value * (1 - astype_float32 done)))
    as Hi.
  { rewrite !lookup_zip_with, !list_lookup_fmap, Hr, Hv, Hd. done. }
  split; [done|]. intros ->. rewrite Hi. f_equal. simpl. ring.
Qed.

(** C2. Given the bootstrap values of a batch whose arrays are aligned,
    [td_target] returns, and for every sample [expected_q] is
    [reward + discount_factor * value * (1 - done)]; on exact scalars it is
    the reward itself where [done] is set. On 32-bit floats entry [i] of
    [expected_q] is that expression in float arithmetic, and where [done]
    is set it depends on the output of the target network: when the
    discounted value [discount_factor * value] is finite, [expected_q] is
    the reward (a zero for a reward that is a zero); when it is infinite or
    NaN, as it is for every infinite or NaN value, [expected_q] is NaN
    whatever the reward. *)
Theorem td_target_terminal :
  (∀ (settings : DqnReinforcerSettings) (target_model model : Model)
     (batch_sample : BatchSample) (values : list Qc),
     bootstrap_values settings target_model model (states_plus_1 batch_sample)
       = Returned values →
     length values = length (rewards batch_sample) →
     length (dones batch_sample) = length (rewards batch_sample) →
     ∃ expected_q,
       td_target settings target_model model batch_sample = Returned expected_q ∧
       length expected_q = length (rewards batch_sample) ∧
       ∀ i reward value done,
         rewards batch_sample !! i = Some reward →
         values !! i = Some value →
         dones batch_sample !! i = Some done →
         expected_q !! i
           = Some (reward
                   + discount_factor settings * value * (1 - astype_float32 done)) ∧
         (done = true → expected_q !! i = Some reward)) ∧
  (∀ (discount_factor : Float32.float) (rewards values : list Float32.float)
     (dones : list bool) (i : nat) (reward value : Float32.float) (done : bool),
     rewards !! i = Some reward → values !! i = Some value → dones !! i = Some done →
     let expected_q := Float32.expected_q discount_factor reward value done in
     Float32.expected_q_of discount_factor rewards values dones !! i = Some expected_q ∧
     (done = true →
      (if Float32.is_finite (Float32.mul discount_factor value) then
         match reward with
         | S754_zero _ => ∃ s, expected_q = S754_zero s
         | _ => expected_q = reward
         end
       else expected_q = S754_nan) ∧
      (Float32.is_finite value = false → expected_q = S754_nan))).
Proof.
  split.
  - apply td_target_pointwise.
  - intros discount_factor rewards values dones i reward value done Hr Hv Hd expected_q.
    split; [by apply Float32Facts.expected_q_of_lookup|].
    intros ->. subst expected_q.
    pose proof (Float32Facts.expected_q_terminal discount_factor reward value) as Ht.
    split; [done|]. intros Hinf.
    by rewrite (Float32Facts.mul_not_finite discount_factor value Hinf) in Ht.
Qed.

End Target.


(** ** The rollout phase *)

Section Rollout.
Context `{Collaborators}.
Import Vocabulary.

Implicit Types (batch_info : BatchInfo) (model : Model) (s : Rolling).

Lemma rollouts_S n batch_info model s :
  rollouts (S n) batch_info model s
  = rollouts n batch_info model (rollout_step batch_info model s).
Proof. unfold rollouts. by rewrite Nat.iter_succ_r. Qed.

Lemma rollout_step_frames batch_info model s :
  frames (rollout_step batch_info model s) = (frames s + 1)%Z.
Proof. unfold rollout_step. by destruct (rollout _ _ _). Qed.

Lemma rollout_step_trace batch_info model s :
  rolling_trace (rollout_step batch_info model s) = rolling_trace s ++ [EvRollout].
Proof. unfold rollout_step. by destruct (rollout _ _ _). Qed.

Lemma rollouts_frames n batch_info model s :
  frames (rollouts n batch_info model s) = (frames s + Z.of_nat n)%Z.
Proof.
  induction n as [|n IH]; simpl; [lia|].
  fold (rollouts n batch_info model s). rewrite rollout_step_frames, IH. lia.
Qed.

Lemma rollouts_trace n batch_info model s :
  rolling_trace (rollouts n batch_info model s)
  = rolling_trace s ++ replicate n EvRollout.
Proof.
  induction n as [|n IH]; simpl; [by rewrite app_nil_r|].
  fold (rollouts n batch_info model s). rewrite rollout_step_trace, IH.
  rewrite <- app_assoc. f_equal.
  change [EvRollout] with (replicate 1 (@EvRollout _)).
  rewrite <- replicate_add. by rewrite Nat.add_1_r.
Qed.

Lemma warm_up_returns fuel n batch_info model s :
  ready_after n batch_info model s → (n ≤ fuel)%nat →
  warm_up fuel batch_info model s = Returned (rollouts n batch_info model s).
Proof.
  revert n s. induction fuel as [|fuel IH]; intros n s [Hready Hbefore] Hfuel.
  - assert (n = 0)%nat as -> by lia.
    change (rollouts 0 batch_info model s) with s in *. cbn [warm_up].
    by rewrite Hready.
  - destruct n as [|n]; cbn [warm_up].
    + change (rollouts 0 batch_info model s) with s in *. by rewrite Hready.
    + pose proof (Hbefore 0%nat ltac:(lia)) as Hcold.
      change (rollouts 0 batch_info model s) with s in Hcold. rewrite Hcold.
      rewrite rollouts_S. apply IH; [|lia]. split.
      * by rewrite <- rollouts_S.
      * intros k Hk. rewrite <- rollouts_S. apply Hbefore. lia.
Qed.

Lemma warm_up_Returned fuel batch_info model s s' :
  warm_up fuel batch_info model s = Returned s' →
  ∃ n, (n ≤ fuel)%nat ∧ ready_after n batch_info model s ∧
       s' = rollouts n batch_info model s.
Proof.
  revert s. induction fuel as [|fuel IH]; intros s Hw; simpl in Hw.
  - destruct (is_ready_for_sampling (roller s)) eqn:Hr; [|done].
    injection Hw as <-. exists 0%nat. split; [lia|]. split; [|done].
    split; [done|]. intros k Hk. lia.
  - destruct (is_ready_for_sampling (roller s)) eqn:Hr.
    + injection Hw as <-. exists 0%nat. split; [lia|]. split; [|done].
      split; [done|]. intros k Hk. lia.
    + destruct (IH _ Hw) as (n & Hn & [Hready Hbefore] & ->).
      exists (S n). split; [lia|]. split; [|by rewrite rollouts_S].
      split; [by rewrite rollouts_S|].
      intros [|k] Hk; [done|]. rewrite rollouts_S. apply Hbefore. lia.
Qed.

Lemma rollout_phase_Returned fuel settings batch_info model s s' :
  rollout_phase fuel settings batch_info model s = Returned s' →
  ∃ n, s' = rollouts n batch_info model s ∧
       if is_ready_for_sampling (roller s)
       then n = Z.to_nat (train_frequency settings)
       else (n ≤ fuel)%nat ∧ ready_after n batch_info model s.
Proof.
  unfold rollout_phase. destruct (is_ready_for_sampling (roller s)); simpl.
  - intros [= <-]. by eexists.
  - intros (n & Hn & Hready & ->)%warm_up_Returned. eauto.
Qed.

End Rollout.

(** ** One batch *)

Section Batch.
Context `{Collaborators}.
Import Vocabulary.

Implicit Types (batch_info : BatchInfo) (self : DqnReinforcer) (trace : list Event).

Lemma clip_phase_trace settings model batch_info trace :
  (clip_phase settings model batch_info trace).2 = trace ++ clip_events settings.
Proof.
  unfold clip_phase, clip_events. destruct (max_grad_norm settings) as [c|].
  - by destruct (Grad.clip_grad_norm_ _ _ _).
  - by rewrite app_nil_r.
Qed.

Lemma optimise_trace batch_info self (model target : Model) (rolled : Rolling)
    (roller : EnvRoller) batch_sample expected_q original_losses loss trace :
  (optimise batch_info self model target rolled roller batch_sample
     expected_q original_losses loss trace).2
  = trace ++ [EvBackward loss; EvUpdate batch_sample original_losses]
      ++ clip_events (settings self) ++ [EvStep].
Proof.
  unfold optimise.
  pose proof (clip_phase_trace (settings self)
    (set_parameters (backward (objective model batch_sample expected_q) model) model)
    batch_info
    ((trace ++ [EvBackward loss]) ++ [EvUpdate batch_sample original_losses])) as Hc.
  destruct (clip_phase _ _ _ _) as [[model' batch_info'] trace']. simpl in Hc.
  destruct (step _ _) as [optimizer' weights']. simpl. rewrite Hc.
  rewrite <- !app_assoc. done.
Qed.

Lemma optimise_target batch_info self (model target : Model) (rolled : Rolling)
    (roller : EnvRoller) batch_sample expected_q original_losses loss trace :
  target_model
    (optimise batch_info self model target rolled roller batch_sample
       expected_q original_losses loss trace).1.2
  = target.
Proof.
  unfold optimise. destruct (clip_phase _ _ _ _) as [[model' batch_info'] trace'].
  by destruct (step _ _).
Qed.

Lemma optimise_frames batch_info self (model target : Model) (rolled : Rolling)
    (roller : EnvRoller) batch_sample expected_q original_losses loss trace :
  data_dict
    (optimise batch_info self model target rolled roller batch_sample
       expected_q original_losses loss trace).1.1 !! "frames"
  = Some (VInt (frames rolled)).
Proof.
  unfold optimise. destruct (clip_phase _ _ _ _) as [[model' batch_info'] trace'].
  destruct (step _ _). simpl. by simplify_map_eq.
Qed.

(** What a returning call of [train_batch] went through. *)
Lemma train_batch_Returned fuel batch_info self trace result :
  train_batch fuel batch_info self trace = Returned result →
  ∃ value progress n roller' batch_sample expected_q original_losses loss,
    let batch_info' := with_epsilon self progress batch_info in
    let model := eval (train_model self) in
    let rolled := rollouts n batch_info' model (start_rolling self trace) in
    data_dict batch_info !! "progress" = Some value ∧
    as_float value = Returned progress ∧
    (if is_ready_for_sampling (env_roller self)
     then n = Z.to_nat (train_frequency (settings self))
     else (n ≤ fuel)%nat ∧ ready_after n batch_info' model (start_rolling self trace)) ∧
    sample batch_info' (batch_size (settings self)) (prepared batch_info' self)
      (roller rolled) = (roller', batch_sample) ∧
    compute_loss (settings self) (eval (target_model self)) (prepared batch_info' self)
      batch_sample = Returned (expected_q, original_losses, loss) ∧
    result =
      optimise batch_info' self (prepared batch_info' self) (eval (target_model self))
        rolled roller' batch_sample expected_q original_losses loss
        (trace ++ replicate n EvRollout ++ [EvZeroGrad; EvSample (batch_size (settings self))]).
Proof.
  unfold train_batch. intros Hb.
  inv_bind Hb as value Hvalue. inv_bind Hb as progress Hprogress.
  inv_bind Hb as rolled Hrolled.
  unfold getitem in Hvalue.
  destruct (data_dict batch_info !! "progress") as [v|] eqn:Hv; [|done].
  injection Hvalue as ->.
  apply rollout_phase_Returned in Hrolled as (n & -> & Hn).
  unfold replay_phase in Hb.
  fold (with_epsilon self progress batch_info) in *.
  fold (prepared (with_epsilon self progress batch_info) self) in Hb.
  destruct (sample _ _ _ _) as [roller' batch_sample] eqn:Hsample.
  inv_bind Hb as [[expected_q original_losses] loss] Hloss.
  injection Hb as <-.
  exists value, progress, n, roller', batch_sample, expected_q, original_losses, loss.
  simpl. split_and!; try done.
  rewrite rollouts_trace. simpl. by rewrite <- !app_assoc.
Qed.

(** A call of [train_batch] returns once the progress is known, the
    warm-up loop gets to a ready env-roller within the fuel, and the loss
    computation succeeds on the sample drawn. *)
Lemma train_batch_returns fuel batch_info self trace value progress n :
  let batch_info' := with_epsilon self progress batch_info in
  let model := eval (train_model self) in
  let rolled := rollouts n batch_info' model (start_rolling self trace) in
  let sampled :=
    sample batch_info' (batch_size (settings self)) (prepared batch_info' self)
      (roller rolled) in
  data_dict batch_info !! "progress" = Some value →
  as_float value = Returned progress →
  (if is_ready_for_sampling (env_roller self)
   then n = Z.to_nat (train_frequency (settings self))
   else (n ≤ fuel)%nat ∧ ready_after n batch_info' model (start_rolling self trace)) →
  (∃ computed,
     compute_loss (settings self) (eval (target_model self)) (prepared batch_info' self)
       sampled.2 = Returned computed) →
  ∃ result, train_batch fuel batch_info self trace = Returned result.
Proof.
  intros batch_info' model rolled sampled Hvalue Hprogress Hn [[[e l] loss] Hloss].
  unfold train_batch, getitem. rewrite Hvalue; simpl. rewrite Hprogress; simpl.
  fold (with_epsilon self progress batch_info).
  fold batch_info' model (start_rolling self trace).
  assert (rollout_phase fuel (settings self) batch_info' model (start_rolling self trace)
          = Returned rolled) as ->.
  { unfold rollout_phase. simpl.
    destruct (is_ready_for_sampling (env_roller self)); simpl.
    - by subst n.
    - destruct Hn. by apply warm_up_returns. }
  simpl. unfold replay_phase. subst sampled rolled model.
  unfold prepared in *. cbv zeta in *.
  destruct (sample _ _ _ _) as [roller' batch_sample].
  change (compute_loss (settings self) (eval (target_model self))
            (set_parameters
               (zero_grad (optimizer (epoch_info batch_info'))
                  (train (eval (train_model self))))
               (train (eval (train_model self)))) batch_sample
          = Returned (e, l, loss)) in Hloss.
  rewrite Hloss. simpl. by eexists.
Qed.

End Batch.

(** ** Rollout and replay within one batch *)

Section BatchClaims.
Context `{Collaborators}.
Import Vocabulary.

Implicit Types (batch_info : BatchInfo) (self : DqnReinforcer) (trace : list Event).

(** C3. A returning call of [train_batch] makes some number [n] of
    rollout steps before anything else, one at a time, and stores [n] under
    'frames'. When the env-roller is not ready at the start, [n] is the
    first number of steps after which it is ready, whatever
    [train_frequency] is, and the replay sample is drawn from the env-roller
    as it is after these [n] steps, not before; when it is ready at the
    start, [n] is [train_frequency]. A call whose warm-up gets ready within
    the fuel returns unless the loss computation raises. *)
Theorem train_batch_rollouts fuel batch_info self trace :
  (∀ batch_info' self' trace',
     train_batch fuel batch_info self trace = Returned (batch_info', self', trace') →
     ∃ progress n rest,
       let context := with_epsilon self progress batch_info in
       let model := eval (train_model self) in
       let rolled := rollouts n context model (start_rolling self trace) in
       trace' = trace ++ replicate n EvRollout ++ rest ∧
       count is_rollout rest = 0%nat ∧
       frames rolled = Z.of_nat n ∧
       data_dict batch_info' !! "frames" = Some (VInt (Z.of_nat n)) ∧
       (∃ losses,
          env_roller self'
          = update
              (sample context (batch_size (settings self)) (prepared context self)
                 (roller rolled)).2
              losses
              (sample context (batch_size (settings self)) (prepared context self)
                 (roller rolled)).1) ∧
       if is_ready_for_sampling (env_roller self)
       then n = Z.to_nat (train_frequency (settings self))
       else ready_after n context model (start_rolling self trace)) ∧
  (∀ value progress n,
     let context := with_epsilon self progress batch_info in
     let model := eval (train_model self) in
     let rolled := rollouts n context model (start_rolling self trace) in
     data_dict batch_info !! "progress" = Some value →
     as_float value = Returned progress →
     is_ready_for_sampling (env_roller self) = false →
     ready_after n context model (start_rolling self trace) →
     (n ≤ fuel)%nat →
     (∃ computed,
        compute_loss (settings self) (eval (target_model self)) (prepared context self)
          (sample context (batch_size (settings self)) (prepared context self)
             (roller rolled)).2 = Returned computed) →
     ∃ result, train_batch fuel batch_info self trace = Returned result).
Proof.
  split.
  - intros batch_info' self' trace' Hb.
    apply train_batch_Returned in Hb
      as (value & progress & n & roller' & batch_sample & e & l & loss
          & Hvalue & Hprogress & Hn & Hsample & Hloss & Hresult).
    exists progress, n,
      ([EvZeroGrad; EvSample (batch_size (settings self))]
         ++ [EvBackward loss; EvUpdate batch_sample l]
         ++ clip_events (settings self) ++ [EvStep]).
    cbv zeta.
    pose proof (f_equal snd Hresult) as Htrace. rewrite optimise_trace in Htrace.
    pose proof (f_equal (λ r, data_dict r.1.1 !! "frames") Hresult) as Hframes.
    cbv beta in Hframes. rewrite optimise_frames in Hframes.
    rewrite rollouts_frames in Hframes. simpl in Htrace, Hframes.
    split_and!.
    + rewrite Htrace, <- !app_assoc. done.
    + unfold clip_events. by destruct (max_grad_norm (settings self)).
    + rewrite rollouts_frames. simpl. lia.
    + rewrite Hframes. do 2 f_equal; lia.
    + exists l. rewrite Hsample.
      change self' with (batch_info', self', trace').1.2. rewrite Hresult.
      unfold optimise. destruct (clip_phase _ _ _ _) as [[model' bi'] trace''].
      by destruct (step _ _).
    + destruct (is_ready_for_sampling (env_roller self)); [done|]. by destruct Hn.
  - intros value progress n context model rolled Hvalue Hprogress Hcold Hready Hfuel Hloss.
    eapply train_batch_returns; eauto. by rewrite Hcold.
Qed.


End BatchClaims.

(** ** The target model *)

Section TargetModel.
Context `{Collaborators}.
Import Vocabulary.

Implicit Types (batch_info : BatchInfo) (self : DqnReinforcer) (trace : list Event).

Lemma train_batch_target fuel batch_info self trace batch_info' self' trace' :
  train_batch fuel batch_info self trace = Returned (batch_info', self', trace') →
  target_model self' = eval (target_model self).
Proof.
  intros Hb. apply train_batch_Returned in Hb
    as (value & progress & n & roller' & batch_sample & e & l & loss
        & _ & _ & _ & _ & _ & Hresult).
  change self' with (batch_info', self', trace').1.2. rewrite Hresult.
  apply optimise_target.
Qed.

Lemma epoch_batch_target fuel epoch self trace batch_idx epoch' self' trace' :
  epoch_batch fuel (epoch, self, trace) batch_idx = Returned (epoch', self', trace') →
  target_model self' = eval (target_model self).
Proof.
  unfold epoch_batch. intros Hb.
  destruct (batch_hooks on_batch_begin _ _ _) as [batch_info1 trace1].
  inv_bind Hb as [[batch_info2 self2] trace2] Hbatch.
  destruct (batch_hooks on_batch_end _ _ _) as [batch_info3 trace3].
  injection Hb as _ <- _. by eapply train_batch_target.
Qed.

Lemma epoch_batches_target fuel batch_indices epoch self trace epoch' self' trace' :
  epoch_batches fuel (epoch, self, trace) batch_indices
    = Returned (epoch', self', trace') →
  state_dict (target_model self') = state_dict (target_model self) ∧
  parameters (target_model self') = parameters (target_model self).
Proof.
  revert epoch self trace.
  induction batch_indices as [|i rest IH]; intros epoch self trace Hb; simpl in Hb.
  - by injection Hb as _ <- _.
  - inv_bind Hb as [[epoch1 self1] trace1] Hfirst.
    apply epoch_batch_target in Hfirst. apply IH in Hb as [-> ->].
    by rewrite Hfirst.
Qed.

Lemma train_epoch_target fuel epoch self trace epoch' self' trace' :
  train_epoch fuel epoch self trace = Returned (epoch', self', trace') →
  state_dict (target_model self') = state_dict (target_model self) ∧
  parameters (target_model self') = parameters (target_model self).
Proof.
  unfold train_epoch. intros He.
  destruct (epoch_hooks on_epoch_begin _ _ _) as [epoch1 trace1].
  inv_bind He as [[epoch2 self2] trace2] Hbatches.
  destruct (epoch_hooks on_epoch_end _ _ _) as [epoch3 trace3].
  injection He as _ <- _. by eapply epoch_batches_target.
Qed.

Lemma train_epochs_target fuel epochs self trace epochs' self' trace' :
  train_epochs fuel epochs self trace = Returned (epochs', self', trace') →
  state_dict (target_model self') = state_dict (target_model self) ∧
  parameters (target_model self') = parameters (target_model self).
Proof.
  revert self trace epochs' self' trace'.
  induction epochs as [|epoch rest IH]; intros self trace epochs' self' trace' Ht;
    simpl in Ht.
  - by injection Ht as _ <- _.
  - inv_bind Ht as [[epoch1 self1] trace1] Hfirst.
    inv_bind Ht as [[rest2 self2] trace2] Hrest.
    injection Ht as _ <- _.
    apply train_epoch_target in Hfirst as [Hs Hp].
    apply IH in Hrest as [-> ->]. by rewrite Hs, Hp.
Qed.

Lemma train_batch_ignores_target_update_frequency k fuel batch_info self trace :
  train_batch fuel batch_info (set_target_update_frequency k self) trace
  = do (batch_info', self', trace') <- train_batch fuel batch_info self trace;
    Returned (batch_info', set_target_update_frequency k self', trace').
Proof.
  unfold train_batch.
  destruct (getitem batch_info "progress") as [value| |]; simpl; try done.
  destruct (as_float value) as [progress| |]; simpl; try done.
  change (rollout_phase fuel (settings (set_target_update_frequency k self)))
    with (rollout_phase fuel (settings self)).
  destruct (rollout_phase _ _ _ _ _) as [rolled| |]; simpl; try done.
  unfold replay_phase. simpl.
  destruct (sample _ _ _ _) as [roller' batch_sample].
  change (compute_loss (settings (set_target_update_frequency k self)))
    with (compute_loss (settings self)).
  destruct (compute_loss _ _ _ _) as [[[e l] loss]| |]; simpl; try done.
  unfold optimise.
  change (clip_phase (settings (set_target_update_frequency k self)))
    with (clip_phase (settings self)).
  destruct (clip_phase _ _ _ _) as [[model' batch_info'] trace''].
  by destruct (step _ _).
Qed.

(** C5. [initialize_training] makes the weights of the target model equal
    to the freshly reset weights of the train model. [train_batch],
    [train_epoch] and any run of epochs leave the weights and the parameter
    list of the target model as they were, so after any run of epochs that
    follows [initialize_training] the target weights are still that
    snapshot; the weights that the optimizer step returns go to the train
    model. The value of [target_update_frequency] has no influence on
    what [train_batch] does. *)
Theorem target_model_is_snapshot fuel self :
  let snapshot := reset_weights (state_dict (train_model self)) in
  state_dict (train_model (initialize_training self)) = snapshot ∧
  state_dict (target_model (initialize_training self)) = snapshot ∧
  (∀ batch_info trace batch_info' self' trace',
     train_batch fuel batch_info self trace = Returned (batch_info', self', trace') →
     state_dict (target_model self') = state_dict (target_model self) ∧
     parameters (target_model self') = parameters (target_model self) ∧
     ∃ model, state_dict (train_model self')
              = (step (optimizer (epoch_info batch_info)) model).2) ∧
  (∀ epoch trace epoch' self' trace',
     train_epoch fuel epoch self trace = Returned (epoch', self', trace') →
     state_dict (target_model self') = state_dict (target_model self) ∧
     parameters (target_model self') = parameters (target_model self)) ∧
  (∀ epochs trace epochs' self' trace',
     train_epochs fuel epochs (initialize_training self) trace
       = Returned (epochs', self', trace') →
     state_dict (target_model self') = snapshot) ∧
  (∀ k batch_info trace,
     train_batch fuel batch_info (set_target_update_frequency k self) trace
     = do (batch_info', self', trace') <- train_batch fuel batch_info self trace;
       Returned (batch_info', set_target_update_frequency k self', trace')).
Proof.
  intros snapshot. split_and!; try done.
  - intros batch_info trace batch_info' self' trace' Hb.
    pose proof (train_batch_target _ _ _ _ _ _ _ Hb) as ->. split_and!; try done.
    apply train_batch_Returned in Hb
      as (value & progress & n & roller' & batch_sample & e & l & loss
          & _ & _ & _ & _ & _ & Hresult).
    change self' with (batch_info', self', trace').1.2. rewrite Hresult.
    unfold optimise. destruct (clip_phase _ _ _ _) as [[model' bi'] trace''] eqn:Hclip.
    assert (optimizer (epoch_info bi') = optimizer (epoch_info batch_info)) as <-.
    { unfold clip_phase in Hclip. destruct (max_grad_norm (settings self)).
      - destruct (Grad.clip_grad_norm_ _ _ _). by injection Hclip as _ <- _.
      - by injection Hclip as _ <- _. }
    exists model'. by destruct (step _ _).
  - intros epoch trace epoch' self' trace'. apply train_epoch_target.
  - intros epochs trace epochs' self' trace' Ht.
    by apply train_epochs_target in Ht as [-> _].
  - intros k batch_info trace. apply train_batch_ignores_target_update_frequency.
Qed.

End TargetModel.

(** ** The order of the hooks in an epoch *)

Section Epoch.
Context `{Collaborators}.
Import Vocabulary.

Implicit Types (batch_info : BatchInfo) (self : DqnReinforcer) (trace : list Event).
Implicit Types (epoch : EpochInfo).



Lemma epoch_hooks_fold hook event (ks : list nat) epoch trace :
  Forall (λ k, (k < length (callbacks epoch))%nat) ks →
  (foldl (epoch_hook_step hook event) (epoch, trace) ks).2 = trace ++ map event ks ∧
  length (callbacks (foldl (epoch_hook_step hook event) (epoch, trace) ks).1)
    = length (callbacks epoch) ∧
  batches_per_epoch (foldl (epoch_hook_step hook event) (epoch, trace) ks).1
    = batches_per_epoch epoch.
Proof.
  revert epoch trace.
  induction ks as [|k ks IH]; intros epoch trace Hks; simpl.
  - by rewrite app_nil_r.
  - apply Forall_cons in Hks as [Hk Hks].
    destruct (lookup_lt_is_Some_2 _ _ Hk) as [callback Hcallback].
    rewrite Hcallback.
    destruct (hook callback epoch) as [callback' optimizer'].
    match goal with
    | |- context [foldl _ (?e, ?t) ks] => destruct (IH e t) as (Htrace & Hlen & Hn)
    end.
    { simpl. by rewrite length_insert. }
    rewrite Htrace, Hlen, Hn. simpl. rewrite length_insert, <- app_assoc. done.
Qed.

Lemma epoch_hooks_spec hook event epoch trace :
  let ids := seq 0 (length (callbacks epoch)) in
  (epoch_hooks hook event epoch trace).2 = trace ++ map event ids ∧
  length (callbacks (epoch_hooks hook event epoch trace).1) = length (callbacks epoch) ∧
  batches_per_epoch (epoch_hooks hook event epoch trace).1 = batches_per_epoch epoch.
Proof.
  apply epoch_hooks_fold, Forall_forall. intros k Hk%elem_of_seq. lia.
Qed.





End Epoch.

(** ** Construction *)

Section Construction.
Context `{Collaborators}.
Import Vocabulary.

(** C8, as amended. [create] and [instantiate] never raise: whatever the
    values of the settings, [create] returns a factory that holds them
    unchanged and [instantiate] returns a reinforcer with these settings. *)
Theorem create_performs_no_validation (model_config_seed : Z) (model : ModelFactory)
    (env : EnvFactory) (env_roller : ReplayEnvRollerFactory) (schedule : Qc → Qc)
    (train_freq size target_update_freq : Z) (discount : Qc) (cap : option R)
    (double : bool) (dev : Device) :
  let given :=
    {| epsilon_schedule := schedule; train_frequency := train_freq;
       batch_size := size; double_dqn := double;
       target_update_frequency := target_update_freq;
       discount_factor := discount; max_grad_norm := cap |} in
  ∃ factory reinforcer,
    create model_config_seed model env env_roller schedule train_freq size
      target_update_freq discount cap double = Returned factory ∧
    factory_settings factory = given ∧
    instantiate factory dev = Returned reinforcer ∧
    settings reinforcer = given.
Proof.
  intros given. eexists _, _. split; [reflexivity|]. split; [reflexivity|].
  split; [reflexivity|]. unfold init. simpl. by destruct (reset _).
Qed.

End Construction.

(** ** Gradient clipping *)

Module GradFacts.
Import Grad.
Local Open Scope R_scope.

Lemma sum_sq_nonneg (g : list R) : 0 <= sum_sq g.
Proof.
  induction g as [|x g IH]; simpl; [lra|]. pose proof (Rle_0_sqr x) as Hx.
  unfold Rsqr in Hx. lra.
Qed.

Lemma sum_sq_scale (c : R) (g : list R) : sum_sq (map (Rmult c) g) = c ^ 2 * sum_sq g.
Proof. induction g as [|x g IH]; simpl; [lra|]. rewrite IH. lra. Qed.

Lemma norm_sq (p : Param) :
  norm p ^ 2 = match grad p with Some g => sum_sq g | None => 0 end.
Proof.
  unfold norm. destruct (grad p) as [g|]; [|lra].
  rewrite <- Rsqr_pow2. apply Rsqr_sqrt, sum_sq_nonneg.
Qed.

Lemma norm_sq_nonneg (p : Param) : 0 <= norm p ^ 2.
Proof. rewrite norm_sq. destruct (grad p); [apply sum_sq_nonneg | lra]. Qed.

Lemma norm_sq_mul_ (c : R) (p : Param) : norm (mul_ c p) ^ 2 = c ^ 2 * norm p ^ 2.
Proof.
  rewrite !norm_sq. unfold mul_; simpl. destruct (grad p) as [g|]; simpl; [|lra].
  apply sum_sq_scale.
Qed.

Lemma total_sq_nonneg selected parameters : 0 <= total_sq selected parameters.
Proof.
  unfold total_sq. induction (filter _ parameters) as [|p l IH]; cbn [foldr]; [lra|].
  pose proof (norm_sq_nonneg p). lra.
Qed.

Lemma total_norm_nonneg selected parameters : 0 <= total_norm selected parameters.
Proof. apply sqrt_pos. Qed.

(** Scaling the clipped gradients scales the sum of squares. *)
Lemma total_sq_scaled (c : R) (parameters : list Param) :
  total_sq requires_grad
    (map (λ p, if requires_grad p && has_grad p then mul_ c p else p) parameters)
  = c ^ 2 * total_sq requires_grad parameters.
Proof.
  unfold total_sq. induction parameters as [|p ps IH]; cbn [map foldr]; [simpl; lra|].
  rewrite !filter_cons.
  destruct (requires_grad p && has_grad p) eqn:Hp.
  - assert (requires_grad (mul_ c p) && has_grad (mul_ c p) = true) as Hp'.
    { apply andb_true_iff in Hp as [Hr Hg]. unfold mul_, has_grad in *; simpl.
      rewrite Hr. destruct (grad p); [done|discriminate]. }
    rewrite !decide_True by done. cbn [foldr]. rewrite IH, norm_sq_mul_. lra.
  - rewrite Hp. rewrite !decide_False by done. apply IH.
Qed.

Lemma total_norm_scaled (c : R) (parameters : list Param) :
  0 <= c →
  total_norm requires_grad
    (map (λ p, if requires_grad p && has_grad p then mul_ c p else p) parameters)
  = c * total_norm requires_grad parameters.
Proof.
  intros Hc. unfold total_norm.
  rewrite total_sq_scaled, sqrt_mult; [|nra|apply total_sq_nonneg].
  f_equal. replace (c ^ 2) with (c * c) by lra. by apply sqrt_square.
Qed.

Lemma eps_pos : 0 < eps.
Proof. unfold eps. apply Rinv_0_lt_compat. lra. Qed.

(** What [clip_grad_norm_] does on the parameters that require gradients,
    for a cap that is not negative. *)
Lemma clip_grad_norm_spec (parameters : list Param) (max_norm : R) :
  0 <= max_norm →
  let before := total_norm requires_grad parameters in
  let clipped := (clip_grad_norm_ requires_grad parameters max_norm).1 in
  (clip_grad_norm_ requires_grad parameters max_norm).2 = before ∧
  total_norm requires_grad clipped <= max_norm ∧
  (before + eps <= max_norm → clipped = parameters) ∧
  (max_norm < before + eps →
   clipped = map (λ p, if requires_grad p && has_grad p
                       then mul_ (max_norm / (before + eps)) p else p) parameters ∧
   total_norm requires_grad clipped = max_norm / (before + eps) * before).
Proof.
  intros Hcap before clipped. subst clipped. unfold clip_grad_norm_. simpl.
  fold before. pose proof (total_norm_nonneg requires_grad parameters) as Hn.
  fold before in Hn. pose proof eps_pos as He.
  assert (0 < before + eps) as Hpos by lra.
  assert (max_norm / (before + eps) < 1 ↔ max_norm < before + eps) as Hcoef.
  { split; intros Hlt.
    - apply (Rmult_lt_compat_r (before + eps)) in Hlt; [|done].
      unfold Rdiv in Hlt. rewrite Rmult_assoc, Rinv_l in Hlt; lra.
    - apply (Rmult_lt_reg_r (before + eps)); [done|].
      unfold Rdiv. rewrite Rmult_assoc, Rinv_l; lra. }
  assert (0 <= max_norm / (before + eps)) as Hc0.
  { apply Rmult_le_pos; [done|]. apply Rlt_le, Rinv_0_lt_compat. done. }
  split; [done|]. destruct (Rlt_dec (max_norm / (before + eps)) 1) as [Hlt|Hge].
  - rewrite total_norm_scaled by done. fold before. split_and!.
    + apply Hcoef in Hlt.
      apply (Rmult_le_reg_r (before + eps)); [done|].
      unfold Rdiv. replace (max_norm * / (before + eps) * before * (before + eps))
        with (max_norm * before * ((before + eps) * / (before + eps))) by ring.
      rewrite Rinv_r by lra. nra.
    + intros Hle. apply Hcoef in Hlt. lra.
    + done.
  - assert (before + eps <= max_norm) as Hle.
    { apply Rnot_lt_le. intros Hlt. by apply Hge, Hcoef. }
    split_and!.
    + fold before. lra.
    + done.
    + intros Hlt. lra.
Qed.

End GradFacts.

Section Clipping.
Context `{Collaborators}.
Import Vocabulary.
Local Open Scope R_scope.

Implicit Types (batch_info : BatchInfo) (self : DqnReinforcer) (trace : list Event).

(** The end of a batch, with and without a cap on the gradient norm. *)
Lemma optimise_clipping batch_info self (model target : Model) (rolled : Rolling)
    (roller : EnvRoller) batch_sample expected_q original_losses loss trace :
  let gradients := backward (objective model batch_sample expected_q) model in
  let result :=
    optimise batch_info self model target rolled roller batch_sample expected_q
      original_losses loss trace in
  match max_grad_norm (settings self) with
  | Some cap =>
      let clipped := (Grad.clip_grad_norm_ requires_grad gradients cap).1 in
      result.2 = trace ++ [EvBackward loss; EvUpdate batch_sample original_losses;
                           EvClip cap; EvStep] ∧
      data_dict result.1.1 !! "grad_norm"
        = Some (VNorm (Grad.total_norm requires_grad gradients)) ∧
      parameters (train_model result.1.2) = clipped ∧
      state_dict (train_model result.1.2)
        = (step (optimizer (epoch_info batch_info)) (set_parameters clipped model)).2
  | None =>
      result.2 = trace ++ [EvBackward loss; EvUpdate batch_sample original_losses;
                           EvStep] ∧
      data_dict result.1.1 !! "grad_norm" = data_dict batch_info !! "grad_norm" ∧
      parameters (train_model result.1.2) = gradients ∧
      state_dict (train_model result.1.2)
        = (step (optimizer (epoch_info batch_info)) (set_parameters gradients model)).2
  end.
Proof.
  intros gradients result. subst result. unfold optimise, clip_phase.
  fold gradients. destruct (max_grad_norm (settings self)) as [cap|].
  - unfold Grad.clip_grad_norm_. simpl.
    destruct (step _ _) as [optimizer' weights'] eqn:Hstep. simpl.
    split_and!; try done;
      try (by rewrite <- !app_assoc); try (by simplify_map_eq);
      unfold set_parameters in *; simpl in *; by rewrite Hstep.
  - simpl. destruct (step _ _) as [optimizer' weights'] eqn:Hstep. simpl.
    split_and!; try done;
      try (by rewrite <- !app_assoc); try (by simplify_map_eq);
      unfold set_parameters in *; simpl in *; by rewrite Hstep.
Qed.

(** C6, as amended. When [max_grad_norm] is a cap [C], a returning
    [train_batch] clips after the backward pass and the priority update and
    before the optimizer step: it stores the global 2-norm that the
    gradients of the parameters requiring gradients had before clipping
    under 'grad_norm', hands the clipped gradients to the optimizer step,
    and for [0 <= C] the norm after clipping is at most [C]. The gradients
    stay as they were when the norm before clipping is at most
    [C - 1e-6]; above that they are scaled by [C / (norm + 1e-6)]. Without
    a cap there is no clipping event, the gradients of the backward pass
    reach the optimizer step, and 'grad_norm' is left as it was. *)
Theorem train_batch_clipping fuel batch_info self trace batch_info' self' trace' :
  train_batch fuel batch_info self trace = Returned (batch_info', self', trace') →
  ∃ progress before_backward batch_sample expected_q original_losses loss,
    let model := prepared (with_epsilon self progress batch_info) self in
    let gradients := backward (objective model batch_sample expected_q) model in
    match max_grad_norm (settings self) with
    | Some cap =>
        let before := Grad.total_norm requires_grad gradients in
        let clipped := parameters (train_model self') in
        trace' = before_backward
                   ++ [EvBackward loss; EvUpdate batch_sample original_losses;
                       EvClip cap; EvStep] ∧
        data_dict batch_info' !! "grad_norm" = Some (VNorm before) ∧
        clipped = (Grad.clip_grad_norm_ requires_grad gradients cap).1 ∧
        state_dict (train_model self')
          = (step (optimizer (epoch_info batch_info)) (set_parameters clipped model)).2 ∧
        (0 <= cap →
         Grad.total_norm requires_grad clipped <= cap ∧
         (before + Grad.eps <= cap → clipped = gradients) ∧
         (cap < before + Grad.eps →
          clipped = map (λ p, if requires_grad p && Grad.has_grad p
                              then Grad.mul_ (cap / (before + Grad.eps)) p else p)
                      gradients ∧
          Grad.total_norm requires_grad clipped = cap / (before + Grad.eps) * before))
    | None =>
        trace' = before_backward
                   ++ [EvBackward loss; EvUpdate batch_sample original_losses; EvStep] ∧
        data_dict batch_info' !! "grad_norm" = data_dict batch_info !! "grad_norm" ∧
        parameters (train_model self') = gradients ∧
        state_dict (train_model self')
          = (step (optimizer (epoch_info batch_info)) (set_parameters gradients model)).2
    end.
Proof.
  intros Hb. apply train_batch_Returned in Hb
    as (value & progress & n & roller' & batch_sample & e & l & loss
        & _ & _ & _ & _ & _ & Hresult).
  exists progress. eexists. exists batch_sample, e, l, loss. cbv zeta.
  match type of Hresult with
  | _ = optimise ?b ?s ?m ?t ?r ?ro ?bs ?e ?l ?lo ?tr =>
      pose proof (optimise_clipping b s m t r ro bs e l lo tr) as Hclip
  end.
  cbv zeta in Hclip. rewrite <- Hresult in Hclip. cbn [fst snd] in Hclip.
  destruct (max_grad_norm (settings self)) as [cap|].
  - destruct Hclip as (Htrace & Hnorm & Hparams & Hstate).
    split_and!; try done.
    + by rewrite Hparams.
    + intros Hcap. rewrite Hparams.
      destruct (GradFacts.clip_grad_norm_spec
                  (backward
                     (objective (prepared (with_epsilon self progress batch_info) self)
                        batch_sample e)
                     (prepared (with_epsilon self progress batch_info) self))
                  cap Hcap) as (_ & Hle & Hsame & Hscaled).
      done.
  - destruct Hclip as (Htrace & Hnorm & Hparams & Hstate). split_and!; try done.
    rewrite Hnorm. unfold with_epsilon, setitem. simpl. by rewrite lookup_insert_ne.
Qed.

End Clipping.

(** ** The loss *)

Module LossFacts.
Import Tensor TensorFacts.
Local Open Scope Qc_scope.

Lemma abs_square (z : Qc) : abs z * abs z = z * z.
Proof. unfold abs. destruct (Qcltb z 0); ring. Qed.

Lemma smooth_l1_small (x y : Qc) :
  abs (x - y) < 1 → smooth_l1 x y = Q2Qc (1 # 2) * ((x - y) * (x - y)).
Proof.
  intros Hlt%Qcltb_lt. unfold smooth_l1. cbv zeta. rewrite Hlt.
  rewrite <- abs_square. ring.
Qed.

Lemma smooth_l1_large (x y : Qc) :
  1 <= abs (x - y) → smooth_l1 x y = abs (x - y) - Q2Qc (1 # 2).
Proof. intros Hge%Qcltb_ge. unfold smooth_l1. cbv zeta. by rewrite Hge. Qed.

Lemma mean_nonempty (xs : list Qc) :
  xs ≠ [] → mean xs = Returned (sum xs / Q2Qc (inject_Z (Z.of_nat (length xs)))).
Proof. by destruct xs. Qed.

Lemma mean_Returned (xs : list Qc) (m : Qc) :
  mean xs = Returned m →
  xs ≠ [] ∧ m = sum xs / Q2Qc (inject_Z (Z.of_nat (length xs))).
Proof. destruct xs; [done|]. intros [= <-]. done. Qed.

Lemma sum_Permutation (xs ys : list Qc) : Permutation xs ys → sum xs = sum ys.
Proof.
  induction 1 as [|x xs ys _ IH|x y xs|xs ys zs _ IH1 _ IH2]; simpl.
  - done.
  - by rewrite IH.
  - ring.
  - by rewrite IH1.
Qed.

End LossFacts.

Section Loss.
Context `{Collaborators}.
Import Tensor TensorFacts LossFacts Vocabulary.
Local Open Scope Qc_scope.

Implicit Types (batch_info : BatchInfo) (self : DqnReinforcer) (trace : list Event).

Lemma load_state_dict_id (model : Model) : load_state_dict (state_dict model) model = model.
Proof. by destruct model. Qed.

Lemma compute_loss_Returned settings (target model : Model) batch_sample e l loss :
  compute_loss settings target model batch_sample = Returned (e, l, loss) →
  ∃ q_selected,
    td_target settings target model batch_sample = Returned e ∧
    q_selected_of model batch_sample = Returned q_selected ∧
    smooth_l1_loss q_selected e = Returned l ∧
    weighted_mean batch_sample l = Returned loss.
Proof.
  unfold compute_loss, original_losses_of. intros Hc.
  inv_bind Hc as e' He. inv_bind Hc as l' Hl. inv_bind Hc as loss' Hloss.
  injection Hc as -> -> ->. inv_bind Hl as q_selected Hq. by exists q_selected.
Qed.

(** The differentiated scalar on aligned tensors. *)
Lemma objective_aligned (model : Model) batch_sample (e q_selected : list Qc)
    (w : StateDict) :
  q_selected_of (load_state_dict w model) batch_sample = Returned q_selected →
  length q_selected = length e →
  length (weights batch_sample) = length e →
  e ≠ [] →
  objective model batch_sample e w
  = Returned (weighted_smooth_l1_mean (weights batch_sample) q_selected e).
Proof.
  intros Hq Hlen_q Hlen_w Hne.
  unfold objective, original_losses_of, weighted_mean, smooth_l1_loss.
  rewrite Hq. simpl. rewrite broadcast2_aligned by done. simpl.
  rewrite broadcast2_aligned by (by rewrite length_zip_with, Hlen_q, Hlen_w, Nat.min_id).
  simpl. rewrite mean_nonempty.
  - unfold weighted_smooth_l1_mean.
    by rewrite !length_zip_with, Hlen_q, Hlen_w, !Nat.min_id.
  - destruct e, q_selected, (weights batch_sample); done.
Qed.

(** C4. In a returning [train_batch] the scalar loss handed to the
    backward pass is the value, at the current weights of the train model,
    of the function that is differentiated, and in that function
    [expected_q] is the constant computed beforehand by [td_target]: only
    [q_selected], the train network's value at the taken action of every
    sample, varies with the weights. On aligned tensors this function is
    the mean over the batch of [weight * smooth_l1 (q_selected, expected_q)],
    and [smooth_l1] is half the squared residual below a residual of one
    and the residual minus one half from one on. *)
Theorem train_batch_loss fuel batch_info self trace batch_info' self' trace' :
  train_batch fuel batch_info self trace = Returned (batch_info', self', trace') →
  ∃ progress before_backward after_backward batch_sample expected_q q_selected
      original_losses loss,
    let model := prepared (with_epsilon self progress batch_info) self in
    let gradients := backward (objective model batch_sample expected_q) model in
    trace' = before_backward ++ EvBackward loss :: after_backward ∧
    td_target (settings self) (eval (target_model self)) model batch_sample
      = Returned expected_q ∧
    q_selected_of model batch_sample = Returned q_selected ∧
    (∀ i a, actions batch_sample !! i = Some a →
       ∃ row v, forward model (states batch_sample) !! i = Some row ∧
                row !! Z.to_nat a = Some v ∧ q_selected !! i = Some v) ∧
    objective model batch_sample expected_q (state_dict model) = Returned loss ∧
    parameters (train_model self')
      = match max_grad_norm (settings self) with
        | Some cap => (Grad.clip_grad_norm_ requires_grad gradients cap).1
        | None => gradients
        end ∧
    (length q_selected = length expected_q →
     length (weights batch_sample) = length expected_q →
     original_losses = zip_with smooth_l1 q_selected expected_q ∧
     loss = weighted_smooth_l1_mean (weights batch_sample) q_selected expected_q) ∧
    (∀ w qs,
       q_selected_of (load_state_dict w model) batch_sample = Returned qs →
       length qs = length expected_q →
       length (weights batch_sample) = length expected_q →
       expected_q ≠ [] →
       objective model batch_sample expected_q w
       = Returned (weighted_smooth_l1_mean (weights batch_sample) qs expected_q)) ∧
    (∀ x y, (abs (x - y) < 1 → smooth_l1 x y = Q2Qc (1 # 2) * ((x - y) * (x - y))) ∧
            (1 <= abs (x - y) → smooth_l1 x y = abs (x - y) - Q2Qc (1 # 2))).
Proof.
  intros Hb. apply train_batch_Returned in Hb
    as (value & progress & n & roller' & batch_sample & e & l & loss
        & _ & _ & _ & _ & Hloss & Hresult).
  apply compute_loss_Returned in Hloss as (q_selected & He & Hq & Hl & Hmean).
  exists progress,
    (trace ++ replicate n EvRollout
       ++ [EvZeroGrad; EvSample (batch_size (settings self))]),
    ([EvUpdate batch_sample l] ++ clip_events (settings self) ++ [EvStep]),
    batch_sample, e, q_selected, l, loss.
  cbv zeta. split_and!.
  - pose proof (f_equal snd Hresult) as Htrace. rewrite optimise_trace in Htrace.
    simpl in Htrace. rewrite Htrace. by rewrite <- !app_assoc.
  - done.
  - done.
  - intros i a Ha. apply gather_Returned in Hq as [_ Hrows].
    destruct (Hrows i a Ha) as (row & v & Hrow & _ & Hv & Hqi). eauto.
  - unfold objective, original_losses_of. rewrite load_state_dict_id, Hq. simpl.
    rewrite Hl. simpl. done.
  - match type of Hresult with
    | _ = optimise ?b ?s ?m ?t ?r ?ro ?bs ?e ?l ?lo ?tr =>
        pose proof (optimise_clipping b s m t r ro bs e l lo tr) as Hclip
    end.
    cbv zeta in Hclip. rewrite <- Hresult in Hclip. cbn [fst snd] in Hclip.
    destruct (max_grad_norm (settings self)); by destruct Hclip as (_ & _ & -> & _).
  - intros Hlen_q Hlen_w. unfold smooth_l1_loss in Hl.
    rewrite broadcast2_aligned in Hl by done. injection Hl as <-. split; [done|].
    unfold weighted_mean in Hmean.
    rewrite broadcast2_aligned in Hmean
      by (by rewrite length_zip_with, Hlen_q, Hlen_w, Nat.min_id).
    simpl in Hmean. apply mean_Returned in Hmean as [_ ->].
    unfold weighted_smooth_l1_mean.
    by rewrite !length_zip_with, Hlen_q, Hlen_w, !Nat.min_id.
  - intros w qs. apply objective_aligned.
  - intros x y. split; [apply smooth_l1_small | apply smooth_l1_large].
Qed.

End Loss.

(** ** The loss of a reordered batch *)

Lemma traverse_length {A B} (f : A → outcome B) (l : list A) (r : list B) :
  traverse f l = Returned r → length r = length l.
Proof. intros Hf%traverse_Returned. symmetry. by eapply Forall2_length. Qed.

Module ReorderFacts.
Import Reordering.

Lemma reorder_cons {A} (i : nat) (σ : list nat) (l : list A) :
  reorder (i :: σ) l = match l !! i with
                       | Some x => x :: reorder σ l
                       | None => reorder σ l
                       end.
Proof. done. Qed.

Lemma reorder_map {A B} (f : A → B) (σ : list nat) (l : list A) :
  reorder σ (map f l) = map f (reorder σ l).
Proof.
  induction σ as [|i σ IH]; [done|].
  rewrite !reorder_cons, list_lookup_fmap, IH. by destruct (l !! i).
Qed.

Lemma reorder_zip_with {A B C} (f : A → B → C) (σ : list nat) (a : list A) (b : list B) :
  length a = length b →
  reorder σ (zip_with f a b) = zip_with f (reorder σ a) (reorder σ b).
Proof.
  intros Hlen. induction σ as [|i σ IH]; [done|].
  rewrite !reorder_cons, lookup_zip_with, IH.
  destruct (a !! i) as [x|] eqn:Ha, (b !! i) as [y|] eqn:Hb; try done.
  - apply lookup_lt_Some in Ha. apply lookup_ge_None in Hb. lia.
  - apply lookup_lt_Some in Hb. apply lookup_ge_None in Ha. lia.
Qed.

Lemma Forall2_reorder {A B} (P : A → B → Prop) (σ : list nat) (l : list A) (r : list B) :
  Forall2 P l r → Forall2 P (reorder σ l) (reorder σ r).
Proof.
  intros Hlr. induction σ as [|i σ IH]; [constructor|].
  rewrite !reorder_cons.
  destruct (l !! i) as [x|] eqn:Hl.
  - destruct (Forall2_lookup_l _ _ _ _ _ Hlr Hl) as (y & -> & Hxy). by constructor.
  - apply lookup_ge_None in Hl. rewrite (Forall2_length _ _ _ Hlr) in Hl.
    apply lookup_ge_None in Hl. by rewrite Hl.
Qed.

Lemma traverse_reorder {A B} (f : A → outcome B) (σ : list nat) (l : list A) (r : list B) :
  traverse f l = Returned r → traverse f (reorder σ l) = Returned (reorder σ r).
Proof.
  intros Hf%traverse_Returned. by apply traverse_Forall2, Forall2_reorder.
Qed.

Lemma reorder_seq {A} (l : list A) : reorder (seq 0 (length l)) l = l.
Proof.
  assert (∀ (pre : list A), reorder (seq (length pre) (length l)) (pre ++ l) = l) as Hgen.
  { induction l as [|x l IH]; intros pre; [done|].
    cbn [length seq]. rewrite reorder_cons.
    rewrite lookup_app_r by lia. rewrite Nat.sub_diag. cbn.
    f_equal. specialize (IH (pre ++ [x])).
    rewrite length_app, <- app_assoc in IH. cbn in IH.
    by replace (length pre + 1)%nat with (S (length pre)) in IH by lia. }
  apply (Hgen []).
Qed.

Lemma reorder_Permutation {A} (σ : list nat) (l : list A) :
  Permutation σ (seq 0 (length l)) → Permutation (reorder σ l) l.
Proof.
  intros Hσ. unfold reorder. rewrite Hσ. fold (reorder (seq 0 (length l)) l).
  by rewrite reorder_seq.
Qed.

Lemma length_reorder {A} (σ : list nat) (l : list A) :
  Permutation σ (seq 0 (length l)) → length (reorder σ l) = length l.
Proof. intros Hσ. by rewrite (reorder_Permutation σ l Hσ). Qed.


Lemma length_reorder_eq {A B} (σ : list nat) (a : list A) (b : list B) :
  length a = length b → length (reorder σ a) = length (reorder σ b).
Proof.
  intros Hlen. induction σ as [|i σ IH]; [done|]. rewrite !reorder_cons.
  destruct (a !! i) as [x|] eqn:Ha, (b !! i) as [y|] eqn:Hb; cbn; try lia.
  - apply lookup_lt_Some in Ha. apply lookup_ge_None in Hb. lia.
  - apply lookup_lt_Some in Hb. apply lookup_ge_None in Ha. lia.
Qed.

Lemma gather_zip (input : list (list Qc)) (index : list Z) :
  length input = length index →
  Tensor.gather input index
  = traverse (λ p, Tensor.gather_row p.1 p.2) (zip input index).
Proof.
  revert input. induction index as [|i index IH]; intros input Hlen.
  - by destruct input.
  - destruct input as [|row input]; [done|]. cbn. rewrite IH by (cbn in Hlen; lia). done.
Qed.

Lemma gather_reorder (σ : list nat) (input : list (list Qc)) (index : list Z)
    (vs : list Qc) :
  length input = length index →
  Tensor.gather input index = Returned vs →
  Tensor.gather (reorder σ input) (reorder σ index) = Returned (reorder σ vs).
Proof.
  intros Hlen Hg. rewrite gather_zip in Hg by done.
  rewrite gather_zip by (by apply length_reorder_eq).
  rewrite <- (reorder_zip_with pair) by done. by apply traverse_reorder.
Qed.

Lemma reorder_seq_app {A} (pre l : list A) :
  reorder (seq (length pre) (length l)) (pre ++ l) = l.
Proof.
  revert pre. induction l as [|x l IH]; intros pre; [done|].
  cbn [length seq]. rewrite reorder_cons.
  rewrite lookup_app_r by lia. rewrite Nat.sub_diag. cbn.
  f_equal. specialize (IH (pre ++ [x])).
  rewrite length_app, <- app_assoc in IH. cbn in IH.
  by replace (length pre + 1)%nat with (S (length pre)) in IH by lia.
Qed.

Lemma reorder_shift {A} (x : A) (σ : list nat) (l : list A) :
  reorder (map S σ) (x :: l) = reorder σ l.
Proof.
  induction σ as [|i σ IH]; [done|]. cbn [map]. rewrite !reorder_cons, IH. done.
Qed.

Lemma reorder_lookup {A} (σ : list nat) (l : list A) (k : nat) :
  Forall (λ i, (i < length l)%nat) σ →
  reorder σ l !! k = σ !! k ≫= (l !!.).
Proof.
  intros Hσ. revert k. induction Hσ as [|i σ Hi _ IH]; intros k; [done|].
  rewrite reorder_cons. destruct (lookup_lt_is_Some_2 l i Hi) as [x Hx]. rewrite Hx.
  destruct k as [|k]; cbn; [by rewrite Hx|]. apply IH.
Qed.

Lemma reorder_reorder {A} (σ1 σ2 : list nat) (l : list A) :
  Forall (λ i, (i < length l)%nat) σ1 →
  reorder σ2 (reorder σ1 l) = reorder (reorder σ2 σ1) l.
Proof.
  intros Hσ1. induction σ2 as [|k σ2 IH]; [done|].
  rewrite !reorder_cons, reorder_lookup by done.
  destruct (σ1 !! k) as [i|] eqn:Hk.
  - rewrite reorder_cons. change (Some i ≫= (l !!.)) with (l !! i). by rewrite IH.
  - exact IH.
Qed.

Lemma valid_positions (σ : list nat) (n : nat) :
  Permutation σ (seq 0 n) → Forall (λ i, (i < n)%nat) σ.
Proof.
  intros Hσ. rewrite Hσ. apply Forall_forall. intros i Hi%elem_of_seq. lia.
Qed.

(** Every permutation of a list is a reordering of it. *)
Lemma Permutation_reorder {A} (l l' : list A) :
  Permutation l l' → ∃ σ, Permutation σ (seq 0 (length l)) ∧ l' = reorder σ l.
Proof.
  induction 1 as [|x l l' _ (σ & Hσ & ->)|x y l|l l' l'' Hll' (σ1 & Hσ1 & ->) _ IH2].
  - by exists [].
  - exists (0%nat :: map S σ). split.
    + cbn [length seq]. constructor. rewrite Hσ. by rewrite fmap_S_seq.
    + rewrite reorder_cons. cbn. by rewrite reorder_shift.
  - exists (1%nat :: 0%nat :: seq 2 (length l)). split.
    + cbn [length seq]. apply perm_swap.
    + rewrite !reorder_cons. cbn. f_equal. f_equal.
      symmetry. apply (reorder_seq_app [y; x] l).
  - destruct IH2 as (σ2 & Hσ2 & ->).
    pose proof (valid_positions _ _ Hσ1) as Hvalid.
    rewrite (length_reorder σ1 l Hσ1) in Hσ2.
    exists (reorder σ2 σ1). split.
    + etrans; [|exact Hσ1]. apply reorder_Permutation.
      by rewrite (Permutation_length Hσ1), length_seq.
    + by apply reorder_reorder.
Qed.

End ReorderFacts.

Section ReorderedLoss.
Context `{Collaborators}.
Import Tensor TensorFacts LossFacts Vocabulary Reordering ReorderFacts.
Local Open Scope Qc_scope.

Variables (settings : DqnReinforcerSettings) (target_net model : Model).
Hypothesis target_batchwise : batchwise target_net.
Hypothesis model_batchwise : batchwise model.

Lemma bootstrap_values_length (nexts : list Observation) (values : list Qc) :
  bootstrap_values settings target_net model nexts = Returned values →
  length values = length nexts.
Proof.
  unfold bootstrap_values. destruct (double_dqn settings).
  - intros Hb. inv_bind Hb as selected Hsel.
    apply traverse_length in Hsel. apply gather_Returned in Hb as [Hlen _].
    rewrite Hlen, length_map, Hsel. apply model_batchwise.
  - intros Hb%traverse_length. rewrite Hb. apply target_batchwise.
Qed.

Lemma bootstrap_values_reorder (σ : list nat) (nexts : list Observation)
    (values : list Qc) :
  Permutation σ (seq 0 (length nexts)) →
  bootstrap_values settings target_net model nexts = Returned values →
  bootstrap_values settings target_net model (reorder σ nexts)
  = Returned (reorder σ values).
Proof.
  intros Hσ. unfold bootstrap_values.
  rewrite (proj2 (target_batchwise nexts) σ Hσ), (proj2 (model_batchwise nexts) σ Hσ).
  destruct (double_dqn settings).
  - intros Hb. inv_bind Hb as selected Hsel.
    rewrite (traverse_reorder _ σ _ _ Hsel). cbn [bind].
    rewrite <- reorder_map. apply gather_reorder; [|done].
    rewrite length_map, (traverse_length _ _ _ Hsel).
    rewrite (proj1 (target_batchwise nexts)). symmetry. apply model_batchwise.
  - apply traverse_reorder.
Qed.

Lemma q_selected_reorder (σ : list nat) (rows : list Row) (qs : list Qc) :
  Permutation σ (seq 0 (length rows)) →
  q_selected_of model (batch_of rows) = Returned qs →
  q_selected_of model (batch_of (reorder σ rows)) = Returned (reorder σ qs).
Proof.
  intros Hσ. unfold q_selected_of. cbn [states actions batch_of].
  rewrite <- !reorder_map.
  assert (Permutation σ (seq 0 (length (map row_state rows)))) as Hσ'
    by (by rewrite length_map).
  rewrite (proj2 (model_batchwise (map row_state rows)) σ Hσ').
  apply gather_reorder.
  rewrite (proj1 (model_batchwise (map row_state rows))). by rewrite !length_map.
Qed.

(** The loss computation on a batch of rows whose tensors are aligned. *)
Lemma compute_loss_aligned (rows : list Row) (e l : list Qc) (loss : Qc) :
  compute_loss settings target_net model (batch_of rows) = Returned (e, l, loss) ↔
  rows ≠ [] ∧
  ∃ values qs,
    bootstrap_values settings target_net model (map row_next rows) = Returned values ∧
    q_selected_of model (batch_of rows) = Returned qs ∧
    e = expected_of settings rows values ∧
    l = zip_with smooth_l1 qs e ∧
    loss = sum (weighted_of settings rows values qs)
           / Q2Qc (inject_Z (Z.of_nat (length rows))).
Proof.
  assert (∀ values, bootstrap_values settings target_net model (map row_next rows)
                    = Returned values → length values = length rows) as Hlv.
  { intros values Hv%bootstrap_values_length. by rewrite length_map in Hv. }
  assert (∀ qs, q_selected_of model (batch_of rows) = Returned qs →
                length qs = length rows) as Hlq.
  { intros qs Hq. unfold q_selected_of in Hq. apply gather_Returned in Hq as [Hlen _].
    cbn in Hlen. by rewrite length_map in Hlen. }
  split.
  - intros (qs & He & Hq & Hl & Hmean)%compute_loss_Returned.
    unfold td_target in He. inv_bind He as values Hvalues.
    simpl in Hvalues.
    pose proof (Hlv _ Hvalues) as Hlen_v. pose proof (Hlq _ Hq) as Hlen_q.
    unfold expected_q_of in He. simpl in He.
    rewrite broadcast2_aligned in He by (by rewrite !length_map). simpl in He.
    rewrite broadcast2_aligned in He
      by (by rewrite length_zip_with, !length_map, Hlen_v, Nat.min_id).
    injection He as <-. fold (expected_of settings rows values) in *.
    assert (length (expected_of settings rows values) = length rows) as Hlen_e.
    { unfold expected_of. rewrite !length_zip_with, !length_map. lia. }
    unfold smooth_l1_loss in Hl. rewrite broadcast2_aligned in Hl by congruence.
    injection Hl as <-.
    unfold weighted_mean in Hmean. simpl in Hmean.
    rewrite broadcast2_aligned in Hmean
      by (by rewrite length_zip_with, length_map, Hlen_q, Hlen_e, Nat.min_id).
    simpl in Hmean. apply mean_Returned in Hmean as [Hne ->].
    fold (weighted_of settings rows values qs) in *.
    assert (length (weighted_of settings rows values qs) = length rows) as Hlen_w.
    { unfold weighted_of. rewrite !length_zip_with, length_map. lia. }
    split; [by destruct rows|]. exists values, qs. by rewrite Hlen_w.
  - intros (Hne & values & qs & Hvalues & Hq & -> & -> & ->).
    pose proof (Hlv _ Hvalues) as Hlen_v. pose proof (Hlq _ Hq) as Hlen_q.
    assert (length (expected_of settings rows values) = length rows) as Hlen_e.
    { unfold expected_of. rewrite !length_zip_with, !length_map. lia. }
    assert (length (weighted_of settings rows values qs) = length rows) as Hlen_w.
    { unfold weighted_of. rewrite !length_zip_with, length_map. lia. }
    unfold compute_loss, td_target, original_losses_of. simpl.
    rewrite Hvalues; simpl. unfold expected_q_of; simpl.
    rewrite broadcast2_aligned by (by rewrite !length_map). simpl.
    rewrite broadcast2_aligned
      by (by rewrite length_zip_with, !length_map, Hlen_v, Nat.min_id).
    simpl. fold (expected_of settings rows values). rewrite Hq; simpl.
    unfold smooth_l1_loss. rewrite broadcast2_aligned by congruence. simpl.
    unfold weighted_mean; simpl.
    rewrite broadcast2_aligned
      by (by rewrite length_zip_with, length_map, Hlen_q, Hlen_e, Nat.min_id).
    simpl. fold (weighted_of settings rows values qs).
    rewrite mean_nonempty, Hlen_w; [done|].
    intros Hnil. apply (f_equal length) in Hnil. rewrite Hlen_w in Hnil.
    by destruct rows.
Qed.

Lemma expected_of_reorder (σ : list nat) (rows : list Row) (values : list Qc) :
  length values = length rows →
  expected_of settings (reorder σ rows) (reorder σ values)
  = reorder σ (expected_of settings rows values).
Proof.
  intros Hlen. unfold expected_of. rewrite <- !reorder_map.
  rewrite <- (reorder_zip_with Qcmult) by (by rewrite !length_map).
  rewrite <- (reorder_zip_with Qcplus)
    by (by rewrite length_zip_with, !length_map, Hlen, Nat.min_id).
  done.
Qed.

Lemma weighted_of_reorder (σ : list nat) (rows : list Row) (values qs : list Qc) :
  length values = length rows → length qs = length rows →
  weighted_of settings (reorder σ rows) (reorder σ values) (reorder σ qs)
  = reorder σ (weighted_of settings rows values qs).
Proof.
  intros Hlen_v Hlen_q. unfold weighted_of.
  assert (length (expected_of settings rows values) = length rows) as Hlen_e.
  { unfold expected_of. rewrite !length_zip_with, !length_map. lia. }
  rewrite expected_of_reorder, <- reorder_map by done.
  rewrite <- (reorder_zip_with smooth_l1) by congruence.
  rewrite <- (reorder_zip_with Qcmult)
    by (by rewrite length_zip_with, length_map, Hlen_q, Hlen_e, Nat.min_id).
  done.
Qed.

(** The loss computation follows a reordering of the batch: the tensors
    are reordered with it and the scalar loss is the same. *)
Lemma compute_loss_reorder (σ : list nat) (rows : list Row) (e l : list Qc) (loss : Qc) :
  Permutation σ (seq 0 (length rows)) →
  compute_loss settings target_net model (batch_of rows) = Returned (e, l, loss) →
  compute_loss settings target_net model (batch_of (reorder σ rows))
  = Returned (reorder σ e, reorder σ l, loss).
Proof.
  intros Hσ (Hne & values & qs & Hvalues & Hq & -> & -> & ->)%compute_loss_aligned.
  assert (length values = length rows) as Hlen_v.
  { apply bootstrap_values_length in Hvalues. by rewrite length_map in Hvalues. }
  assert (length qs = length rows) as Hlen_q.
  { unfold q_selected_of in Hq. apply gather_Returned in Hq as [Hlen _].
    cbn in Hlen. by rewrite length_map in Hlen. }
  assert (length (expected_of settings rows values) = length rows) as Hlen_e.
  { unfold expected_of. rewrite !length_zip_with, !length_map. lia. }
  assert (length (weighted_of settings rows values qs) = length rows) as Hlen_w.
  { unfold weighted_of. rewrite !length_zip_with, length_map. lia. }
  apply compute_loss_aligned. split.
  - intros Hnil. apply (f_equal length) in Hnil.
    rewrite (length_reorder σ rows Hσ) in Hnil. by destruct rows.
  - exists (reorder σ values), (reorder σ qs). split_and!.
    + rewrite <- reorder_map. apply bootstrap_values_reorder; [|done].
      by rewrite length_map.
    + by apply q_selected_reorder.
    + by rewrite expected_of_reorder.
    + by rewrite <- (reorder_zip_with smooth_l1) by congruence.
    + rewrite weighted_of_reorder by done. rewrite (length_reorder σ rows Hσ).
      f_equal. apply sum_Permutation. symmetry. apply reorder_Permutation.
      by rewrite Hlen_w.
Qed.

End ReorderedLoss.

Section RowWise.
Context `{Collaborators}.
Import Vocabulary Reordering ReorderFacts.

(** Networks that map every observation on its own are batchwise. *)
Lemma row_wise_batchwise (model : Model) : row_wise model → batchwise model.
Proof.
  intros [f Hf] observations. rewrite !Hf. split; [by rewrite length_map|].
  intros σ _. by rewrite Hf, reorder_map.
Qed.

End RowWise.

Section Priorities.
Context `{Collaborators}.
Import Tensor TensorFacts LossFacts Vocabulary Reordering ReorderFacts.
Local Open Scope Qc_scope.

(** The tensors of a returning loss computation have one entry per row. *)
Lemma compute_loss_lengths (settings : DqnReinforcerSettings) (target model : Model)
    (rows : list Row) (e l : list Qc) (loss : Qc) :
  batchwise target → batchwise model →
  compute_loss settings target model (batch_of rows) = Returned (e, l, loss) →
  length e = length rows ∧ length l = length rows.
Proof.
  intros Ht Hm (Hne & values & qs & Hvalues & Hq & -> & -> & ->)%compute_loss_aligned;
    [|done..].
  assert (length values = length rows) as Hlen_v.
  { apply bootstrap_values_length in Hvalues; [|done..]. by rewrite length_map in Hvalues. }
  assert (length qs = length rows) as Hlen_q.
  { unfold q_selected_of in Hq. apply gather_Returned in Hq as [Hlen _].
    cbn in Hlen. by rewrite length_map in Hlen. }
  assert (length (expected_of settings rows values) = length rows) as Hlen_e.
  { unfold expected_of. rewrite !length_zip_with, !length_map. lia. }
  split; [done|]. rewrite length_zip_with. lia.
Qed.

(** C7. For networks whose forward pass returns one row per observation
    and follows every reordering of the batch, the loss computation on a
    reordered batch returns [expected_q] and the per-sample losses in the
    new order and the same scalar loss; so the scalar loss is the same for
    every permutation of the transitions. Networks that map every
    observation on its own are of this kind. In a returning [train_batch],
    the env-roller's [update] receives the very sample that was drawn
    together with the per-sample losses [smooth_l1 (q_selected, expected_q)],
    not multiplied by the weights and at the positions of their samples. *)
Theorem loss_permutation_and_priorities :
  (∀ (settings : DqnReinforcerSettings) (target model : Model) (rows : list Row)
     (e l : list Qc) (loss : Qc),
     batchwise target → batchwise model →
     compute_loss settings target model (batch_of rows) = Returned (e, l, loss) →
     (∀ σ, Permutation σ (seq 0 (length rows)) →
        compute_loss settings target model (batch_of (reorder σ rows))
        = Returned (reorder σ e, reorder σ l, loss)) ∧
     (∀ rows', Permutation rows rows' →
        ∃ e' l',
          compute_loss settings target model (batch_of rows') = Returned (e', l', loss) ∧
          Permutation e e' ∧ Permutation l l')) ∧
  (∀ model : Model, row_wise model → batchwise model) ∧
  (∀ fuel (batch_info : BatchInfo) (self : DqnReinforcer) (trace : list Event)
     batch_info' self' trace',
     train_batch fuel batch_info self trace = Returned (batch_info', self', trace') →
     ∃ progress n before after batch_sample roller' expected_q q_selected losses,
       let context := with_epsilon self progress batch_info in
       let model := prepared context self in
       let rolled :=
         rollouts n context (eval (train_model self)) (start_rolling self trace) in
       sample context (batch_size (settings self)) model (roller rolled)
         = (roller', batch_sample) ∧
       trace' = before ++ EvUpdate batch_sample losses :: after ∧
       env_roller self' = update batch_sample losses roller' ∧
       td_target (settings self) (eval (target_model self)) model batch_sample
         = Returned expected_q ∧
       q_selected_of model batch_sample = Returned q_selected ∧
       smooth_l1_loss q_selected expected_q = Returned losses ∧
       (length q_selected = length expected_q →
        length losses = length q_selected ∧
        ∀ i q x, q_selected !! i = Some q → expected_q !! i = Some x →
                 losses !! i = Some (smooth_l1 q x))).
Proof.
  split_and!.
  - intros settings target model rows e l loss Ht Hm Hloss.
    destruct (compute_loss_lengths _ _ _ _ _ _ _ Ht Hm Hloss) as [Hlen_e Hlen_l].
    split.
    + intros σ Hσ. by apply compute_loss_reorder.
    + intros rows' (σ & Hσ & ->)%Permutation_reorder.
      exists (reorder σ e), (reorder σ l). split_and!.
      * by apply compute_loss_reorder.
      * symmetry. apply reorder_Permutation. by rewrite Hlen_e.
      * symmetry. apply reorder_Permutation. by rewrite Hlen_l.
  - apply row_wise_batchwise.
  - intros fuel batch_info self trace batch_info' self' trace' Hb.
    apply train_batch_Returned in Hb
      as (value & progress & n & roller' & batch_sample & e & l & loss
          & _ & _ & _ & Hsample & Hloss & Hresult).
    apply compute_loss_Returned in Hloss as (q_selected & He & Hq & Hl & Hmean).
    exists progress, n,
      (trace ++ replicate n EvRollout
         ++ [EvZeroGrad; EvSample (batch_size (settings self)); EvBackward loss]),
      (clip_events (settings self) ++ [EvStep]),
      batch_sample, roller', e, q_selected, l.
    cbv zeta. split_and!; try done.
    + pose proof (f_equal snd Hresult) as Htrace. rewrite optimise_trace in Htrace.
      simpl in Htrace. rewrite Htrace. by rewrite <- !app_assoc.
    + change self' with (batch_info', self', trace').1.2. rewrite Hresult.
      unfold optimise. destruct (clip_phase _ _ _ _) as [[model' bi'] trace''].
      by destruct (step _ _).
    + intros Hlen. unfold smooth_l1_loss in Hl.
      rewrite broadcast2_aligned in Hl by done. injection Hl as <-. split.
      * rewrite length_zip_with. lia.
      * intros i q x Hqi Hxi. by rewrite lookup_zip_with, Hqi, Hxi.
Qed.

End Priorities.

(** * Further properties of the reinforcer *)

Section Reported.
Context `{Collaborators}.
Import Vocabulary Reporting.

Implicit Types (batch_info : BatchInfo) (self : DqnReinforcer) (trace : list Event).

Lemma rollouts_episodes n batch_info (policy : Model) (s : Rolling) :
  episode_information (rollouts n batch_info policy s)
  = episode_information s ++ episodes_of n batch_info policy s.
Proof.
  unfold episodes_of. induction n as [|n IH].
  - simpl. by rewrite app_nil_r.
  - rewrite seq_S, omap_app, app_assoc, <- IH. simpl.
    change (Nat.iter n (rollout_step batch_info policy) s)
      with (rollouts n batch_info policy s).
    unfold rollout_step at 1.
    destruct (rollout batch_info policy (roller (rollouts n batch_info policy s)))
      as [roller' [info|]]; simpl; [done|]. by rewrite app_nil_r.
Qed.

Lemma episodes_of_length n batch_info (policy : Model) (s : Rolling) :
  (length (episodes_of n batch_info policy s) ≤ n)%nat.
Proof.
  unfold episodes_of.
  assert (∀ (f : nat → option EpisodeInfo) ks, (length (omap f ks) ≤ length ks)%nat)
    as Hle.
  { intros f ks. induction ks as [|k ks IH]; [done|].
    change (omap f (k :: ks))
      with (match f k with Some y => y :: omap f ks | None => omap f ks end).
    destruct (f k); simpl; lia. }
  etrans; [apply Hle|]. by rewrite length_seq.
Qed.

(** What [train_batch] leaves in the batch dictionary. The trace of a
    returning call continues with exactly [n] rollout steps, none later, and
    [n] is the warm-up count when the env-roller starts cold and
    [train_frequency] when it starts ready. The dictionary then holds the
    value of the epsilon schedule at the stored progress, [n] itself under
    'frames', and under 'episode_infos' the episode records that these [n]
    rollout steps returned, in their order and at most one per step; no key
    other than the four that [train_batch] assigns is changed. *)
Theorem train_batch_reports fuel batch_info self trace batch_info' self' trace' :
  train_batch fuel batch_info self trace = Returned (batch_info', self', trace') →
  ∃ value progress n rest,
    let context := with_epsilon self progress batch_info in
    let policy := eval (train_model self) in
    let episodes := episodes_of n context policy (start_rolling self trace) in
    data_dict batch_info !! "progress" = Some value ∧
    as_float value = Returned progress ∧
    trace' = trace ++ replicate n EvRollout ++ rest ∧
    count is_rollout rest = 0%nat ∧
    (if is_ready_for_sampling (env_roller self)
     then n = Z.to_nat (train_frequency (settings self))
     else ready_after n context policy (start_rolling self trace)) ∧
    data_dict batch_info' !! "epsilon_value"
      = Some (VFloat (epsilon_schedule (settings self) progress)) ∧
    data_dict batch_info' !! "frames" = Some (VInt (Z.of_nat n)) ∧
    data_dict batch_info' !! "episode_infos" = Some (VEpisodes episodes) ∧
    episode_information (rollouts n context policy (start_rolling self trace))
      = episodes ∧
    (length episodes ≤ n)%nat ∧
    ∀ key, key ∉ written_keys →
           data_dict batch_info' !! key = data_dict batch_info !! key.
Proof.
  intros Hb. apply train_batch_Returned in Hb
    as (value & progress & n & roller' & batch_sample & e & l & loss
        & Hvalue & Hprogress & Hn & _ & _ & Hresult).
  exists value, progress, n,
    ([EvZeroGrad; EvSample (batch_size (settings self))]
       ++ [EvBackward loss; EvUpdate batch_sample l]
       ++ clip_events (settings self) ++ [EvStep]).
  cbv zeta.
  pose proof (f_equal snd Hresult) as Htrace. rewrite optimise_trace in Htrace.
  cbn [snd] in Htrace.
  assert (trace' = trace ++ replicate n EvRollout
                     ++ [EvZeroGrad; EvSample (batch_size (settings self))]
                     ++ [EvBackward loss; EvUpdate batch_sample l]
                     ++ clip_events (settings self) ++ [EvStep]) as Htrace'
    by (rewrite Htrace, <- !app_assoc; done).
  assert (count is_rollout
            ([EvZeroGrad; EvSample (batch_size (settings self))]
               ++ [EvBackward loss; EvUpdate batch_sample l]
               ++ clip_events (settings self) ++ [EvStep]) = 0%nat) as Hrest
    by (unfold clip_events; by destruct (max_grad_norm (settings self))).
  assert (if is_ready_for_sampling (env_roller self)
          then n = Z.to_nat (train_frequency (settings self))
          else ready_after n (with_epsilon self progress batch_info)
                 (eval (train_model self)) (start_rolling self trace)) as Hcount
    by (destruct (is_ready_for_sampling (env_roller self)); [done|]; by destruct Hn).
  change batch_info' with (batch_info', self', trace').1.1. rewrite Hresult.
  unfold optimise, clip_phase.
  assert (∀ key, key ∉ written_keys → key ≠ "epsilon_value" ∧ key ≠ "grad_norm"
                 ∧ key ≠ "frames" ∧ key ≠ "episode_infos") as Hkeys.
  { intros key Hkey. unfold written_keys in Hkey. set_solver. }
  destruct (max_grad_norm (settings self)) as [cap|].
  - destruct (Grad.clip_grad_norm_ _ _ _) as [ps grad_norm].
    destruct (step _ _) as [optimizer' weights']. simpl.
    rewrite rollouts_frames, rollouts_episodes. simpl.
    split_and!; try done; try (by simplify_map_eq).
    + apply episodes_of_length.
    + intros key (? & ? & ? & ?)%Hkeys. by simplify_map_eq.
  - destruct (step _ _) as [optimizer' weights']. simpl.
    rewrite rollouts_frames, rollouts_episodes. simpl.
    split_and!; try done; try (by simplify_map_eq).
    + apply episodes_of_length.
    + intros key (? & ? & ? & ?)%Hkeys. by simplify_map_eq.
Qed.

(** [metrics] lists the 'grad_norm' metric exactly when a cap on the
    gradient norm is configured. In that case a returning [train_batch]
    stores under 'grad_norm' the global norm, measured before clipping, of
    the gradients that the backward pass of this batch's loss left on the
    parameters that require gradients, and the train model carries these
    gradients clipped to the cap. Without the metric the key keeps what it
    held and the gradients are left as the backward pass gave them. *)
Theorem metrics_match_train_batch fuel batch_info self trace batch_info' self' trace' :
  train_batch fuel batch_info self trace = Returned (batch_info', self', trace') →
  (AveragingNamedMetric "grad_norm" ∈ metrics self ↔
   max_grad_norm (settings self) ≠ None) ∧
  ∃ progress n roller' batch_sample expected_q original_losses loss,
    let context := with_epsilon self progress batch_info in
    let model := prepared context self in
    let rolled :=
      rollouts n context (eval (train_model self)) (start_rolling self trace) in
    let gradients := backward (objective model batch_sample expected_q) model in
    sample context (batch_size (settings self)) model (roller rolled)
      = (roller', batch_sample) ∧
    compute_loss (settings self) (eval (target_model self)) model batch_sample
      = Returned (expected_q, original_losses, loss) ∧
    (AveragingNamedMetric "grad_norm" ∈ metrics self →
     ∃ cap,
       max_grad_norm (settings self) = Some cap ∧
       data_dict batch_info' !! "grad_norm"
         = Some (VNorm (Grad.total_norm requires_grad gradients)) ∧
       parameters (train_model self')
         = (Grad.clip_grad_norm_ requires_grad gradients cap).1) ∧
    (AveragingNamedMetric "grad_norm" ∉ metrics self →
     data_dict batch_info' !! "grad_norm" = data_dict batch_info !! "grad_norm" ∧
     parameters (train_model self') = gradients).
Proof.
  intros Hb.
  assert (AveragingNamedMetric "grad_norm" ∈ metrics self ↔
          max_grad_norm (settings self) ≠ None) as Hiff.
  { unfold metrics. destruct (max_grad_norm (settings self)).
    - split; [done|]. intros _. apply elem_of_app. right.
      by apply list_elem_of_singleton.
    - split; [|done]. intros Hin.
      repeat (apply elem_of_cons in Hin as [Hin|Hin]; [discriminate|]).
      by apply elem_of_nil in Hin. }
  apply train_batch_Returned in Hb
    as (value & progress & n & roller' & batch_sample & e & l & loss
        & _ & _ & _ & Hsample & Hloss & Hresult).
  match type of Hresult with
  | _ = optimise ?b ?s ?m ?t ?r ?ro ?bs ?e ?l ?lo ?tr =>
      pose proof (optimise_clipping b s m t r ro bs e l lo tr) as Hclip
  end.
  cbv zeta in Hclip. rewrite <- Hresult in Hclip. cbn [fst snd] in Hclip.
  split; [done|].
  exists progress, n, roller', batch_sample, e, l, loss. cbv zeta.
  split; [done|]. split; [done|]. rewrite Hiff.
  destruct (max_grad_norm (settings self)) as [cap|].
  - destruct Hclip as (_ & Hnorm & Hparams & _). split.
    + intros _. by exists cap.
    + intros Hnone. by destruct Hnone.
  - destruct Hclip as (_ & Hnorm & Hparams & _). split; [done|]. intros _.
    split; [|done].
    rewrite Hnorm. unfold with_epsilon, setitem. simpl. by rewrite lookup_insert_ne.
Qed.

End Reported.

(** ** When a batch does not return *)

Section NoReturn.
Context `{Collaborators}.
Import Vocabulary.

Implicit Types (batch_info : BatchInfo) (self : DqnReinforcer) (trace : list Event).

Lemma warm_up_never_ready fuel batch_info (policy : Model) (s : Rolling) :
  (∀ k, is_ready_for_sampling (roller (rollouts k batch_info policy s)) = false) →
  warm_up fuel batch_info policy s = OutOfFuel.
Proof.
  revert s. induction fuel as [|fuel IH]; intros s Hnever;
    pose proof (Hnever 0%nat) as Hcold;
    change (rollouts 0 batch_info policy s) with s in Hcold;
    cbn [warm_up]; rewrite Hcold; [done|].
  apply IH. intros k. rewrite <- rollouts_S. apply Hnever.
Qed.

(** There is no bound on the warm-up: while the env-roller reports not
    ready after every number of rollout steps, no amount of fuel lets
    [train_batch] return, raise, sample or step. *)
Theorem train_batch_waits_for_readiness fuel batch_info self trace value progress :
  data_dict batch_info !! "progress" = Some value →
  as_float value = Returned progress →
  (∀ k, is_ready_for_sampling
          (roller (rollouts k (with_epsilon self progress batch_info)
                     (eval (train_model self)) (start_rolling self trace))) = false) →
  train_batch fuel batch_info self trace = OutOfFuel.
Proof.
  intros Hvalue Hprogress Hnever. unfold train_batch, getitem.
  rewrite Hvalue; simpl. rewrite Hprogress; simpl.
  fold (with_epsilon self progress batch_info). fold (start_rolling self trace).
  pose proof (Hnever 0%nat) as Hcold.
  change (rollouts 0 _ _ ?s) with s in Hcold. simpl in Hcold.
  unfold rollout_phase. cbn [roller start_rolling]. rewrite Hcold. simpl.
  by rewrite warm_up_never_ready.
Qed.

Lemma train_batch_needs_progress fuel batch_info self trace :
  data_dict batch_info !! "progress" = None →
  train_batch fuel batch_info self trace = Raised (KeyError "progress").
Proof. intros Hnone. unfold train_batch, getitem. by rewrite Hnone. Qed.

(** The progress has to come from the driver: when neither the fresh
    batch dictionary nor an [on_batch_begin] hook provides the key
    'progress', an epoch of at least one batch raises [KeyError] in its
    first batch, whatever the fuel and the state of the replay buffer. *)
Theorem train_epoch_needs_progress fuel (epoch : EpochInfo) self trace :
  (∀ e idx, new_data_dict e idx !! "progress" = None) →
  (∀ callback batch_info,
     data_dict batch_info !! "progress" = None →
     (on_batch_begin callback batch_info).2.1 !! "progress" = None) →
  (0 < batches_per_epoch epoch)%Z →
  train_epoch fuel epoch self trace = Raised (KeyError "progress").
Proof.
  intros Hfresh Hhooks Hbatches. unfold train_epoch.
  destruct (epoch_hooks_spec on_epoch_begin EvEpochBegin epoch trace)
    as (_ & _ & Hn).
  destruct (epoch_hooks on_epoch_begin _ _ _) as [epoch1 trace1]. simpl in Hn.
  rewrite Hn.
  destruct (Z.to_nat (batches_per_epoch epoch)) as [|count] eqn:Hcount; [lia|].
  cbn [seq epoch_batches]. unfold epoch_batch at 1.
  assert (∀ ks batch_info t,
            data_dict batch_info !! "progress" = None →
            data_dict
              (foldl (batch_hook_step on_batch_begin (EvBatchBegin (Z.of_nat 0)))
                 (batch_info, t) ks).1 !! "progress" = None) as Hfold.
  { induction ks as [|k ks IH]; intros batch_info t Hnone; simpl; [done|].
    destruct (callbacks (epoch_info batch_info) !! k) as [callback|]; [|by apply IH].
    pose proof (Hhooks callback batch_info Hnone) as Hafter.
    destruct (on_batch_begin callback batch_info) as [callback' [data optimizer']].
    apply IH. done. }
  unfold batch_hooks.
  match goal with
  | |- context [foldl ?f (?b, ?t) ?ks] =>
      pose proof (Hfold ks b t (Hfresh _ _)) as Hnone;
      destruct (foldl f (b, t) ks) as [batch_info1 trace2]
  end.
  simpl in Hnone. by rewrite (train_batch_needs_progress _ _ _ _ Hnone).
Qed.

End NoReturn.

(** ** Double DQN against plain DQN *)

Module SelectionFacts.
Import Tensor TensorFacts Vocabulary.
Local Open Scope Qc_scope.

(** The entry at the index that [argmax] picks is the value that [max]
    computes. *)
Lemma argmax_from_fold_max (done row : list Qc) (best_i : nat) (best : Qc) :
  done !! best_i = Some best →
  (done ++ row) !! argmax_from best_i best (length done) row
  = Some (fold_left (λ best y, if Qcltb best y then y else best) row best).
Proof.
  revert done best_i best.
  induction row as [|x row IH]; intros done best_i best Hbest; simpl.
  - rewrite app_nil_r. done.
  - replace (done ++ x :: row) with ((done ++ [x]) ++ row) by by rewrite <- app_assoc.
    replace (S (length done)) with (length (done ++ [x]))
      by (rewrite length_app; simpl; lia).
    destruct (Qcltb best x).
    + apply IH. by rewrite lookup_app_r, Nat.sub_diag.
    + apply IH. rewrite lookup_app_l; [done|]. by eapply lookup_lt_Some.
Qed.

Lemma gather_row_argmax (row : list Qc) :
  (do a <- argmax row; gather_row row (Z.of_nat a)) = Tensor.max row.
Proof.
  destruct row as [|x row]; simpl; [done|].
  unfold gather_row. rewrite decide_False by lia. rewrite Nat2Z.id.
  pose proof (argmax_from_fold_max [x] row 0 x eq_refl) as Hmax.
  change ([x] ++ row) with (x :: row) in Hmax.
  change (length [x]) with 1%nat in Hmax. by rewrite Hmax.
Qed.

Lemma select_then_gather (rows : list (list Qc)) :
  (do selected <- traverse argmax rows; gather rows (map Z.of_nat selected))
  = traverse Tensor.max rows.
Proof.
  induction rows as [|row rows IH]; [done|].
  destruct row as [|x r]; [done|].
  pose proof (gather_row_argmax (x :: r)) as Hrow.
  cbn [bind argmax Tensor.max] in Hrow.
  cbn [bind traverse argmax Tensor.max]. rewrite <- IH.
  destruct (traverse argmax rows) as [selected| |]; cbn [bind gather map]; [|done|done].
  rewrite Hrow. done.
Qed.

End SelectionFacts.

Section DoubleDqn.
Context `{Collaborators}.
Import Tensor TensorFacts SelectionFacts Vocabulary.
Local Open Scope Qc_scope.

(** Where the train network and the target network give the same values
    on the next-states, Double DQN computes what plain DQN computes: the
    same bootstrap values, or the same exception. *)
Theorem double_dqn_agrees_with_dqn (double plain : DqnReinforcerSettings)
    (target_net policy : Model) (next : list Observation) :
  double_dqn double = true → double_dqn plain = false →
  forward policy next = forward target_net next →
  bootstrap_values double target_net policy next
  = bootstrap_values plain target_net policy next.
Proof.
  intros Hd Hp Hsame. unfold bootstrap_values. rewrite Hd, Hp, Hsame.
  apply select_then_gather.
Qed.

(** The bootstrap value of Double DQN never exceeds that of plain DQN on
    the same transition. *)
Theorem double_dqn_never_exceeds_dqn (double plain : DqnReinforcerSettings)
    (target_net policy : Model) (next : list Observation) (vd vp : list Qc) :
  double_dqn double = true → double_dqn plain = false →
  bootstrap_values double target_net policy next = Returned vd →
  bootstrap_values plain target_net policy next = Returned vp →
  ∀ i d p, vd !! i = Some d → vp !! i = Some p → d <= p.
Proof.
  unfold bootstrap_values. intros -> -> Hd Hp i d p Hdi Hpi.
  inv_bind Hd as selected Hsel.
  apply gather_Returned in Hd as [Hlen Hrows].
  assert (is_Some (map Z.of_nat selected !! i)) as [a Ha].
  { apply lookup_lt_is_Some. rewrite <- Hlen. by eapply lookup_lt_Some. }
  destruct (Hrows i a Ha) as (row & v & Hrow & _ & Hv & Hvd).
  rewrite Hdi in Hvd. injection Hvd as <-.
  apply traverse_Returned in Hp.
  destruct (Forall2_lookup_l _ _ _ _ _ Hp Hrow) as (p' & Hp' & Hmax).
  rewrite Hpi in Hp'. injection Hp' as <-.
  apply max_is_max in Hmax as [_ Hle]. apply Hle.
  by eapply list_elem_of_lookup_2.
Qed.

End DoubleDqn.

(** ** The sign of the losses *)

Module SignFacts.
Import Tensor TensorFacts.
Local Open Scope Qc_scope.

(** Order goals on [Qc], decided as linear or polynomial arithmetic on
    the underlying rationals. *)
Ltac qc_order :=
  unfold Qcle, Qclt, Qcminus, Qcopp, Qcplus, Qcmult in *;
  cbn [this Q2Qc] in *; rewrite ?Qred_correct in *; first [Lqa.lra | Lqa.nra].

Lemma abs_nonneg (z : Qc) : 0 <= abs z.
Proof.
  unfold abs. destruct (Qcltb z 0) eqn:E.
  - apply Qcltb_lt in E. qc_order.
  - by apply Qcltb_ge in E.
Qed.

Lemma smooth_l1_nonneg (x y : Qc) : 0 <= smooth_l1 x y.
Proof.
  unfold smooth_l1. cbv zeta. pose proof (abs_nonneg (x - y)) as Hz.
  destruct (Qcltb (abs (x - y)) 1) eqn:E.
  - clear E. revert Hz. generalize (abs (x - y)). intros z Hz. qc_order.
  - apply Qcltb_ge in E. clear Hz. revert E. generalize (abs (x - y)).
    intros z Hz. qc_order.
Qed.

Lemma broadcast2_elements (f : Qc → Qc → Qc) (xs ys zs : list Qc) :
  broadcast2 f xs ys = Returned zs →
  Forall (λ z, ∃ x y, x ∈ xs ∧ y ∈ ys ∧ z = f x y) zs.
Proof.
  unfold broadcast2. destruct (decide (length xs = length ys)) as [Hlen|Hlen].
  - intros [= <-]. apply Forall_forall. intros z Hz.
    apply list_elem_of_lookup in Hz as [i Hi].
    apply lookup_zip_with_Some in Hi as (x & y & -> & Hx & Hy).
    exists x, y. split_and!; [by eapply list_elem_of_lookup_2 .. | done].
  - destruct xs as [|x [|x' xs]].
    + destruct ys as [|y [|y' ys]]; [done| |done].
      intros [= <-]. constructor.
    + intros [= <-]. apply Forall_forall. intros z (y & -> & Hy)%list_elem_of_fmap.
      exists x, y. split_and!; [by apply list_elem_of_singleton | done | done].
    + destruct ys as [|y [|y' ys]]; [done| |done].
      intros [= <-]. apply Forall_forall. intros z Hz.
      change (z ∈ map (λ x0, f x0 y) (x :: x' :: xs)) in Hz.
      apply list_elem_of_fmap in Hz as (x0 & -> & Hx).
      exists x0, y. split_and!; [done | by apply list_elem_of_singleton | done].
Qed.

Lemma sum_nonneg (xs : list Qc) : Forall (λ x, 0 <= x) xs → 0 <= sum xs.
Proof.
  induction 1 as [|x xs Hx _ IH]; simpl; [done|]. by apply Qcplus_nonneg_nonneg.
Qed.

Lemma count_pos (n : nat) : 0 < Q2Qc (inject_Z (Z.of_nat (S n))).
Proof.
  unfold Qclt. cbn [this Q2Qc]. rewrite !Qred_correct.
  unfold Qlt, inject_Z. cbn [Qnum Qden]. lia.
Qed.

End SignFacts.

Section Sign.
Context `{Collaborators}.
Import Tensor TensorFacts LossFacts SignFacts Vocabulary.
Local Open Scope Qc_scope.

(** The per-sample losses that go back to the replay buffer as
    priorities are never negative, whatever the shapes and the weights;
    the scalar loss is not negative when no importance weight is. *)
Theorem losses_are_not_negative (settings : DqnReinforcerSettings)
    (target_net policy : Model) (batch_sample : BatchSample)
    (expected_q original_losses : list Qc) (loss : Qc) :
  compute_loss settings target_net policy batch_sample
    = Returned (expected_q, original_losses, loss) →
  Forall (λ x, 0 <= x) original_losses ∧
  (Forall (λ w, 0 <= w) (weights batch_sample) → 0 <= loss).
Proof.
  intros (qs & _ & _ & Hl & Hmean)%compute_loss_Returned.
  assert (Forall (λ x, 0 <= x) original_losses) as Hlosses.
  { apply broadcast2_elements in Hl. eapply Forall_impl; [exact Hl|].
    intros z (x & y & _ & _ & ->). apply smooth_l1_nonneg. }
  split; [done|]. intros Hweights.
  unfold weighted_mean in Hmean. inv_bind Hmean as weighted Hweighted.
  apply broadcast2_elements in Hweighted.
  apply mean_Returned in Hmean as [Hne ->].
  destruct weighted as [|w ws]; [done|].
  apply Qcmult_nonneg_nonneg.
  - apply sum_nonneg. eapply Forall_impl; [exact Hweighted|].
    intros z (x & y & Hx & Hy & ->). apply Qcmult_nonneg_nonneg.
    + by eapply Forall_forall in Hweights.
    + by eapply Forall_forall in Hlosses.
  - apply Qclt_le_weak, Qcinv_pos. apply count_pos.
Qed.

End Sign.

(** ** Whole epochs *)

Section EpochCounts.
Context `{Collaborators}.
Import Vocabulary.

Implicit Types (batch_info : BatchInfo) (self : DqnReinforcer) (trace : list Event).
Implicit Types (epoch : EpochInfo).



Lemma epoch_hooks_result hook event epoch trace :
  result (epoch_hooks hook event epoch trace).1 = result epoch ∧
  result_accumulator (epoch_hooks hook event epoch trace).1 = result_accumulator epoch.
Proof.
  unfold epoch_hooks. generalize (seq 0 (length (callbacks epoch))). intros ks.
  revert epoch trace. induction ks as [|k ks IH]; intros epoch trace; simpl; [done|].
  destruct (callbacks epoch !! k) as [callback|]; [|apply IH].
  destruct (hook callback epoch) as [callback' optimizer'].
  match goal with
  | |- context [foldl _ (?e, ?t) ks] => destruct (IH e t) as [-> ->]
  end.
  done.
Qed.

(** An epoch without batches: for [batches_per_epoch <= 0] the epoch
    returns with any fuel, calls the epoch hooks around the two freezing
    calls and nothing else, stores the frozen result, and leaves the
    reinforcer as it was. *)
Theorem train_epoch_without_batches fuel epoch self trace :
  (batches_per_epoch epoch ≤ 0)%Z →
  let ids := seq 0 (length (callbacks epoch)) in
  ∃ epoch',
    train_epoch fuel epoch self trace
    = Returned (epoch', self,
                trace ++ map EvEpochBegin ids
                  ++ [EvFreezeResults; EvFreezeEpochResult] ++ map EvEpochEnd ids) ∧
    is_Some (result epoch') ∧
    result_accumulator epoch' = freeze_results (result_accumulator epoch).
Proof.
  intros Hnone ids. unfold train_epoch.
  destruct (epoch_hooks_spec on_epoch_begin EvEpochBegin epoch trace)
    as (Htrace1 & Hlen1 & Hn1).
  destruct (epoch_hooks_result on_epoch_begin EvEpochBegin epoch trace) as [_ Hacc1].
  destruct (epoch_hooks on_epoch_begin _ _ _) as [epoch1 trace1].
  simpl in Htrace1, Hlen1, Hn1, Hacc1.
  rewrite Hn1. replace (Z.to_nat (batches_per_epoch epoch)) with 0%nat by lia.
  cbn [seq epoch_batches bind].
  match goal with
  | |- context [epoch_hooks on_epoch_end ?ev ?e ?t] =>
      destruct (epoch_hooks_spec on_epoch_end ev e t) as (Htrace3 & _ & _);
      destruct (epoch_hooks_result on_epoch_end ev e t) as [Hres3 Hacc3];
      destruct (epoch_hooks on_epoch_end ev e t) as [epoch3 trace3]
  end.
  simpl in Htrace3, Hres3, Hacc3. exists epoch3. split_and!.
  - rewrite Htrace3, Hlen1, Htrace1. fold ids. by rewrite <- !app_assoc.
  - by rewrite Hres3.
  - by rewrite Hacc3, Hacc1.
Qed.





End EpochCounts.

(** * Properties of the learning-rate cycle *)

Module CycleFacts.
Import Py Cycle.

Local Open Scope Z_scope.

Lemma position_inside (len : nat) (k : nat) :
  (k < len)%nat → position len (Z.of_nat k) = Ok k.
Proof.
  intros Hk. unfold position. rewrite decide_True by lia. by rewrite Nat2Z.id.
Qed.

Lemma position_beyond (len : nat) (i : Z) :
  Z.of_nat len ≤ i → position len i = Raise IndexError.
Proof.
  intros Hi. unfold position. rewrite decide_False by lia. by rewrite decide_False by lia.
Qed.

Lemma np_setitem_next (filled rest : list Z) (x v : Z) (k : nat) :
  length filled = k →
  np_setitem (filled ++ x :: rest) (Z.of_nat k) v = Ok (filled ++ v :: rest).
Proof.
  intros <-. unfold np_setitem. rewrite position_inside by (rewrite length_app; cbn; lia).
  cbn [and_then]. f_equal.
  rewrite insert_app_r_alt by lia. by rewrite Nat.sub_diag.
Qed.

Lemma np_setitem_full (filled : list Z) (v : Z) (k : nat) :
  length filled = k →
  np_setitem (filled ++ []) (Z.of_nat k) v = Raise IndexError.
Proof.
  intros <-. unfold np_setitem. rewrite position_beyond; [done|]. rewrite length_app. cbn. lia.
Qed.

Lemma fill_cycle_spec (steps : nat) (i current_start c : Z) :
  ∀ (d1 d2 d3 r1 r2 r3 : list Z) (k m : nat),
    length d1 = k → length d2 = k → length d3 = k →
    length r1 = m → length r2 = m → length r3 = m →
    fill_cycle steps i current_start
      {| dict_arr := d1 ++ r1; length_arr := d2 ++ r2; start_arr := d3 ++ r3;
         c_len := c; idx := Z.of_nat k |}
    = if decide (steps ≤ m)%nat then
        Ok {| dict_arr := d1 ++ replicate steps i ++ drop steps r1;
              length_arr := d2 ++ replicate steps c ++ drop steps r2;
              start_arr := d3 ++ replicate steps current_start ++ drop steps r3;
              c_len := c; idx := Z.of_nat (k + steps) |}
      else Raise IndexError.
Proof.
  induction steps as [|steps IH]; intros d1 d2 d3 r1 r2 r3 k m H1 H2 H3 H4 H5 H6.
  - rewrite decide_True by lia. cbn [fill_cycle replicate app]. rewrite !drop_0.
    by rewrite Nat.add_0_r.
  - cbn [fill_cycle]. unfold fill_one. cbn [dict_arr length_arr start_arr c_len idx].
    destruct r1 as [|x1 r1].
    { rewrite np_setitem_full by done. cbn [and_then].
      cbn in H4. subst m. by rewrite decide_False by lia. }
    destruct r2 as [|x2 r2]; [cbn in *; lia|].
    destruct r3 as [|x3 r3]; [cbn in *; lia|].
    rewrite !np_setitem_next by done.
    cbn [and_then].
    replace (Z.of_nat k + 1) with (Z.of_nat (S k)) by lia.
    rewrite (cons_middle i d1 r1), (cons_middle c d2 r2), (cons_middle current_start d3 r3).
    rewrite !app_assoc.
    cbn in H4, H5, H6.
    rewrite (IH _ _ _ _ _ _ (S k) (pred m))
      by (rewrite ?length_app; cbn; lia).
    destruct (decide (steps ≤ pred m)%nat); [rewrite decide_True by lia|by rewrite decide_False by lia].
    f_equal. cbn [replicate drop]. rewrite <- !app_assoc. cbn [app].
    by replace (S k + steps)%nat with (k + S steps)%nat by lia.
Qed.

Lemma length_of_cycle_S (cycle_len cycle_mult : Z) (i : nat) :
  length_of_cycle cycle_len cycle_mult (S i)
  = length_of_cycle cycle_len cycle_mult i * cycle_mult.
Proof.
  unfold length_of_cycle. rewrite Nat2Z.inj_succ, Z.pow_succ_r by lia. ring.
Qed.

Lemma length_segments cl cm a n entry :
  length (segments cl cm a n entry) = total cl cm a n.
Proof.
  unfold segments, total. revert a. induction n as [|n IH]; intros a; [done|].
  cbn [seq flat_map map sum_list]. rewrite length_app, length_replicate, IH. done.
Qed.

Lemma sum_list_append (l1 l2 : list nat) :
  sum_list (l1 ++ l2) = (sum_list l1 + sum_list l2)%nat.
Proof. induction l1 as [|x l1 IH]; cbn; [done|]. rewrite IH. lia. Qed.

Lemma total_S cl cm a n :
  total cl cm a (S n) = (total cl cm a n + span_of_cycle cl cm (a + n))%nat.
Proof.
  unfold total. rewrite seq_S, map_app, sum_list_append. cbn. lia.
Qed.

Lemma segments_S cl cm a n entry :
  segments cl cm a (S n) entry
  = segments cl cm a n entry ++ replicate (span_of_cycle cl cm (a + n)) (entry (a + n)%nat).
Proof.
  unfold segments. rewrite seq_S, flat_map_app. cbn [flat_map]. by rewrite app_nil_r.
Qed.

Lemma start_of_cycle_total cl cm i : start_of_cycle cl cm i = Z.of_nat (total cl cm 0 i).
Proof. done. Qed.

Lemma fill_cycles_spec (cl cm : Z) (n : nat) :
  ∀ (a : nat) (d1 d2 d3 r1 r2 r3 : list Z) (m : nat),
    length d1 = total cl cm 0 a → length d2 = total cl cm 0 a →
    length d3 = total cl cm 0 a →
    length r1 = m → length r2 = m → length r3 = m →
    fill_cycles cm (seq a n)
      {| dict_arr := d1 ++ r1; length_arr := d2 ++ r2; start_arr := d3 ++ r3;
         c_len := length_of_cycle cl cm a; idx := start_of_cycle cl cm a |}
    = if decide (total cl cm a n ≤ m)%nat then
        Ok {| dict_arr := d1 ++ segments cl cm a n Z.of_nat ++ drop (total cl cm a n) r1;
              length_arr := d2 ++ segments cl cm a n (length_of_cycle cl cm)
                            ++ drop (total cl cm a n) r2;
              start_arr := d3 ++ segments cl cm a n (start_of_cycle cl cm)
                           ++ drop (total cl cm a n) r3;
              c_len := length_of_cycle cl cm (a + n);
              idx := start_of_cycle cl cm (a + n) |}
      else Raise IndexError.
Proof.
  induction n as [|n IH]; intros a d1 d2 d3 r1 r2 r3 m H1 H2 H3 H4 H5 H6.
  - cbn [seq fill_cycles]. unfold total, segments. cbn [seq map sum_list flat_map app].
    rewrite decide_True by lia. rewrite !drop_0, Nat.add_0_r. done.
  - cbn [seq fill_cycles]. unfold fill_next. cbn [idx c_len].
    rewrite start_of_cycle_total.
    rewrite (fill_cycle_spec _ _ _ _ d1 d2 d3 r1 r2 r3 _ m) by done.
    fold (span_of_cycle cl cm a).
    assert (total cl cm a (S n) = (span_of_cycle cl cm a + total cl cm (S a) n)%nat) as Htotal
      by done.
    assert (total cl cm 0 (S a) = (total cl cm 0 a + span_of_cycle cl cm a)%nat) as Hstart
      by (rewrite total_S; done).
    destruct (decide (span_of_cycle cl cm a ≤ m)%nat) as [Hfit|Hfit];
      [|by rewrite decide_False by lia].
    cbn [and_then dict_arr length_arr start_arr c_len idx].
    rewrite <- length_of_cycle_S, <- Hstart, <- start_of_cycle_total.
    rewrite !app_assoc.
    rewrite (IH (S a) _ _ _ _ _ _ (m - span_of_cycle cl cm a)%nat)
      by (rewrite ?length_app, ?length_replicate, ?length_drop; lia).
    destruct (decide (total cl cm (S a) n ≤ m - span_of_cycle cl cm a)%nat);
      [rewrite decide_True by lia|by rewrite decide_False by lia].
    f_equal. rewrite !drop_drop, <- !app_assoc, <- Htotal.
    replace (S a + n)%nat with (a + S n)%nat by lia.
    unfold segments at 4 5 6. cbn [seq flat_map]. fold (segments cl cm (S a) n Z.of_nat).
    fold (segments cl cm (S a) n (length_of_cycle cl cm)).
    fold (segments cl cm (S a) n (start_of_cycle cl cm)).
    rewrite <- !app_assoc. rewrite start_of_cycle_total. done.
Qed.


Lemma length_of_cycle_0 (cl cm : Z) : length_of_cycle cl cm 0 = cl.
Proof. unfold length_of_cycle. cbn. lia. Qed.

Lemma layout_segments cl cm n entry : layout cl cm n entry = segments cl cm 0 n entry.
Proof. done. Qed.

Lemma length_layout cl cm n entry : length (layout cl cm n entry) = total cl cm 0 n.
Proof. apply length_segments. Qed.

(** [_init_cycle_dict] for an integer number of epochs. *)
Lemma init_cycle_dict_spec (e cycles cl cm : Z) :
  _init_cycle_dict (Int e) cycles cl cm
  = if decide (e < 0) then Raise ValueError
    else if decide (start_of_cycle cl cm (Z.to_nat cycles) ≤ e) then
      let rest := replicate (Z.to_nat (e - start_of_cycle cl cm (Z.to_nat cycles))) 0 in
      Ok (layout cl cm (Z.to_nat cycles) Z.of_nat ++ rest,
          layout cl cm (Z.to_nat cycles) (length_of_cycle cl cm) ++ rest,
          layout cl cm (Z.to_nat cycles) (start_of_cycle cl cm) ++ rest)
    else Raise IndexError.
Proof.
  unfold _init_cycle_dict, zeros.
  destruct (decide (e < 0)) as [Hneg|Hpos]; [done|].
  cbn [and_then].
  pose proof (fill_cycles_spec cl cm (Z.to_nat cycles) 0 [] [] []
                (replicate (Z.to_nat e) 0) (replicate (Z.to_nat e) 0)
                (replicate (Z.to_nat e) 0) (Z.to_nat e)) as Hfill.
  rewrite length_of_cycle_0 in Hfill. cbn [app] in Hfill.
  change (start_of_cycle cl cm 0) with 0 in Hfill.
  rewrite Hfill by (rewrite ?length_replicate; done). clear Hfill.
  rewrite !(start_of_cycle_total cl cm (Z.to_nat cycles)).
  destruct (decide (total cl cm 0 (Z.to_nat cycles) ≤ Z.to_nat e)%nat);
    [rewrite decide_True by lia|by rewrite decide_False by lia].
  cbn [and_then dict_arr length_arr start_arr]. cbv zeta.
  rewrite !drop_replicate, !layout_segments.
  by replace (Z.to_nat (e - Z.of_nat (total cl cm 0 (Z.to_nat cycles))))
    with (Z.to_nat e - total cl cm 0 (Z.to_nat cycles))%nat by lia.
Qed.

Lemma init_cycle_dict_float (cycles cl cm : Z) :
  _init_cycle_dict Float cycles cl cm = Raise TypeError.
Proof. done. Qed.

(** The sum of the cycle lengths when the cycles grow. *)
Lemma geometric (cl cm : Z) (n : nat) :
  0 ≤ cl → 1 < cm →
  start_of_cycle cl cm n * (cm - 1) = cl * (cm ^ Z.of_nat n - 1).
Proof.
  intros Hcl Hcm. rewrite start_of_cycle_total.
  induction n as [|n IH]; [cbn; lia|].
  rewrite total_S, Nat2Z.inj_add, Z.mul_add_distr_r, IH. cbn [Nat.add].
  unfold span_of_cycle, length_of_cycle.
  rewrite Z2Nat.id by (apply Z.mul_nonneg_nonneg; [done|apply Z.pow_nonneg; lia]).
  rewrite Nat2Z.inj_succ, Z.pow_succ_r by lia. ring.
Qed.

Lemma number_of_epochs_growing (cl cm cycles : Z) :
  0 ≤ cl → 1 < cm → 0 ≤ cycles →
  number_of_epochs cl cm cycles = Int (start_of_cycle cl cm (Z.to_nat cycles)).
Proof.
  intros Hcl Hcm Hcycles. unfold number_of_epochs.
  rewrite decide_True by lia. rewrite decide_False by lia. f_equal.
  rewrite <- (Z2Nat.id cycles) at 1 by done.
  rewrite <- geometric by done. apply Z.div_mul. lia.
Qed.

Lemma total_constant (cl : Z) (n : nat) : total cl 1 0 n = (n * Z.to_nat cl)%nat.
Proof.
  induction n as [|n IH]; [done|].
  rewrite total_S, IH. unfold span_of_cycle, length_of_cycle.
  rewrite Z.pow_1_l by lia. rewrite Z.mul_1_r. lia.
Qed.

Lemma total_le cl cm (i n : nat) :
  (i < n)%nat → (total cl cm 0 i + span_of_cycle cl cm i ≤ total cl cm 0 n)%nat.
Proof.
  induction n as [|n IH]; [lia|]. intros Hi. rewrite total_S. cbn [Nat.add].
  destruct (decide (i = n)) as [->|Hne]; [lia|]. assert (i < n)%nat as H by lia.
  specialize (IH H). lia.
Qed.

Lemma layout_lookup cl cm (n : nat) (entry : nat → Z) (i j : nat) :
  (i < n)%nat → (j < span_of_cycle cl cm i)%nat →
  layout cl cm n entry !! (total cl cm 0 i + j)%nat = Some (entry i).
Proof.
  induction n as [|n IH]; [lia|]. intros Hi Hj.
  rewrite layout_segments, segments_S, <- layout_segments. cbn [Nat.add].
  destruct (decide (i = n)) as [->|Hne].
  - rewrite lookup_app_r by (rewrite length_layout; lia).
    rewrite length_layout. apply lookup_replicate_2. lia.
  - assert (i < n)%nat as Hlt by lia. pose proof (total_le cl cm i n Hlt).
    rewrite lookup_app_l by (rewrite length_layout; lia). by apply IH.
Qed.

Lemma np_getitem_inside (arr : list Z) (k : nat) (v : Z) :
  arr !! k = Some v → np_getitem arr (Z.of_nat k) = Ok v.
Proof.
  intros Hk. unfold np_getitem.
  rewrite position_inside by (by eapply lookup_lt_Some).
  cbn [and_then]. by rewrite Hk.
Qed.

Lemma np_getitem_outside (arr : list Z) (i : Z) :
  Z.of_nat (length arr) ≤ i ∨ i < - Z.of_nat (length arr) →
  np_getitem arr i = Raise IndexError.
Proof.
  intros Hi. unfold np_getitem, position.
  rewrite decide_False by lia. by rewrite decide_False by lia.
Qed.

Lemma fraction_bounds (N D : Z) :
  0 ≤ N < D → (0 ≤ Qc_of_Z N / Qc_of_Z D)%Qc ∧ (Qc_of_Z N / Qc_of_Z D < 1)%Qc.
Proof.
  intros [HN HD].
  assert (Qc_of_Z D ≠ Q2Qc 0) as Hnz.
  { rewrite <- Z2Qc_inj_0. intros H%Z2Qc_inj. lia. }
  assert (0 < Qc_of_Z D)%Qc as Hpos by (rewrite <- Z2Qc_inj_0; apply (proj1 (Z2Qc_inj_lt 0 D)); lia).
  split.
  - apply Qcnot_lt_le. intros Hlt.
    pose proof (Qcmult_lt_compat_r _ _ _ Hpos Hlt) as Hm.
    rewrite Qcmult_0_l in Hm. rewrite test_field in Hm by done.
    rewrite <- Z2Qc_inj_0, <- Z2Qc_inj_lt in Hm. lia.
  - apply Qcnot_le_lt. intros Hle.
    pose proof (Qcmult_le_compat_r _ _ _ Hle (Qclt_le_weak _ _ Hpos)) as Hm.
    rewrite Qcmult_1_l, test_field in Hm by done.
    rewrite <- Z2Qc_inj_le in Hm. lia.
Qed.

Lemma int64_fits (z : Z) : fits_int64 z → int64 z = z.
Proof.
  unfold fits_int64, int64. intros Hz. rewrite Z.mod_small by lia. lia.
Qed.

Lemma fraction_negative (N D : Z) :
  N < 0 < D → (Qc_of_Z N / Qc_of_Z D < Q2Qc 0)%Qc.
Proof.
  intros [HN HD].
  assert (Qc_of_Z D ≠ Q2Qc 0) as Hnz.
  { rewrite <- Z2Qc_inj_0. intros H%Z2Qc_inj. lia. }
  assert (0 < Qc_of_Z D)%Qc as Hpos
    by (rewrite <- Z2Qc_inj_0; apply (proj1 (Z2Qc_inj_lt 0 D)); lia).
  apply Qcnot_le_lt. intros Hle.
  pose proof (Qcmult_le_compat_r _ _ _ Hle (Qclt_le_weak _ _ Hpos)) as Hm.
  rewrite Qcmult_0_l, test_field in Hm by done.
  rewrite <- Z2Qc_inj_0, <- Z2Qc_inj_le in Hm. lia.
Qed.

End CycleFacts.


Section CycleCallbackFacts.
Import Py Cycle CycleFacts.
Local Open Scope Z_scope.

Context {Number : Type}.
Implicit Types (groups : list (ParamGroup Number)) (lr max_lr min_lr init_lr : Value Number).
Implicit Types (how : string) (self : CycleCallback Number).

(** The outcome of [__init__] in closed form. *)
Lemma init_spec groups max_lr min_lr cycles cl cm init_iter init_lr how :
  init groups max_lr min_lr cycles cl cm init_iter init_lr how
  = match number_of_epochs cl cm cycles with
    | Float => Raise TypeError
    | Int e =>
        if decide (e < 0) then Raise ValueError
        else if decide (start_of_cycle cl cm (Z.to_nat cycles) ≤ e) then
          Ok (scheduled groups max_lr min_lr cycles cl cm init_iter init_lr how e)
        else Raise IndexError
    end.
Proof.
  unfold init. destruct (number_of_epochs cl cm cycles) as [e|] eqn:He; [|done].
  rewrite init_cycle_dict_spec.
  destruct (decide (e < 0)); [done|].
  by destruct (decide (start_of_cycle cl cm (Z.to_nat cycles) ≤ e)).
Qed.

Lemma init_Ok groups max_lr min_lr cycles cl cm init_iter init_lr how self :
  init groups max_lr min_lr cycles cl cm init_iter init_lr how = Ok self →
  ∃ e, number_of_epochs cl cm cycles = Int e ∧ 0 ≤ e ∧
       start_of_cycle cl cm (Z.to_nat cycles) ≤ e ∧
       self = scheduled groups max_lr min_lr cycles cl cm init_iter init_lr how e.
Proof.
  rewrite init_spec. destruct (number_of_epochs cl cm cycles) as [e|]; [|done].
  destruct (decide (e < 0)); [done|].
  destruct (decide (start_of_cycle cl cm (Z.to_nat cycles) ≤ e)); [|done].
  intros [= <-]. exists e. split_and!; [done|lia|done|done].
Qed.

Lemma init_growing groups max_lr min_lr cycles cl cm init_iter init_lr how :
  0 ≤ cl → 1 < cm → 0 ≤ cycles →
  init groups max_lr min_lr cycles cl cm init_iter init_lr how
  = Ok (scheduled groups max_lr min_lr cycles cl cm init_iter init_lr how
          (start_of_cycle cl cm (Z.to_nat cycles))).
Proof.
  intros Hcl Hcm Hcycles. rewrite init_spec, number_of_epochs_growing by done.
  rewrite decide_False by (unfold start_of_cycle; lia). by rewrite decide_True by lia.
Qed.

(** With [cycle_mult > 1], a cycle length and a number of cycles that are
    not negative, [__init__] returns: [epochs] is the sum of the cycle
    lengths [cycle_len * cycle_mult ^ i], and the three arrays hold, for
    every epoch, the index, the length and the first epoch of its cycle,
    with nothing left over. *)
Theorem init_growing_cycles groups max_lr min_lr cycles cl cm init_iter init_lr how :
  0 ≤ cl → 1 < cm → 0 ≤ cycles →
  ∃ self,
    init groups max_lr min_lr cycles cl cm init_iter init_lr how = Ok self ∧
    epochs self = Int (start_of_cycle cl cm (Z.to_nat cycles)) ∧
    cycle_dict self = layout cl cm (Z.to_nat cycles) Z.of_nat ∧
    cycle_lengths self = layout cl cm (Z.to_nat cycles) (length_of_cycle cl cm) ∧
    cycle_starts self = layout cl cm (Z.to_nat cycles) (start_of_cycle cl cm) ∧
    Z.of_nat (length (cycle_dict self)) = start_of_cycle cl cm (Z.to_nat cycles) ∧
    optimizer self = groups.
Proof.
  intros Hcl Hcm Hcycles. eexists. split; [by apply init_growing|].
  unfold scheduled. cbn. rewrite Z.sub_diag. cbn. rewrite !app_nil_r.
  split_and!; try done. by rewrite length_layout.
Qed.

Lemma init_constant groups max_lr min_lr cycles cl init_iter init_lr how :
  0 ≤ cycles →
  init groups max_lr min_lr cycles cl 1 init_iter init_lr how
  = if decide (2 ≤ cl ∧ 1 ≤ cycles) then Raise IndexError
    else Ok (scheduled groups max_lr min_lr cycles cl 1 init_iter init_lr how cycles).
Proof.
  intros Hcycles. rewrite init_spec. unfold number_of_epochs.
  rewrite decide_False by lia. rewrite Z.mul_1_l. rewrite decide_False by lia.
  rewrite start_of_cycle_total, total_constant.
  destruct (decide (2 ≤ cl ∧ 1 ≤ cycles)) as [[Hcl Hc]|Hsmall].
  - by rewrite decide_False by nia.
  - by rewrite decide_True by nia.
Qed.


Lemma layout_getitem cl cm (n : nat) (entry : nat → Z) (rest : list Z) (i : nat) (j : Z) :
  (i < n)%nat → 0 ≤ j < length_of_cycle cl cm i →
  np_getitem (layout cl cm n entry ++ rest) (start_of_cycle cl cm i + j) = Ok (entry i).
Proof.
  intros Hi Hj. unfold start_of_cycle.
  replace (Z.of_nat (total cl cm 0 i) + j) with (Z.of_nat (total cl cm 0 i + Z.to_nat j))
    by lia.
  apply np_getitem_inside, lookup_app_l_Some, layout_lookup; [done|].
  unfold span_of_cycle. lia.
Qed.

Lemma scheduled_lengths groups max_lr min_lr cycles cl cm init_iter init_lr how e :
  start_of_cycle cl cm (Z.to_nat cycles) ≤ e →
  let self := scheduled groups max_lr min_lr cycles cl cm init_iter init_lr how e in
  Z.of_nat (length (cycle_dict self)) = e ∧
  Z.of_nat (length (cycle_lengths self)) = e ∧
  Z.of_nat (length (cycle_starts self)) = e.
Proof.
  intros Hfit. cbn. rewrite !length_app, !length_replicate, !length_layout.
  unfold start_of_cycle in *. lia.
Qed.


(** Whenever [__init__] returns, the three arrays have [epochs] entries,
    the cycles fit into them, and for every epoch [j] of cycle [i] they give
    the index [i], the length and the first epoch of that cycle. *)
Theorem init_arrays groups max_lr min_lr cycles cl cm init_iter init_lr how self :
  init groups max_lr min_lr cycles cl cm init_iter init_lr how = Ok self →
  ∃ e, epochs self = Int e ∧
       number_of_epochs cl cm cycles = Int e ∧
       start_of_cycle cl cm (Z.to_nat cycles) ≤ e ∧
       Z.of_nat (length (cycle_dict self)) = e ∧
       Z.of_nat (length (cycle_lengths self)) = e ∧
       Z.of_nat (length (cycle_starts self)) = e ∧
       ∀ (i : nat) (j : Z),
         (i < Z.to_nat cycles)%nat → 0 ≤ j < length_of_cycle cl cm i →
         np_getitem (cycle_dict self) (start_of_cycle cl cm i + j) = Ok (Z.of_nat i) ∧
         np_getitem (cycle_lengths self) (start_of_cycle cl cm i + j)
         = Ok (length_of_cycle cl cm i) ∧
         np_getitem (cycle_starts self) (start_of_cycle cl cm i + j)
         = Ok (start_of_cycle cl cm i).
Proof.
  intros (e & He & Hpos & Hfit & ->)%init_Ok. exists e.
  destruct (scheduled_lengths groups max_lr min_lr cycles cl cm init_iter init_lr how e Hfit)
    as (H1 & H2 & H3).
  split_and!; try done.
  intros i j Hi Hj. unfold scheduled. cbn [cycle_dict cycle_lengths cycle_starts].
  by rewrite !layout_getitem.
Qed.

Lemma with_lr_lookup lr groups (k : nat) :
  with_lr lr groups !! k
  = (λ group, match lr with
              | Num _ => <["lr" := lr]> group
              | List lrs =>
                  match lrs !! k with
                  | Some group_lr => <["lr" := group_lr]> group
                  | None => group
                  end
              end) <$> groups !! k.
Proof.
  destruct lr as [x|lrs]; [apply list_lookup_fmap|].
  unfold with_lr. revert groups k.
  induction lrs as [|group_lr lrs IH]; intros groups k.
  - cbn. rewrite drop_0, lookup_nil. by destruct (groups !! k).
  - destruct groups as [|group groups]; [done|].
    destruct k as [|k]; [done|]. cbn. apply IH.
Qed.

Lemma with_lr_length lr groups : length (with_lr lr groups) = length groups.
Proof.
  destruct lr as [x|lrs]; [apply length_map|].
  unfold with_lr. revert groups.
  induction lrs as [|group_lr lrs IH]; intros groups; [done|].
  destruct groups as [|group groups]; [done|]. cbn. by rewrite IH.
Qed.

Section WithInterpolation.

Variable interpolate_single : Value Number → Value Number → Quotient → string → result (Value Number).

Lemma on_batch_begin_at groups max_lr min_lr cycles cl cm init_iter init_lr how self
    (i : nat) (j bpe b : Z) :
  init groups max_lr min_lr cycles cl cm init_iter init_lr how = Ok self →
  (i < Z.to_nat cycles)%nat → 0 ≤ j < length_of_cycle cl cm i →
  fits_int64 (start_of_cycle cl cm i + j + 1) → fits_int64 bpe → fits_int64 b →
  let numerator := int64 (int64 (int64 (int64 (j + 1) - 1) * bpe) + b) in
  on_batch_begin interpolate_single self
    {| local_epoch_number := start_of_cycle cl cm i + j + 1;
       batches_per_epoch := bpe; batch_number := b |}
  = try lr <- (if decide (start_of_cycle cl cm i = 0 ∧ numerator < init_iter)
               then Ok init_lr
               else interpolated interpolate_single self
                      (true_divide numerator (int64 (length_of_cycle cl cm i * bpe))));
    Ok (set_lr self lr).
Proof.
  intros (e & He & Hpos & Hfit & Hself)%init_Ok Hi Hj Hfe Hfbpe Hfb numerator.
  assert (Cycle.init_iter self = init_iter ∧ Cycle.init_lr self = init_lr) as [Hiter Hlr]
    by (by subst self).
  assert (np_getitem (cycle_lengths self) (start_of_cycle cl cm i + j)
          = Ok (length_of_cycle cl cm i)) as Hlength
    by (subst self; by apply layout_getitem).
  assert (np_getitem (cycle_starts self) (start_of_cycle cl cm i + j)
          = Ok (start_of_cycle cl cm i)) as Hstart
    by (subst self; by apply layout_getitem).
  clear Hself. unfold on_batch_begin, as_int64.
  cbn [local_epoch_number batches_per_epoch batch_number].
  replace (start_of_cycle cl cm i + j + 1 - 1) with (start_of_cycle cl cm i + j) by lia.
  rewrite Hlength, Hstart. cbn [and_then].
  destruct (decide (fits_int64 (start_of_cycle cl cm i + j + 1))); [|done].
  destruct (decide (fits_int64 bpe)); [|done].
  destruct (decide (fits_int64 b)); [|done].
  cbn [and_then]. rewrite Hiter, Hlr.
  by replace (start_of_cycle cl cm i + j + 1 - start_of_cycle cl cm i) with (j + 1) by lia.
Qed.

Lemma numerator_in_range (j bpe b : Z) :
  fits_int64 (j + 1) → fits_int64 j → fits_int64 (j * bpe) → fits_int64 (j * bpe + b) →
  int64 (int64 (int64 (int64 (j + 1) - 1) * bpe) + b) = j * bpe + b.
Proof.
  intros H1 H2 H3 H4. rewrite (int64_fits (j + 1)) by done.
  replace (j + 1 - 1) with j by lia.
  rewrite (int64_fits j) by done. rewrite (int64_fits (j * bpe)) by done.
  by apply int64_fits.
Qed.

(** In epoch [j] of cycle [i] (epochs are numbered from one) and batch [b]
    of [bpe], with the epoch number and the batches of the whole cycle
    within the range of [int64], the interpolation coefficient of
    [on_batch_begin] is the fraction [(j * bpe + b) / (length of the cycle
    * bpe)] of the cycle that has passed: it lies in [0, 1), and the
    learning rate is the interpolation at it unless the warm-up applies. *)
Theorem on_batch_begin_in_cycle groups max_lr min_lr cycles cl cm init_iter init_lr how self
    (i : nat) (j bpe b : Z) :
  init groups max_lr min_lr cycles cl cm init_iter init_lr how = Ok self →
  (i < Z.to_nat cycles)%nat → 0 ≤ j < length_of_cycle cl cm i →
  0 ≤ b < bpe →
  start_of_cycle cl cm i + j + 1 < 2 ^ 63 →
  length_of_cycle cl cm i * bpe < 2 ^ 63 →
  let coefficient :=
    (Qc_of_Z (j * bpe + b) / Qc_of_Z (length_of_cycle cl cm i * bpe))%Qc in
  (0 ≤ coefficient)%Qc ∧ (coefficient < 1)%Qc ∧
  on_batch_begin interpolate_single self
    {| local_epoch_number := start_of_cycle cl cm i + j + 1;
       batches_per_epoch := bpe; batch_number := b |}
  = try lr <- (if decide (start_of_cycle cl cm i = 0 ∧ j * bpe + b < init_iter)
               then Ok init_lr
               else interpolated interpolate_single self (Finite coefficient));
    Ok (set_lr self lr).
Proof.
  intros Hinit Hi Hj Hb Hepoch Hcycle coefficient.
  assert (0 ≤ j * bpe + b < length_of_cycle cl cm i * bpe) as Hfraction by nia.
  destruct (fraction_bounds _ _ Hfraction) as [Hlow Hhigh].
  split_and!; [done|done|].
  assert (0 ≤ start_of_cycle cl cm i) as Hstart by (unfold start_of_cycle; lia).
  assert (bpe ≤ length_of_cycle cl cm i * bpe) as Hbpe by nia.
  assert (0 ≤ j * bpe) as Hjb by nia.
  rewrite (on_batch_begin_at _ _ _ _ _ _ _ _ _ _ _ _ _ _ Hinit Hi Hj)
    by (unfold fits_int64; lia).
  cbv zeta.
  rewrite numerator_in_range by (unfold fits_int64; lia).
  rewrite (int64_fits (length_of_cycle cl cm i * bpe)) by (unfold fits_int64; lia).
  unfold true_divide.
  destruct (decide (length_of_cycle cl cm i * bpe = 0)); [lia|done].
Qed.

(** While fewer than [init_iter] batches of the first cycle have passed,
    [on_batch_begin] sets [init_lr], whatever the interpolation is and even
    with no batches per epoch; the numbers of batches are not negative and
    within the range of [int64]. *)
Theorem on_batch_begin_warm_up groups max_lr min_lr cycles cl cm init_iter init_lr how self
    (j bpe b : Z) :
  init groups max_lr min_lr cycles cl cm init_iter init_lr how = Ok self →
  0 < cycles → 0 ≤ j < cl → 0 ≤ bpe → 0 ≤ b →
  j * bpe + b < init_iter →
  j + 1 < 2 ^ 63 → bpe < 2 ^ 63 → j * bpe + b < 2 ^ 63 →
  on_batch_begin interpolate_single self
    {| local_epoch_number := j + 1; batches_per_epoch := bpe; batch_number := b |}
  = Ok (set_lr self init_lr).
Proof.
  intros Hinit Hcycles Hj Hbpe Hb Hwarm Hfj Hfbpe Hfnum.
  assert (0 < Z.to_nat cycles)%nat as Hi by lia.
  assert (0 ≤ j < length_of_cycle cl cm 0) as Hj' by (by rewrite length_of_cycle_0).
  assert (0 ≤ j * bpe) as Hjb by nia.
  pose proof (on_batch_begin_at _ _ _ _ _ _ _ _ _ _ _ _ bpe b Hinit Hi Hj') as Hat.
  change (start_of_cycle cl cm 0) with 0 in Hat. rewrite Z.add_0_l in Hat.
  rewrite Hat by (unfold fits_int64; lia). cbv zeta.
  rewrite numerator_in_range by (unfold fits_int64; lia).
  by rewrite decide_True by done.
Qed.

(** For a schedule whose cycles fill the arrays ([cycle_mult > 1], or
    [cycle_mult = 1] with [cycle_len = 1]) and that has at least one cycle
    of at least one epoch, an epoch number of zero does not raise
    [IndexError]: the index [-1] wraps around to the last epoch, so that
    the last cycle's length and start are used. For [0 <= b < bpe], within
    the range of [int64], the interpolation coefficient is then negative,
    and the learning rate is the interpolation at it unless the warm-up
    applies. *)
Theorem on_batch_begin_epoch_zero groups max_lr min_lr cycles cl cm init_iter init_lr how self
    (bpe b : Z) :
  init groups max_lr min_lr cycles cl cm init_iter init_lr how = Ok self →
  1 ≤ cl → 1 < cm ∨ (cm = 1 ∧ cl = 1) → 1 ≤ cycles →
  0 ≤ b < bpe →
  let last := (Z.to_nat cycles - 1)%nat in
  (start_of_cycle cl cm last + 1) * bpe < 2 ^ 63 →
  length_of_cycle cl cm last * bpe < 2 ^ 63 →
  let numerator := (- start_of_cycle cl cm last - 1) * bpe + b in
  let coefficient :=
    (Qc_of_Z numerator / Qc_of_Z (length_of_cycle cl cm last * bpe))%Qc in
  (coefficient < Q2Qc 0)%Qc ∧
  on_batch_begin interpolate_single self
    {| local_epoch_number := 0; batches_per_epoch := bpe; batch_number := b |}
  = (try lr <- (if decide (start_of_cycle cl cm last = 0 ∧ numerator < init_iter)
                then Ok init_lr
                else interpolated interpolate_single self (Finite coefficient));
     Ok (set_lr self lr)).
Proof.
  intros Hinit Hcl Hcm Hcycles Hb last Hrange1 Hrange2 numerator coefficient.
  assert (1 ≤ length_of_cycle cl cm last) as Hspan.
  { unfold length_of_cycle.
    assert (0 < cm ^ Z.of_nat last) by (apply Z.pow_pos_nonneg; lia). nia. }
  assert (0 ≤ start_of_cycle cl cm last) as Hstart0 by (unfold start_of_cycle; lia).
  assert (numerator < 0 < length_of_cycle cl cm last * bpe) as Hsign
    by (unfold numerator; nia).
  split; [by apply fraction_negative|].
  assert (start_of_cycle cl cm (Z.to_nat cycles)
          = start_of_cycle cl cm last + length_of_cycle cl cm last) as Hend.
  { unfold start_of_cycle. replace (Z.to_nat cycles) with (S last) by lia.
    rewrite total_S. unfold span_of_cycle. cbn [Nat.add]. lia. }
  assert (init groups max_lr min_lr cycles cl cm init_iter init_lr how
          = Ok (scheduled groups max_lr min_lr cycles cl cm init_iter init_lr how
                  (start_of_cycle cl cm (Z.to_nat cycles)))) as Hexact.
  { destruct Hcm as [Hcm|[-> ->]]; [apply init_growing; lia|].
    rewrite init_constant by lia. rewrite decide_False by lia.
    do 2 f_equal. rewrite start_of_cycle_total, total_constant. lia. }
  rewrite Hexact in Hinit. injection Hinit as Hself.
  assert (∀ entry,
            np_getitem (layout cl cm (Z.to_nat cycles) entry ++ []) (0 - 1)
            = Ok (entry last)) as Hget.
  { intros entry. unfold np_getitem, position.
    rewrite length_app, length_layout. cbn [length]. rewrite Nat.add_0_r.
    unfold start_of_cycle in Hend.
    rewrite decide_False by lia. rewrite decide_True by lia.
    cbn [and_then].
    replace (Z.to_nat (Z.of_nat (total cl cm 0 (Z.to_nat cycles)) + (0 - 1)))
      with (total cl cm 0 last + Z.to_nat (length_of_cycle cl cm last - 1))%nat
      by lia.
    rewrite (lookup_app_l_Some _ _ _ (entry last)); [done|].
    apply layout_lookup; [lia|]. unfold span_of_cycle. lia. }
  assert (Cycle.init_iter self = init_iter ∧ Cycle.init_lr self = init_lr) as [Hiter Hlr]
    by (by subst self).
  assert (cycle_lengths self
          = layout cl cm (Z.to_nat cycles) (length_of_cycle cl cm) ++ []) as Hlengths
    by (subst self; unfold scheduled; cbn; by rewrite Z.sub_diag).
  assert (cycle_starts self
          = layout cl cm (Z.to_nat cycles) (start_of_cycle cl cm) ++ []) as Hstarts
    by (subst self; unfold scheduled; cbn; by rewrite Z.sub_diag).
  clear Hself. unfold on_batch_begin, as_int64.
  cbn [local_epoch_number batches_per_epoch batch_number].
  rewrite Hlengths, Hstarts, !Hget. cbn [and_then].
  assert (bpe ≤ length_of_cycle cl cm last * bpe) as Hbpe by nia.
  rewrite (decide_True (P := fits_int64 0)) by (unfold fits_int64; lia).
  rewrite (decide_True (P := fits_int64 bpe)) by (unfold fits_int64; lia).
  rewrite (decide_True (P := fits_int64 b)) by (unfold fits_int64; lia).
  cbn [and_then]. rewrite Hiter, Hlr.
  assert (int64 (int64 (int64 (int64 (0 - start_of_cycle cl cm last) - 1) * bpe) + b)
          = numerator) as ->.
  { assert (0 ≤ start_of_cycle cl cm last * bpe) by nia.
    rewrite (int64_fits (0 - start_of_cycle cl cm last)) by (unfold fits_int64; nia).
    rewrite (int64_fits (0 - start_of_cycle cl cm last - 1)) by (unfold fits_int64; nia).
    rewrite (int64_fits ((0 - start_of_cycle cl cm last - 1) * bpe))
      by (unfold fits_int64; nia).
    rewrite int64_fits by (unfold fits_int64, numerator in *; nia).
    unfold numerator. lia. }
  rewrite (int64_fits (length_of_cycle cl cm last * bpe)) by (unfold fits_int64; lia).
  unfold true_divide.
  destruct (decide (length_of_cycle cl cm last * bpe = 0)); [lia|done].
Qed.

(** A batch of an epoch after the last one of the schedule, or at or
    before minus the number of epochs, raises [IndexError]. *)
Theorem on_batch_begin_beyond_schedule groups max_lr min_lr cycles cl cm init_iter init_lr
    how self (e : Z) (batch_info : BatchInfo) :
  init groups max_lr min_lr cycles cl cm init_iter init_lr how = Ok self →
  epochs self = Int e →
  e < local_epoch_number batch_info ∨ local_epoch_number batch_info ≤ - e →
  on_batch_begin interpolate_single self batch_info = Raise IndexError.
Proof.
  intros (e' & He & Hpos & Hfit & Hself)%init_Ok Hepochs Hout.
  assert (e' = e) as -> by (subst self; cbn in Hepochs; congruence).
  destruct (scheduled_lengths groups max_lr min_lr cycles cl cm init_iter init_lr how e Hfit)
    as (_ & Hlength & _).
  rewrite <- Hself in Hlength. unfold on_batch_begin.
  rewrite np_getitem_outside; [done|]. lia.
Qed.

(** A returning [on_batch_begin] changes nothing of the callback but the
    parameter groups of the optimizer: their number stays, and in every
    group only the entry ['lr'] can differ. *)
Theorem on_batch_begin_frame self self' (batch_info : BatchInfo) :
  on_batch_begin interpolate_single self batch_info = Ok self' →
  max_lr self' = max_lr self ∧ min_lr self' = min_lr self ∧
  cycles self' = cycles self ∧ cycle_len self' = cycle_len self ∧
  cycle_mult self' = cycle_mult self ∧ Cycle.init_iter self' = Cycle.init_iter self ∧
  Cycle.init_lr self' = Cycle.init_lr self ∧ epochs self' = epochs self ∧
  interpolate self' = interpolate self ∧ cycle_dict self' = cycle_dict self ∧
  cycle_lengths self' = cycle_lengths self ∧ cycle_starts self' = cycle_starts self ∧
  length (optimizer self') = length (optimizer self) ∧
  ∀ (k : nat) (group' : ParamGroup Number),
    optimizer self' !! k = Some group' →
    ∃ group, optimizer self !! k = Some group ∧
             ∀ key, key ≠ "lr"%string → group' !! key = group !! key.
Proof.
  unfold on_batch_begin. intros Hrun.
  destruct (np_getitem (cycle_lengths self) _) as [cycle_length|]; [|done].
  destruct (np_getitem (cycle_starts self) _) as [cycle_start|]; [|done].
  cbn [and_then] in Hrun.
  destruct (as_int64 (local_epoch_number batch_info)); [|done].
  destruct (as_int64 (batches_per_epoch batch_info)); [|done].
  destruct (as_int64 (batch_number batch_info)); [|done].
  cbn [and_then] in Hrun.
  match type of Hrun with (try lr <- ?m; _) = _ => destruct m as [lr|] end; [|done].
  cbn [and_then] in Hrun. injection Hrun as <-.
  unfold set_lr. cbn [max_lr min_lr cycles cycle_len cycle_mult Cycle.init_iter
    Cycle.init_lr epochs interpolate cycle_dict cycle_lengths cycle_starts optimizer].
  split_and!; try done.
  - apply with_lr_length.
  - intros k group'. rewrite with_lr_lookup.
    destruct (optimizer self !! k) as [group|]; [|done].
    cbn. intros [= <-]. exists group. split; [done|]. intros key Hkey.
    destruct lr as [x|lrs]; [by rewrite lookup_insert_ne by congruence|].
    destruct (lrs !! k); [by rewrite lookup_insert_ne by congruence|done].
Qed.

End WithInterpolation.

(** [set_lr] keeps the number of parameter groups. A number goes to every
    group; a list is zipped with the groups: group [k] gets the [k]-th
    rate, surplus rates are dropped, and groups without a rate of their own
    keep the dictionary they had. *)
Theorem set_lr_groups self lr :
  length (optimizer (set_lr self lr)) = length (optimizer self) ∧
  ∀ (k : nat) (group : ParamGroup Number),
    optimizer self !! k = Some group →
    optimizer (set_lr self lr) !! k
    = Some match lr with
           | Num _ => <["lr" := lr]> group
           | List lrs =>
               match lrs !! k with
               | Some group_lr => <["lr" := group_lr]> group
               | None => group
               end
           end.
Proof.
  split; [apply with_lr_length|].
  intros k group Hk. unfold set_lr. cbn [optimizer].
  rewrite with_lr_lookup, Hk. done.
Qed.

Section Phase.

Context {Model Source : Type}.
Implicit Types (factory : Model → list (ParamGroup Number)).


(** When [set_up_phase] returns, it returns the optimizer that the factory
    built for the model, keeps it and the source in the phase, and installs
    the callback that [CycleCallback] builds from the phase's settings over
    that optimizer; the callback's number of epochs is the phase's. *)
Theorem set_up_phase_installs_callback factory max_lr min_lr cycles cl cm how init_lr
    init_iter (freeze : bool) (model : Model) (source : Source) phase' groups :
  set_up_phase
    (phase_init factory max_lr min_lr cycles cl cm how init_lr init_iter freeze)
    model source = Ok (phase', groups) →
  groups = factory model ∧
  _optimizer_instance phase' = Some groups ∧
  _source phase' = Some source ∧
  ∃ callback e,
    special_callback phase' = Some callback ∧
    init groups max_lr min_lr cycles cl cm init_iter init_lr how = Ok callback ∧
    phase_number_of_epochs phase' = Int e ∧ epochs callback = Int e ∧
    start_of_cycle cl cm (Z.to_nat cycles) ≤ e.
Proof.
  unfold set_up_phase, phase_init. cbn [phase_max_lr phase_min_lr
    phase_cycles phase_cycle_len phase_cycle_mult phase_init_iter phase_init_lr
    phase_interpolate optimizer_factory phase_epochs Cycle.freeze].
  destruct (init (factory model) max_lr min_lr cycles cl cm init_iter init_lr how)
    as [callback|] eqn:Hinit; [|done].
  cbn [and_then]. intros [= <- <-]. cbn.
  split_and!; try done.
  apply init_Ok in Hinit as Hshape. destruct Hshape as (e & He & Hpos & Hfit & Hcallback).
  exists callback, e. split_and!; try done. by subst callback.
Qed.

End Phase.

End CycleCallbackFacts.

(** * Properties of the classic storage *)

Module ClassicFacts.
Import Py Classic.

Local Open Scope Z_scope.

Ltac append_step :=
  repeat match goal with
    | |- context [(String ?a ?p +:+ ?s)%string] =>
        change (String a p +:+ s)%string with (String a (p +:+ s))
    | |- context [(EmptyString +:+ ?s)%string] =>
        change (EmptyString +:+ s)%string with s
    end.

Lemma after_prefix_app (p s : string) : after_prefix p (p +:+ s) = Some s.
Proof.
  induction p as [|a p IH]; [done|].
  change (String a p +:+ s)%string with (String a (p +:+ s)). cbn [after_prefix].
  by rewrite decide_True by done.
Qed.

Lemma digits_only_app (s t : string) :
  digits_only (s +:+ t) = digits_only s && digits_only t.
Proof.
  induction s as [|c s IH]; [done|]. append_step. cbn [digits_only].
  rewrite IH. by rewrite andb_assoc.
Qed.

Lemma digits_only_zeros (n : nat) : digits_only (zeros n) = true.
Proof. induction n as [|n IH]; [done|]. cbn. by rewrite IH. Qed.

Lemma digits_only_uint (d : uint) : digits_only (NilEmpty.string_of_uint d) = true.
Proof. induction d; cbn; try done. Qed.

Lemma digits_only_digits (n : N) : digits_only (digits n) = true.
Proof. apply digits_only_uint. Qed.

Lemma digits_only_zero_pad (w : nat) (s : string) :
  digits_only s = true → digits_only (zero_pad w s) = true.
Proof.
  intros Hs. unfold zero_pad. by rewrite digits_only_app, digits_only_zeros, Hs.
Qed.

Lemma span_digits_app (s t : string) :
  digits_only s = true → (span_digits t).1 = EmptyString → (span_digits t).2 = t →
  span_digits (s +:+ t) = (s, t).
Proof.
  intros Hs Ht1 Ht2. induction s as [|c s IH].
  - append_step. destruct (span_digits t) as [found rest]. cbn in *. by subst.
  - cbn in Hs. apply andb_true_iff in Hs as [Hc Hs]. append_step.
    cbn [span_digits]. rewrite Hc. by rewrite (IH Hs).
Qed.

Lemma uint_nonempty (p : positive) : NilEmpty.string_of_uint (Pos.to_uint p) ≠ EmptyString.
Proof.
  intros Hempty.
  pose proof (DecimalPos.Unsigned.of_to p) as Hback.
  pose proof (NilEmpty.usu (Pos.to_uint p)) as Hparse.
  rewrite Hempty in Hparse. cbn in Hparse. injection Hparse as Hnil.
  rewrite <- Hnil in Hback. done.
Qed.

Lemma digits_nonempty (n : N) : digits n ≠ EmptyString.
Proof.
  destruct n as [|p]; [done|]. apply uint_nonempty.
Qed.

Lemma zero_pad_nonempty (w : nat) (s : string) :
  s ≠ EmptyString → zero_pad w s ≠ EmptyString.
Proof.
  intros Hs. unfold zero_pad. destruct (zeros _); [done|done].
Qed.

Lemma int_zeros (n : nat) (s : string) : int (zeros n +:+ s) = int s.
Proof.
  induction n as [|n IH]; [done|].
  unfold int in *. cbn [zeros]. append_step. cbn [NilEmpty.uint_of_string].
  destruct (NilEmpty.uint_of_string (zeros n +:+ s)) as [d|],
    (NilEmpty.uint_of_string s) as [d'|]; cbn in *; try done; lia.
Qed.

Lemma int_digits (n : N) : int (digits n) = Z.of_N n.
Proof.
  unfold int, digits. rewrite NilEmpty.usu. f_equal. apply DecimalN.Unsigned.of_to.
Qed.

Lemma int_format_08 (n : Z) : 0 ≤ n → int (format_08 n) = n.
Proof.
  intros Hn. unfold format_08. rewrite decide_False by lia.
  unfold zero_pad. rewrite int_zeros, int_digits. lia.
Qed.

Lemma format_08_digits (n : Z) :
  0 ≤ n → digits_only (format_08 n) = true ∧ format_08 n ≠ EmptyString.
Proof.
  intros Hn. unfold format_08. rewrite decide_False by lia. split.
  - apply digits_only_zero_pad, digits_only_digits.
  - apply zero_pad_nonempty, digits_nonempty.
Qed.

Lemma re_match_checkpoint (n : Z) :
  0 ≤ n → re_match (checkpoint_filename n) = Some (format_08 n).
Proof.
  intros Hn. destruct (format_08_digits n Hn) as [Hdigits Hnonempty].
  unfold re_match, checkpoint_filename. rewrite after_prefix_app.
  rewrite span_digits_app by done. cbn [fst snd].
  rewrite decide_False by done. done.
Qed.

Lemma re_match_negative (n : Z) : n < 0 → re_match (checkpoint_filename n) = None.
Proof.
  intros Hn. unfold re_match, checkpoint_filename. rewrite after_prefix_app.
  unfold format_08. destruct (decide (n < 0)); [|lia]. append_step.
  cbn [span_digits]. done.
Qed.

Lemma re_match_best (n : Z) : re_match (checkpoint_best_filename n) = None.
Proof.
  unfold re_match, checkpoint_best_filename.
  change ("checkpoint_best_" +:+ format_08 n +:+ ".data")%string
    with ("checkpoint_" +:+ String "b" ("est_" +:+ format_08 n +:+ ".data"))%string.
  rewrite after_prefix_app. done.
Qed.

Lemma re_match_hidden (n : Z) : re_match (checkpoint_hidden_filename n) = None.
Proof.
  unfold re_match, checkpoint_hidden_filename.
  change ("checkpoint_hidden_" +:+ format_08 n +:+ ".data")%string
    with ("checkpoint_" +:+ String "h" ("idden_" +:+ format_08 n +:+ ".data"))%string.
  rewrite after_prefix_app. done.
Qed.

Lemma recognised_checkpoint (n : Z) : 0 ≤ n → recognised (checkpoint_filename n) = Some n.
Proof.
  intros Hn. unfold recognised. rewrite re_match_checkpoint by done. cbn.
  by rewrite int_format_08.
Qed.


(** Distinct files for distinct purposes and epochs. *)
Lemma checkpoint_not_best (n m : Z) :
  0 ≤ n → checkpoint_filename n ≠ checkpoint_best_filename m.
Proof.
  intros Hn Heq. pose proof (re_match_checkpoint n Hn) as Hmatch.
  rewrite Heq, re_match_best in Hmatch. done.
Qed.

Lemma checkpoint_not_hidden (n m : Z) :
  0 ≤ n → checkpoint_filename n ≠ checkpoint_hidden_filename m.
Proof.
  intros Hn Heq. pose proof (re_match_checkpoint n Hn) as Hmatch.
  rewrite Heq, re_match_hidden in Hmatch. done.
Qed.

Lemma hidden_not_best (n m : Z) : checkpoint_hidden_filename n ≠ checkpoint_best_filename m.
Proof.
  intros Heq. apply (f_equal (after_prefix "checkpoint_")) in Heq.
  unfold checkpoint_hidden_filename, checkpoint_best_filename in Heq.
  change ("checkpoint_hidden_" +:+ format_08 n +:+ ".data")%string
    with ("checkpoint_" +:+ String "h" ("idden_" +:+ format_08 n +:+ ".data"))%string in Heq.
  change ("checkpoint_best_" +:+ format_08 m +:+ ".data")%string
    with ("checkpoint_" +:+ String "b" ("est_" +:+ format_08 m +:+ ".data"))%string in Heq.
  rewrite !after_prefix_app in Heq. done.
Qed.

Lemma checkpoint_filename_inj (n m : Z) :
  0 ≤ n → 0 ≤ m → checkpoint_filename n = checkpoint_filename m → n = m.
Proof.
  intros Hn Hm Heq. pose proof (recognised_checkpoint n Hn) as Hrec.
  rewrite Heq, recognised_checkpoint in Hrec by done. congruence.
Qed.

Lemma checkpoint_hidden_filename_inj (n m : Z) :
  0 ≤ n → 0 ≤ m → checkpoint_hidden_filename n = checkpoint_hidden_filename m → n = m.
Proof.
  intros Hn Hm Heq. apply (f_equal (after_prefix "checkpoint_hidden_")) in Heq.
  unfold checkpoint_hidden_filename in Heq. rewrite !after_prefix_app in Heq.
  injection Heq as Heq. apply (f_equal span_digits) in Heq.
  destruct (format_08_digits n Hn) as [Hdn _], (format_08_digits m Hm) as [Hdm _].
  rewrite !span_digits_app in Heq by done. injection Heq as Heq.
  apply (f_equal int) in Heq. by rewrite !int_format_08 in Heq.
Qed.

Lemma step_max (epoch_number : Z) (x : string) :
  step epoch_number x = match recognised x with
                        | Some idx => Z.max epoch_number idx
                        | None => epoch_number
                        end.
Proof.
  unfold step, recognised. destruct (re_match x) as [group|]; [|done]. cbn.
  destruct (decide (int group > epoch_number)); lia.
Qed.

Lemma fold_step_spec (names : list string) (start : Z) :
  let found := fold_left step names start in
  start ≤ found ∧
  (∀ x idx, x ∈ names → recognised x = Some idx → idx ≤ found) ∧
  (found = start ∨ ∃ x, x ∈ names ∧ recognised x = Some found).
Proof.
  revert start. induction names as [|x names IH]; intros start.
  - cbn. split_and!; [lia| |by left]. intros x idx Hx. by apply elem_of_nil in Hx.
  - cbn [fold_left]. destruct (IH (step start x)) as (Hlow & Hall & Hfound).
    cbv zeta. pose proof (step_max start x) as Hstep.
    split_and!.
    + destruct (recognised x); lia.
    + intros y idx [->|Hy]%elem_of_cons Hrec; [|by eapply Hall].
      rewrite Hrec in Hstep. lia.
    + destruct Hfound as [Hfound|(y & Hy & Hrec)].
      * destruct (recognised x) as [idx|] eqn:Hrec; [|left; lia].
        destruct (decide (idx ≤ start)); [left; lia|].
        right. exists x. split; [by left|]. rewrite Hrec. f_equal. lia.
      * right. exists y. split; [by right|done].
Qed.

Lemma last_epoch_of_unique (names : list string) (m : Z) :
  0 ≤ m →
  (∀ x idx, x ∈ names → recognised x = Some idx → idx ≤ m) →
  (m = 0 ∨ ∃ x, x ∈ names ∧ recognised x = Some m) →
  last_epoch_of names = m.
Proof.
  intros Hm Hall Hfound.
  destruct (fold_step_spec names 0) as (Hlow & Hall' & Hfound').
  change (fold_left step names 0) with (last_epoch_of names) in *.
  assert (last_epoch_of names ≤ m) as Hle.
  { destruct Hfound' as [->|(x & Hx & Hrec)]; [done|]. by eapply Hall. }
  assert (m ≤ last_epoch_of names) as Hge.
  { destruct Hfound as [->|(x & Hx & Hrec)]; [done|]. by eapply Hall'. }
  lia.
Qed.

End ClassicFacts.

Section ClassicStorageFacts.
Import Py Classic ClassicFacts.
Local Open Scope Z_scope.

(** The loop of [_persisted_last_epoch] reads the index [n] back from the
    file name of checkpoint [n] when [n] is not negative, and takes neither
    the names of best checkpoints, nor those of hidden states, nor the name
    of a checkpoint with a negative index for a checkpoint. *)
Theorem checkpoint_names_are_told_apart (n : Z) :
  (0 ≤ n → recognised (checkpoint_filename n) = Some n) ∧
  (n < 0 → recognised (checkpoint_filename n) = None) ∧
  recognised (checkpoint_best_filename n) = None ∧
  recognised (checkpoint_hidden_filename n) = None.
Proof.
  split_and!.
  - apply recognised_checkpoint.
  - intros Hn. unfold recognised. by rewrite re_match_negative.
  - unfold recognised. by rewrite re_match_best.
  - unfold recognised. by rewrite re_match_hidden.
Qed.

(** [_persisted_last_epoch] returns the largest index among the file names
    it recognises, or zero when there is none above zero; the result does
    not depend on the order in which [os.listdir] gives the names. *)
Theorem last_epoch_is_the_largest_index (names : list string) :
  0 ≤ last_epoch_of names ∧
  (∀ x idx, x ∈ names → recognised x = Some idx → idx ≤ last_epoch_of names) ∧
  (last_epoch_of names = 0 ∨
   ∃ x, x ∈ names ∧ recognised x = Some (last_epoch_of names)) ∧
  (∀ names', names ≡ₚ names' → last_epoch_of names' = last_epoch_of names).
Proof.
  destruct (fold_step_spec names 0) as (Hlow & Hall & Hfound).
  change (fold_left step names 0) with (last_epoch_of names) in *.
  split_and!; try done.
  intros names' Hperm. apply last_epoch_of_unique; [done| |].
  - intros x idx Hx. apply Hall. by rewrite Hperm.
  - destruct Hfound as [?|(x & Hx & Hrec)]; [by left|]. right. exists x.
    split; [by rewrite <- Hperm|done].
Qed.


Section WithCollaborators.

Context {Obj : Type} `{!Collaborators Obj}.
Implicit Types (self : ClassicStorage) (files : Files Obj) (epoch_info : EpochInfo).

Lemma elem_of_listdir files (x : string) : x ∈ os_listdir files ↔ is_Some (files !! x).
Proof.
  unfold os_listdir. rewrite list_elem_of_fmap. split.
  - intros ([y obj] & -> & Hin). apply elem_of_map_to_list in Hin. by exists obj.
  - intros [obj Hobj]. exists (x, obj). split; [done|]. by apply elem_of_map_to_list.
Qed.

Lemma persisted_unique files (m : Z) :
  0 ≤ m →
  (∀ x idx, is_Some (files !! x) → recognised x = Some idx → idx ≤ m) →
  (m = 0 ∨ ∃ x, is_Some (files !! x) ∧ recognised x = Some m) →
  _persisted_last_epoch files = m.
Proof.
  intros Hm Hall Hfound. apply last_epoch_of_unique; [done| |].
  - intros x idx Hx. apply Hall. by apply elem_of_listdir.
  - destruct Hfound as [?|(x & Hx & Hrec)]; [by left|]. right. exists x.
    split; [by apply elem_of_listdir|done].
Qed.

Lemma os_remove_Ok (path : string) files files' :
  os_remove path files = Ok files' → is_Some (files !! path) ∧ files' = delete path files.
Proof.
  unfold os_remove. destruct (files !! path); [|done]. intros [= <-]. by split.
Qed.

(** What the two optional steps of [checkpoint] do to the files and to the
    storage. *)
Lemma delete_previous_Ok self epoch_info files self' files' :
  delete_previous self epoch_info files = Ok (self', files') →
  0 ≤ global_epoch_idx epoch_info →
  files' !! checkpoint_filename (global_epoch_idx epoch_info)
  = files !! checkpoint_filename (global_epoch_idx epoch_info) ∧
  files' !! checkpoint_hidden_filename (global_epoch_idx epoch_info)
  = files !! checkpoint_hidden_filename (global_epoch_idx epoch_info) ∧
  (∀ x, is_Some (files' !! x) → is_Some (files !! x)) ∧
  base self' = base self ∧ backend self' = backend self ∧
  streaming self' = streaming self ∧ cleaned self' = cleaned self.
Proof.
  unfold delete_previous. intros Hrun Hidx.
  destruct (decide (global_epoch_idx epoch_info > 1)) as [Hlate|Hfirst];
    [|by injection Hrun as <- <-].
  destruct (should_delete_previous_checkpoint _ _) as [strategy asked].
  cbn [fst snd] in Hrun. destruct asked; [|by injection Hrun as <- <-].
  destruct (os_remove (checkpoint_filename _) files) as [files1|] eqn:Hfirst; [|done].
  cbn [and_then] in Hrun.
  destruct (os_remove (checkpoint_hidden_filename _) files1) as [files2|] eqn:Hsecond;
    [|done].
  cbn [and_then] in Hrun. injection Hrun as <- <-.
  apply os_remove_Ok in Hfirst as [_ ->]. apply os_remove_Ok in Hsecond as [_ ->].
  split_and!; try done.
  - rewrite lookup_delete_ne
      by (intros Heq; symmetry in Heq; by apply checkpoint_not_hidden in Heq; lia).
    apply lookup_delete_ne. intros Heq%checkpoint_filename_inj; lia.
  - rewrite lookup_delete_ne by (intros Heq%checkpoint_hidden_filename_inj; lia).
    apply lookup_delete_ne. intros Heq. by apply checkpoint_not_hidden in Heq; lia.
  - intros x [obj Hx]. apply lookup_delete_Some in Hx as [_ Hx].
    apply lookup_delete_Some in Hx as [_ Hx]. by exists obj.
Qed.

Lemma store_best_Ok self epoch_info (model : Model) files self' files' :
  store_best self epoch_info model files = Ok (self', files') →
  0 ≤ global_epoch_idx epoch_info →
  files' !! checkpoint_filename (global_epoch_idx epoch_info)
  = files !! checkpoint_filename (global_epoch_idx epoch_info) ∧
  files' !! checkpoint_hidden_filename (global_epoch_idx epoch_info)
  = files !! checkpoint_hidden_filename (global_epoch_idx epoch_info) ∧
  (∀ x, is_Some (files' !! x) →
        is_Some (files !! x) ∨ x = checkpoint_best_filename (global_epoch_idx epoch_info)) ∧
  base self' = base self ∧ backend self' = backend self ∧
  streaming self' = streaming self ∧ cleaned self' = cleaned self.
Proof.
  unfold store_best. intros Hrun Hidx.
  destruct (should_store_best_checkpoint _ _ _) as [strategy asked].
  cbn [fst snd] in Hrun. destruct asked; cycle 1.
  { injection Hrun as <- <-. split_and!; try done. intros x Hx. by left. }
  unfold with_strategy at 1 in Hrun. cbn [checkpoint_strategy] in Hrun.
  match type of Hrun with
  | (try files <- ?m; _) = _ => destruct m as [files1|] eqn:Hremove; [|done]
  end.
  cbn [and_then] in Hrun. injection Hrun as <- <-.
  assert (files1 !! checkpoint_filename (global_epoch_idx epoch_info)
          = files !! checkpoint_filename (global_epoch_idx epoch_info) ∧
          files1 !! checkpoint_hidden_filename (global_epoch_idx epoch_info)
          = files !! checkpoint_hidden_filename (global_epoch_idx epoch_info) ∧
          ∀ x, is_Some (files1 !! x) → is_Some (files !! x)) as (Hc & Hh & Hsub).
  { destruct (current_best_checkpoint_idx strategy) as [best|];
      [|by injection Hremove as <-].
    apply os_remove_Ok in Hremove as [_ ->]. split_and!.
    - apply lookup_delete_ne. intros Heq. symmetry in Heq.
      by apply checkpoint_not_best in Heq.
    - apply lookup_delete_ne. intros Heq. symmetry in Heq.
      by apply hidden_not_best in Heq.
    - intros x [obj Hx]. apply lookup_delete_Some in Hx as [_ Hx]. by exists obj. }
  unfold torch_save. split_and!; try done.
  - rewrite lookup_insert_ne; [done|]. intros Heq. symmetry in Heq.
    by apply checkpoint_not_best in Heq.
  - rewrite lookup_insert_ne; [done|]. intros Heq. symmetry in Heq.
    by apply hidden_not_best in Heq.
  - intros x Hx.
    destruct (decide (x = checkpoint_best_filename (global_epoch_idx epoch_info)))
      as [->|Hne]; [by right|].
    left. apply Hsub. by rewrite lookup_insert_ne in Hx.
Qed.

Lemma clean_fields self (n : Z) :
  cleaned (clean self n) = true ∧
  backend (clean self n)
  = (if cleaned self then backend self else backend_clean (backend self) n) ∧
  base (clean self n) = base self ∧ streaming (clean self n) = streaming self ∧
  checkpoint_strategy (clean self n) = checkpoint_strategy self.
Proof. unfold clean. by destruct (cleaned self) eqn:Hcleaned. Qed.

Lemma checkpoint_Ok self epoch_info (model : Model) state_dict_arg files self' files' :
  checkpoint self epoch_info model state_dict_arg files = Ok (self', files') →
  0 ≤ global_epoch_idx epoch_info →
  let n := global_epoch_idx epoch_info in
  files' !! checkpoint_filename n = Some (State (state_dict model)) ∧
  files' !! checkpoint_hidden_filename n
  = Some (Hidden (hidden_state_of (clean self n) epoch_info state_dict_arg)) ∧
  (∀ x, is_Some (files' !! x) →
        is_Some (files !! x) ∨ x = checkpoint_filename n ∨
        x = checkpoint_hidden_filename n ∨ x = checkpoint_best_filename n) ∧
  cleaned self' = true ∧
  backend self'
  = backend_store (if cleaned self then backend self
                   else backend_clean (backend self) n) (result epoch_info) ∧
  base self' = base self ∧ streaming self' = streaming self.
Proof.
  intros Hrun Hidx n. unfold checkpoint in Hrun. fold n in Hrun.
  destruct (delete_previous _ _ _) as [[self1 files1]|] eqn:Hdelete; [|done].
  cbn [and_then fst snd] in Hrun.
  destruct (store_best _ _ _ _) as [[self2 files2]|] eqn:Hbest; [|done].
  cbn [and_then fst snd] in Hrun. injection Hrun as <- <-.
  apply delete_previous_Ok in Hdelete
    as (Hc1 & Hh1 & Hsub1 & Hbase1 & Hbackend1 & Hstream1 & Hcleaned1); [|done].
  apply store_best_Ok in Hbest
    as (Hc2 & Hh2 & Hsub2 & Hbase2 & Hbackend2 & Hstream2 & Hcleaned2); [|done].
  destruct (clean_fields self n) as (Hcleaned & Hbackend & Hbase & Hstream & _).
  fold n in Hc1, Hh1, Hc2, Hh2, Hsub2.
  unfold with_backend. cbn [cleaned backend base streaming].
  split_and!.
  - rewrite Hc2, Hc1. unfold torch_save.
    rewrite lookup_insert_ne
      by (intros Heq; symmetry in Heq; by apply checkpoint_not_hidden in Heq).
    apply lookup_insert_eq.
  - rewrite Hh2, Hh1. apply lookup_insert_eq.
  - intros x Hx. destruct (Hsub2 x Hx) as [Hx1| ->]; [|tauto].
    apply Hsub1 in Hx1. unfold torch_save in Hx1.
    destruct (decide (x = checkpoint_hidden_filename n)) as [->|Hne1]; [tauto|].
    rewrite lookup_insert_ne in Hx1 by done.
    destruct (decide (x = checkpoint_filename n)) as [->|Hne2]; [tauto|].
    rewrite lookup_insert_ne in Hx1 by done. tauto.
  - congruence.
  - rewrite Hbackend2, Hbackend1, Hbackend. done.
  - congruence.
  - congruence.
Qed.

(** Round trip: after [checkpoint] for epoch [n >= 1] has returned, on a
    directory that held no checkpoint with an index above [n],
    [resume_learning] of a restarted storage finds epoch [n], loads the
    weights that were saved into the model, restores from the hidden state
    that was saved, and returns both [n] and that hidden state. *)
Theorem checkpoint_then_resume self epoch_info (model : Model) state_dict_arg files
    self' files' (restarted : ClassicStorage) (fresh : Model) :
  checkpoint self epoch_info model state_dict_arg files = Ok (self', files') →
  1 ≤ global_epoch_idx epoch_info →
  (∀ x idx, is_Some (files !! x) → recognised x = Some idx →
            idx ≤ global_epoch_idx epoch_info) →
  (load_state_dict fresh (State (state_dict model))).2 = None →
  let hidden_state :=
    Hidden (hidden_state_of (clean self (global_epoch_idx epoch_info)) epoch_info
              state_dict_arg) in
  resume_learning restarted fresh files'
  = Ok (restore restarted hidden_state,
        (load_state_dict fresh (State (state_dict model))).1,
        global_epoch_idx epoch_info, Some hidden_state).
Proof.
  intros Hrun Hidx Hold Hload hidden_state.
  apply checkpoint_Ok in Hrun as (Hc & Hh & Hsub & _); [|lia].
  assert (_persisted_last_epoch files' = global_epoch_idx epoch_info) as Hlast.
  { apply persisted_unique; [lia| |].
    - intros x idx Hx Hrec.
      destruct (Hsub x Hx) as [Hx0|[->|[->| ->]]]; [by eapply Hold|..].
      + rewrite recognised_checkpoint in Hrec by lia. injection Hrec as <-. lia.
      + unfold recognised in Hrec. by rewrite re_match_hidden in Hrec.
      + unfold recognised in Hrec. by rewrite re_match_best in Hrec.
    - right. exists (checkpoint_filename (global_epoch_idx epoch_info)).
      split; [by rewrite Hc|]. apply recognised_checkpoint. lia. }
  unfold resume_learning. rewrite Hlast. rewrite decide_True by lia.
  unfold torch_load. rewrite Hc, Hload, Hh. done.
Qed.

(** [checkpoint] sets [cleaned] and calls [backend.clean] only when it was
    not set: the backend ends as [store] of the result over the backend,
    cleaned only if [cleaned] was unset; any later [checkpoint] stores its
    result without cleaning. *)
Theorem checkpoint_cleans_once self epoch_info (model : Model) state_dict_arg files
    self' files' :
  checkpoint self epoch_info model state_dict_arg files = Ok (self', files') →
  0 ≤ global_epoch_idx epoch_info →
  cleaned self' = true ∧
  backend self'
  = backend_store (if cleaned self then backend self
                   else backend_clean (backend self) (global_epoch_idx epoch_info))
      (result epoch_info) ∧
  ∀ epoch_info' (model' : Model) state_dict_arg' self'' files'',
    0 ≤ global_epoch_idx epoch_info' →
    checkpoint self' epoch_info' model' state_dict_arg' files' = Ok (self'', files'') →
    cleaned self'' = true ∧
    backend self'' = backend_store (backend self') (result epoch_info').
Proof.
  intros Hrun Hidx.
  apply checkpoint_Ok in Hrun as (_ & _ & _ & Hcleaned & Hbackend & _); [|done].
  split_and!; [done|done|].
  intros epoch_info' model' state_dict_arg' self'' files'' Hidx' Hrun'.
  apply checkpoint_Ok in Hrun' as (_ & _ & _ & Hcleaned' & Hbackend' & _); [|done].
  rewrite Hcleaned in Hbackend'. done.
Qed.

(** When the strategy asks to delete the previous checkpoint and one of
    its two files is missing, [checkpoint] raises [FileNotFoundError] for
    the first missing file. *)
Theorem checkpoint_needs_previous_files self epoch_info (model : Model) state_dict_arg
    files :
  global_epoch_idx epoch_info > 1 →
  (should_delete_previous_checkpoint (checkpoint_strategy self)
     (global_epoch_idx epoch_info)).2 = true →
  let previous := global_epoch_idx epoch_info - 1 in
  (files !! checkpoint_filename previous = None →
   checkpoint self epoch_info model state_dict_arg files
   = Raise (FileNotFoundError (checkpoint_filename previous))) ∧
  (is_Some (files !! checkpoint_filename previous) →
   files !! checkpoint_hidden_filename previous = None →
   checkpoint self epoch_info model state_dict_arg files
   = Raise (FileNotFoundError (checkpoint_hidden_filename previous))).
Proof.
  intros Hidx Hasked previous.
  destruct (clean_fields self (global_epoch_idx epoch_info)) as (_ & _ & _ & _ & Hstrategy).
  assert (∀ obj obj',
            (torch_save obj' (checkpoint_hidden_filename (global_epoch_idx epoch_info))
               (torch_save obj (checkpoint_filename (global_epoch_idx epoch_info)) files))
            !! checkpoint_filename previous
            = files !! checkpoint_filename previous) as Hkeep1.
  { intros obj obj'. unfold torch_save.
    rewrite lookup_insert_ne
      by (intros Heq; symmetry in Heq; apply checkpoint_not_hidden in Heq;
          [done|unfold previous; lia]).
    apply lookup_insert_ne. intros Heq%checkpoint_filename_inj; unfold previous in *; lia. }
  assert (∀ obj obj',
            (torch_save obj' (checkpoint_hidden_filename (global_epoch_idx epoch_info))
               (torch_save obj (checkpoint_filename (global_epoch_idx epoch_info)) files))
            !! checkpoint_hidden_filename previous
            = files !! checkpoint_hidden_filename previous) as Hkeep2.
  { intros obj obj'. unfold torch_save.
    rewrite lookup_insert_ne
      by (intros Heq%checkpoint_hidden_filename_inj; unfold previous in *; lia).
    apply lookup_insert_ne. intros Heq. apply checkpoint_not_hidden in Heq; [done|lia]. }
  split.
  - intros Hmissing. unfold checkpoint, delete_previous.
    rewrite decide_True by done. cbn [fst snd]. rewrite Hstrategy, Hasked.
    fold previous. unfold os_remove at 1. rewrite Hkeep1, Hmissing. done.
  - intros [obj Hpresent] Hmissing. unfold checkpoint, delete_previous.
    rewrite decide_True by done. cbn [fst snd]. rewrite Hstrategy, Hasked.
    fold previous. unfold os_remove at 1. rewrite Hkeep1, Hpresent.
    cbn [and_then]. unfold os_remove.
    rewrite lookup_delete_ne
      by (intros Heq; apply checkpoint_not_hidden in Heq; [done|unfold previous; lia]).
    rewrite Hkeep2, Hmissing. done.
Qed.

(** What [resume_learning] can return: the epoch is never negative; with no
    hidden state the storage is unchanged and the epoch is zero or the
    model untouched; with a hidden state the epoch is the last persisted
    one and positive, both files of that epoch exist, the hidden state is
    the saved one, the storage was restored from it and the model loaded
    without an exception. *)
Theorem resume_learning_outcomes self (model : Model) files self' model' (epoch : Z)
    hidden :
  resume_learning self model files = Ok (self', model', epoch, hidden) →
  0 ≤ epoch ∧
  (hidden = None → self' = self ∧
     (epoch = 0 ∨ epoch = _persisted_last_epoch files ∧ model' = model)) ∧
  (∀ hidden_state, hidden = Some hidden_state →
     epoch = _persisted_last_epoch files ∧ 0 < epoch ∧
     files !! checkpoint_hidden_filename epoch = Some hidden_state ∧
     self' = restore self hidden_state ∧
     ∃ state, files !! checkpoint_filename epoch = Some state ∧
              load_state_dict model state = (model', None)).
Proof.
  unfold resume_learning.
  destruct (fold_step_spec (os_listdir files) 0) as (Hlow & _).
  change (fold_left step (os_listdir files) 0) with (_persisted_last_epoch files) in Hlow.
  destruct (decide (_persisted_last_epoch files > 0)) as [Hpos|Hzero]; cycle 1.
  { intros [= <- <- <- <-]. split_and!; [done| |done]. intros _. split; [done|]. by right. }
  unfold torch_load.
  destruct (files !! checkpoint_filename _) as [state|] eqn:Hstate; cycle 1.
  { intros [= <- <- <- <-]. split_and!; [done| |done]. intros _. split; [done|]. by left. }
  destruct (load_state_dict model state) as [loaded raised] eqn:Hload. cbn [fst snd].
  destruct raised as [e|].
  { destruct e; try done.
    intros [= <- <- <- <-]. split_and!; [done| |done]. intros _. split; [done|]. by left. }
  destruct (files !! checkpoint_hidden_filename _) as [hidden_state|] eqn:Hhidden; cycle 1.
  { intros [= <- <- <- <-]. split_and!; [done| |done]. intros _. split; [done|]. by left. }
  intros [= <- <- <- <-]. split_and!; [lia|done|].
  intros ? [= <-]. split_and!; [done|lia|done|done|]. by exists state.
Qed.

End WithCollaborators.

End ClassicStorageFacts.

(** * Checks on the toy instance *)

Import Toy.

Lemma bootstrap_values_selection_witness :
  let values := [Q2Qc 2; Q2Qc 2] in
  let next := states_plus_1 Toy.toy_batch_sample in
  length values = length (forward Toy.toy_train_model next) ∧
  ∀ i model_row, forward Toy.toy_train_model next !! i = Some model_row →
    ∃ target_row a v,
      forward Toy.toy_target_model next !! i = Some target_row ∧
      Vocabulary.maximises model_row a ∧
      target_row !! a = Some v ∧ values !! i = Some v.
Proof.
  exact (proj1 (bootstrap_values_selection (Toy.toy_settings true None)
                  Toy.toy_target_model Toy.toy_train_model
                  (states_plus_1 Toy.toy_batch_sample))
           [Q2Qc 2; Q2Qc 2] eq_refl).
Defined.

Lemma td_target_terminal_witness :
  ∃ expected_q,
    td_target (Toy.toy_settings false None) Toy.toy_target_model Toy.toy_train_model
      Toy.toy_batch_sample = Returned expected_q ∧
    length expected_q = length (rewards Toy.toy_batch_sample) ∧
    ∀ i reward value done,
      rewards Toy.toy_batch_sample !! i = Some reward →
      [Q2Qc 5; Q2Qc 5] !! i = Some value →
      dones Toy.toy_batch_sample !! i = Some done →
      expected_q !! i
        = Some (reward + discount_factor (Toy.toy_settings false None) * value
                         * (1 - Tensor.astype_float32 done))%Qc ∧
      (done = true → expected_q !! i = Some reward).
Proof.
  apply (proj1 td_target_terminal (Toy.toy_settings false None) Toy.toy_target_model
           Toy.toy_train_model Toy.toy_batch_sample [Q2Qc 5; Q2Qc 5]);
    reflexivity.
Defined.

(** A terminal transition with a reward of one whose bootstrap value is
    infinite: the discounted value is infinite, its product with
    [1 - done = 0] is NaN, and so is the target; it is not the reward. *)
Lemma terminal_target_is_nan_for_infinite_value :
  Float32.mul Float32.nine_tenths (S754_infinity false) = S754_infinity false ∧
  Float32.expected_q_of Float32.nine_tenths [Float32.one] [S754_infinity false] [true]
    = [S754_nan] ∧
  Float32.expected_q Float32.nine_tenths Float32.one (S754_infinity false) true
    ≠ Float32.one.
Proof. split_and!; [reflexivity | reflexivity | discriminate]. Qed.

(** A cold start: the buffer is empty, three rollouts warm it up although
    [train_frequency] is one. *)
Lemma toy_cold_ready_after :
  Vocabulary.ready_after 3
    (Vocabulary.with_epsilon (toy_reinforcer false None []) (Q2Qc (1 # 2)) toy_batch)
    (eval (train_model (toy_reinforcer false None [])))
    (Vocabulary.start_rolling (toy_reinforcer false None []) []).
Proof.
  split; [reflexivity|].
  intros [|[|[|k]]] Hk; [reflexivity | reflexivity | reflexivity | lia].
Defined.

Lemma train_batch_rollouts_witness :
  ∃ batch_info' self' trace',
    train_batch 5 toy_batch (toy_reinforcer false None []) []
      = Returned (batch_info', self', trace') ∧
    (Z.to_nat (train_frequency (settings (toy_reinforcer false None []))) < 3)%nat ∧
    ∃ rest,
      trace' = [] ++ replicate 3 EvRollout ++ rest ∧
      Vocabulary.count Vocabulary.is_rollout rest = 0%nat ∧
      data_dict batch_info' !! "frames" = Some (VInt 3).
Proof.
  destruct (train_batch_rollouts 5 toy_batch (toy_reinforcer false None []) [])
    as [Hinv Htotal].
  destruct (Htotal (VFloat (Q2Qc (1 # 2))) (Q2Qc (1 # 2)) 3%nat)
    as [[[batch_info' self'] trace'] Hresult].
  - reflexivity.
  - reflexivity.
  - reflexivity.
  - exact toy_cold_ready_after.
  - lia.
  - eexists. reflexivity.
  - exists batch_info', self', trace'. split; [exact Hresult|].
    split; [simpl; lia|].
    destruct (Hinv batch_info' self' trace' Hresult)
      as (progress & n & rest & Htrace & Hcount & _ & Hframes & _ & Hready).
    cbv zeta in Hready.
    change (is_ready_for_sampling (env_roller (toy_reinforcer false None [])))
      with false in Hready.
    cbv iota in Hready. destruct Hready as [Hready Hbefore].
    assert (n = 3)%nat as ->.
    { destruct n as [|[|[|[|n]]]]; [discriminate.. | done |].
      specialize (Hbefore 3%nat ltac:(lia)). discriminate. }
    by exists rest.
Defined.


Lemma target_model_is_snapshot_witness :
  ∃ epochs' self' trace',
    train_epochs 5 [toy_epoch 2; toy_epoch 1]
      (initialize_training (toy_reinforcer true None [])) []
      = Returned (epochs', self', trace') ∧
    state_dict (target_model self') = [Q2Qc 0; Q2Qc 0] ∧
    state_dict (train_model self') ≠ state_dict (target_model self').
Proof.
  destruct (target_model_is_snapshot 5 (toy_reinforcer true None []))
    as (_ & _ & _ & _ & Hsnapshot & _).
  destruct (train_epochs 5 [toy_epoch 2; toy_epoch 1]
              (initialize_training (toy_reinforcer true None [])) [])
    as [[[epochs' self'] trace'] | e |] eqn:Hresult.
  - exists epochs', self', trace'. split; [reflexivity|].
    split; [exact (Hsnapshot _ _ _ _ _ Hresult)|].
    vm_compute in Hresult. injection Hresult as _ <- _. discriminate.
  - vm_compute in Hresult. discriminate.
  - vm_compute in Hresult. discriminate.
Defined.


(** Settings with a batch size of zero, a negative training frequency and a
    discount factor of two are accepted by [create] and [instantiate]. *)
Lemma create_accepts_invalid_settings :
  let given :=
    {| epsilon_schedule := λ progress, progress; train_frequency := -1;
       batch_size := 0; double_dqn := false; target_update_frequency := 10;
       discount_factor := Q2Qc 2; max_grad_norm := None |} in
  ¬ Vocabulary.valid_settings given ∧
  ∃ factory reinforcer,
    create 0 tt tt tt (λ progress, progress) (-1) 0 10 (Q2Qc 2) None false
      = Returned factory ∧
    instantiate factory tt = Returned reinforcer ∧
    settings reinforcer = given.
Proof.
  split.
  - intros (Hfreq & _). simpl in Hfreq. lia.
  - eexists _, _. split; [reflexivity|]. split; reflexivity.
Qed.

(** The gradients of the toy backward pass have global norm 5 over the
    parameters that require gradients. *)
Lemma toy_total_norm : Grad.total_norm requires_grad toy_gradients = 5%R.
Proof.
  unfold Grad.total_norm, Grad.total_sq, toy_gradients.
  rewrite filter_cons, decide_True by done.
  rewrite filter_cons, decide_False by (simpl; discriminate).
  rewrite filter_nil. cbn [foldr]. rewrite GradFacts.norm_sq. simpl.
  replace (3 * 3 + (4 * 4 + 0) + 0)%R with (5 * 5)%R by lra.
  apply sqrt_square. lra.
Qed.

Lemma toy_clipped_batch :
  ∃ batch_info' self' trace',
    train_batch 5 toy_batch (toy_reinforcer false (Some 5%R) []) []
      = Returned (batch_info', self', trace') ∧
    data_dict batch_info' !! "grad_norm"
      = Some (VNorm (Grad.total_norm requires_grad toy_gradients)) ∧
    parameters (train_model self')
      = (Grad.clip_grad_norm_ requires_grad toy_gradients 5).1.
Proof.
  assert (∃ result,
            train_batch 5 toy_batch (toy_reinforcer false (Some 5%R) []) []
            = Returned result) as [[[batch_info' self'] trace'] Hresult]
    by (eexists; reflexivity).
  exists batch_info', self', trace'. split; [exact Hresult|].
  apply train_batch_Returned in Hresult
    as (value & progress & n & roller' & batch_sample & e & l & loss
        & _ & _ & _ & _ & _ & Hresult).
  match type of Hresult with
  | _ = optimise ?b ?s ?m ?t ?r ?ro ?bs ?e ?l ?lo ?tr =>
      pose proof (optimise_clipping b s m t r ro bs e l lo tr) as Hclip
  end.
  cbv zeta in Hclip. rewrite <- Hresult in Hclip. cbn [fst snd] in Hclip.
  change (max_grad_norm (settings (toy_reinforcer false (Some 5%R) [])))
    with (Some 5%R) in Hclip.
  cbv beta iota in Hclip. destruct Hclip as (_ & Hnorm & Hparams & _).
  split; [exact Hnorm | exact Hparams].
Qed.

(** At a cap of 5 the norm before clipping, 5, is not above the cap, yet
    the gradients that reach the optimizer step are not those of the
    backward pass: they are scaled by [5 / (5 + 1e-6)]. *)
Lemma clip_rescales_gradients_at_the_cap :
  ∃ batch_info' self' trace',
    train_batch 5 toy_batch (toy_reinforcer false (Some 5%R) []) []
      = Returned (batch_info', self', trace') ∧
    data_dict batch_info' !! "grad_norm"
      = Some (VNorm (Grad.total_norm requires_grad toy_gradients)) ∧
    (Grad.total_norm requires_grad toy_gradients <= 5)%R ∧
    (Grad.total_norm requires_grad (parameters (train_model self'))
     < Grad.total_norm requires_grad toy_gradients)%R ∧
    parameters (train_model self') ≠ toy_gradients.
Proof.
  destruct toy_clipped_batch as (batch_info' & self' & trace' & Hresult & Hnorm & Hparams).
  exists batch_info', self', trace'. split_and!; [done | done | | |].
  - rewrite toy_total_norm. lra.
  - rewrite Hparams.
    destruct (GradFacts.clip_grad_norm_spec toy_gradients 5 ltac:(lra))
      as (_ & _ & _ & Hscaled).
    rewrite toy_total_norm in *. pose proof GradFacts.eps_pos as Heps.
    destruct Hscaled as [_ ->]; [lra|].
    assert (5 / (5 + Grad.eps) < 1)%R as Hlt.
    { apply (Rmult_lt_reg_r (5 + Grad.eps)); [lra|].
      unfold Rdiv. rewrite Rmult_assoc, Rinv_l; lra. }
    lra.
  - rewrite Hparams.
    destruct (GradFacts.clip_grad_norm_spec toy_gradients 5 ltac:(lra))
      as (_ & _ & _ & Hscaled).
    rewrite toy_total_norm in Hscaled. pose proof GradFacts.eps_pos as Heps.
    destruct Hscaled as [-> _]; [lra|].
    unfold toy_gradients. simpl. intros [= Hthree _].
    assert (5 / (5 + Grad.eps) < 1)%R as Hlt.
    { apply (Rmult_lt_reg_r (5 + Grad.eps)); [lra|].
      unfold Rdiv. rewrite Rmult_assoc, Rinv_l; lra. }
    nra.
Qed.

Lemma train_batch_clipping_witness :
  ∃ batch_info' self' trace',
    train_batch 5 toy_batch (toy_reinforcer false (Some 5%R) []) []
      = Returned (batch_info', self', trace') ∧
    (∃ before, data_dict batch_info' !! "grad_norm" = Some (VNorm before)) ∧
    (Grad.total_norm requires_grad (parameters (train_model self')) <= 5)%R.
Proof.
  assert (∃ result,
            train_batch 5 toy_batch (toy_reinforcer false (Some 5%R) []) []
            = Returned result) as [[[batch_info' self'] trace'] Hresult]
    by (eexists; reflexivity).
  exists batch_info', self', trace'. split; [exact Hresult|].
  destruct (train_batch_clipping 5 toy_batch (toy_reinforcer false (Some 5%R) []) []
              batch_info' self' trace' Hresult)
    as (progress & before_backward & batch_sample & e & l & loss & Hclip).
  cbv zeta in Hclip.
  change (max_grad_norm (settings (toy_reinforcer false (Some 5%R) [])))
    with (Some 5%R) in Hclip.
  cbv beta iota in Hclip. destruct Hclip as (_ & Hnorm & _ & _ & Hbound).
  split; [by eexists|]. apply Hbound. lra.
Defined.

Lemma train_batch_loss_witness :
  ∃ batch_info' self' trace',
    train_batch 5 toy_batch (toy_reinforcer false None []) []
      = Returned (batch_info', self', trace') ∧
    ∃ before_backward after_backward loss,
      trace' = before_backward ++ EvBackward loss :: after_backward.
Proof.
  destruct (train_batch 5 toy_batch (toy_reinforcer false None []) [])
    as [[[batch_info' self'] trace'] | e |] eqn:Hresult.
  - exists batch_info', self', trace'. split; [reflexivity|].
    destruct (train_batch_loss 5 toy_batch (toy_reinforcer false None []) []
                batch_info' self' trace' Hresult)
      as (progress & before_backward & after_backward & batch_sample & expected_q
          & q_selected & original_losses & loss & Htrace & _).
    by exists before_backward, after_backward, loss.
  - vm_compute in Hresult. discriminate.
  - vm_compute in Hresult. discriminate.
Defined.

(** The networks of [ToyVariant.batch_dependent] follow every reordering
    of the batch, although their output depends on the size of the batch. *)
Lemma batch_dependent_batchwise (model : Model) :
  @Reordering.batchwise _ ToyVariant.batch_dependent model.
Proof.
  intros observations. split; [apply length_map|].
  intros σ Hσ.
  change (ToyVariant.batch_dependent_forward model (Reordering.reorder σ observations)
          = Reordering.reorder σ (ToyVariant.batch_dependent_forward model observations)).
  unfold ToyVariant.batch_dependent_forward.
  rewrite (ReorderFacts.length_reorder σ observations Hσ).
  symmetry. apply ReorderFacts.reorder_map.
Defined.

Lemma loss_permutation_and_priorities_witness :
  @compute_loss _ ToyVariant.batch_dependent (toy_settings true None)
    toy_target_model toy_train_model
    (Vocabulary.batch_of (Reordering.reorder [1; 0]%nat toy_rows))
  = Returned (Reordering.reorder [1; 0]%nat [Q2Qc 1; Q2Qc (13 # 5)],
              Reordering.reorder [1; 0]%nat [Q2Qc (3 # 2); Q2Qc (19 # 10)],
              Q2Qc (17 # 10)).
Proof.
  apply (proj1 (proj1 (@loss_permutation_and_priorities _ ToyVariant.batch_dependent)
                  (toy_settings true None) toy_target_model toy_train_model toy_rows
                  [Q2Qc 1; Q2Qc (13 # 5)] [Q2Qc (3 # 2); Q2Qc (19 # 10)]
                  (Q2Qc (17 # 10))
                  (batch_dependent_batchwise toy_target_model)
                  (batch_dependent_batchwise toy_train_model)
                  ltac:(vm_compute; reflexivity))
           [1; 0]%nat).
  apply perm_swap.
Defined.

(** With networks whose output depends on the position in the batch, the
    two orders of the toy rows give different scalar losses. *)
Lemma positional_loss_depends_on_order :
  Permutation toy_rows (reverse toy_rows) ∧
  ∃ e l loss e' l' loss',
    @compute_loss _ ToyVariant.positional (toy_settings false None)
      toy_target_model toy_train_model (Vocabulary.batch_of toy_rows)
    = Returned (e, l, loss) ∧
    @compute_loss _ ToyVariant.positional (toy_settings false None)
      toy_target_model toy_train_model (Vocabulary.batch_of (reverse toy_rows))
    = Returned (e', l', loss') ∧
    loss = Q2Qc (1 # 25) ∧ loss' = Q2Qc (5 # 16) ∧ loss ≠ loss'.
Proof.
  split; [apply perm_swap|].
  eexists _, _, _, _, _, _. split_and!.
  - vm_compute. reflexivity.
  - vm_compute. reflexivity.
  - apply Qc_is_canon. vm_compute. reflexivity.
  - apply Qc_is_canon. vm_compute. reflexivity.
  - intros Heq. apply (f_equal Qcanon.this) in Heq. vm_compute in Heq.
    discriminate Heq.
Qed.

(** ** Checks of the further properties *)

Lemma train_batch_reports_witness :
  ∃ batch_info' self' trace',
    train_batch 5 toy_batch (toy_reinforcer false None []) []
      = Returned (batch_info', self', trace') ∧
    data_dict batch_info' !! "epsilon_value" = Some (VFloat (Q2Qc (1 # 2))) ∧
    data_dict batch_info' !! "progress" = Some (VFloat (Q2Qc (1 # 2))).
Proof.
  destruct (train_batch 5 toy_batch (toy_reinforcer false None []) [])
    as [[[batch_info' self'] trace'] | e |] eqn:Hresult.
  - exists batch_info', self', trace'. split; [reflexivity|].
    destruct (train_batch_reports 5 toy_batch (toy_reinforcer false None []) []
                batch_info' self' trace' Hresult)
      as (value & progress & n & rest & Hvalue & Hprogress & _ & _ & _ & Hepsilon
          & _ & _ & _ & _ & Hother).
    injection Hvalue as <-. injection Hprogress as <-. split.
    + rewrite Hepsilon. reflexivity.
    + rewrite Hother; [reflexivity|]. unfold Reporting.written_keys.
      intros Hin. repeat (apply elem_of_cons in Hin as [Hin|Hin]; [discriminate|]).
      by apply elem_of_nil in Hin.
  - vm_compute in Hresult. discriminate.
  - vm_compute in Hresult. discriminate.
Defined.

Lemma metrics_match_train_batch_witness :
  ∃ batch_info' self' trace',
    train_batch 5 toy_batch (toy_reinforcer false (Some 5%R) []) []
      = Returned (batch_info', self', trace') ∧
    Reporting.AveragingNamedMetric "grad_norm"
      ∈ Reporting.metrics (toy_reinforcer false (Some 5%R) []) ∧
    data_dict batch_info' !! "grad_norm"
      = Some (VNorm (Grad.total_norm requires_grad toy_gradients)).
Proof.
  assert (∃ result,
            train_batch 5 toy_batch (toy_reinforcer false (Some 5%R) []) []
            = Returned result) as [[[batch_info' self'] trace'] Hresult]
    by (eexists; reflexivity).
  exists batch_info', self', trace'. split; [exact Hresult|].
  destruct (metrics_match_train_batch 5 toy_batch (toy_reinforcer false (Some 5%R) []) []
              batch_info' self' trace' Hresult)
    as (Hiff & progress & n & roller' & batch_sample & expected_q & original_losses
        & loss & _ & _ & Hwritten & _).
  assert (Reporting.AveragingNamedMetric "grad_norm"
            ∈ Reporting.metrics (toy_reinforcer false (Some 5%R) [])) as Hin
    by (apply Hiff; discriminate).
  split; [exact Hin|].
  destruct (Hwritten Hin) as (cap & _ & Hnorm & _). exact Hnorm.
Defined.

Lemma train_batch_waits_for_readiness_witness :
  @train_batch _ ToyVariant.stuck 1000 toy_batch (toy_reinforcer false None []) []
  = OutOfFuel.
Proof.
  apply (@train_batch_waits_for_readiness _ ToyVariant.stuck 1000 toy_batch
           (toy_reinforcer false None []) [] (VFloat (Q2Qc (1 # 2))) (Q2Qc (1 # 2)));
    reflexivity.
Defined.

Lemma train_epoch_needs_progress_witness :
  @train_epoch _ ToyVariant.without_progress 5 (toy_epoch 2)
    (toy_reinforcer false None []) []
  = Raised (KeyError "progress").
Proof.
  apply (@train_epoch_needs_progress _ ToyVariant.without_progress).
  - reflexivity.
  - intros callback batch_info Hnone. exact Hnone.
  - reflexivity.
Defined.

Lemma double_dqn_agrees_with_dqn_witness :
  bootstrap_values (toy_settings true None) toy_target_model toy_target_model [0%Z; 1%Z]
  = bootstrap_values (toy_settings false None) toy_target_model toy_target_model
      [0%Z; 1%Z].
Proof.
  apply double_dqn_agrees_with_dqn; reflexivity.
Defined.

Lemma double_dqn_never_exceeds_dqn_witness : (Q2Qc 2 <= Q2Qc 5)%Qc.
Proof.
  apply (double_dqn_never_exceeds_dqn (toy_settings true None) (toy_settings false None)
           toy_target_model toy_train_model [0%Z; 1%Z] [Q2Qc 2; Q2Qc 2]
           [Q2Qc 5; Q2Qc 5]) with (i := 0%nat); reflexivity.
Defined.

Lemma losses_are_not_negative_witness :
  Forall (λ x, (0 <= x)%Qc) [Q2Qc 0; Q2Qc (17 # 10)] ∧
  (Forall (λ w, (0 <= w)%Qc) (weights (Vocabulary.batch_of toy_rows)) →
   (0 <= Q2Qc (17 # 20))%Qc).
Proof.
  apply (losses_are_not_negative (toy_settings true None) toy_target_model
           toy_train_model (Vocabulary.batch_of toy_rows)
           [Q2Qc 1; Q2Qc (4 # 5)] [Q2Qc 0; Q2Qc (17 # 10)] (Q2Qc (17 # 20))).
  vm_compute. reflexivity.
Defined.

Lemma train_epoch_without_batches_witness :
  ∃ epoch',
    train_epoch 0 (toy_epoch 0) (toy_reinforcer false None []) []
    = Returned (epoch', toy_reinforcer false None [],
                [] ++ map EvEpochBegin [0; 1]%nat
                  ++ [EvFreezeResults; EvFreezeEpochResult]
                  ++ map EvEpochEnd [0; 1]%nat) ∧
    is_Some (result epoch') ∧
    result_accumulator epoch' = freeze_results (result_accumulator (toy_epoch 0)).
Proof.
  apply (train_epoch_without_batches 0 (toy_epoch 0) (toy_reinforcer false None []) []).
  simpl. lia.
Defined.


(** ** Checks of the learning-rate cycle *)

Lemma init_growing_cycles_witness :
  ∃ self,
    ToyCycle.growing = Py.Ok self ∧
    Cycle.epochs self = Cycle.Int 7 ∧
    Cycle.cycle_dict self = [0; 1; 1; 2; 2; 2; 2]%Z ∧
    Cycle.cycle_lengths self = [1; 2; 2; 4; 4; 4; 4]%Z ∧
    Cycle.cycle_starts self = [0; 1; 1; 3; 3; 3; 3]%Z.
Proof.
  destruct (init_growing_cycles ToyCycle.groups ToyCycle.highest ToyCycle.lowest
              3 1 2 2 ToyCycle.warm "linear" ltac:(lia) ltac:(lia) ltac:(lia))
    as (self & Hinit & Hepochs & Hdict & Hlengths & Hstarts & _).
  exists self.
  split; [exact Hinit|].
  split; [rewrite Hepochs; reflexivity|].
  split; [rewrite Hdict; reflexivity|].
  split; [rewrite Hlengths; reflexivity|rewrite Hstarts; reflexivity].
Defined.



Lemma init_arrays_witness :
  ∃ self,
    ToyCycle.constant = Py.Ok self ∧
    Cycle.np_getitem (Cycle.cycle_dict self) 2 = Py.Ok 2%Z ∧
    Cycle.np_getitem (Cycle.cycle_lengths self) 2 = Py.Ok 1%Z ∧
    Cycle.np_getitem (Cycle.cycle_starts self) 2 = Py.Ok 2%Z.
Proof.
  destruct ToyCycle.constant as [self|e] eqn:Hinit;
    [|apply (f_equal Py.returned) in Hinit; vm_compute in Hinit; discriminate Hinit].
  exists self. split; [reflexivity|].
  destruct (init_arrays ToyCycle.groups ToyCycle.highest ToyCycle.lowest
              3 1 1 0 ToyCycle.warm "linear" self Hinit)
    as (e & _ & _ & _ & _ & _ & _ & Hget).
  exact (Hget 2%nat 0%Z ltac:(lia) ltac:(vm_compute; split; congruence)).
Defined.

Lemma on_batch_begin_in_cycle_witness :
  ∃ self,
    ToyCycle.growing = Py.Ok self ∧
    Cycle.on_batch_begin Cycle.linear self
      {| Cycle.local_epoch_number := 5; Cycle.batches_per_epoch := 10;
         Cycle.batch_number := 5 |}
    = (try lr <- Cycle.interpolated Cycle.linear self
                   (Cycle.Finite (Qc_of_Z 15 / Qc_of_Z 40)%Qc);
       Py.Ok (Cycle.set_lr self lr)).
Proof.
  destruct ToyCycle.growing as [self|e] eqn:Hinit;
    [|apply (f_equal Py.returned) in Hinit; vm_compute in Hinit; discriminate Hinit].
  exists self. split; [reflexivity|].
  exact (proj2 (proj2 (on_batch_begin_in_cycle Cycle.linear ToyCycle.groups
                         ToyCycle.highest ToyCycle.lowest 3 1 2 2 ToyCycle.warm "linear"
                         self 2%nat 1 10 5 Hinit ltac:(lia)
                         ltac:(vm_compute; split; congruence) ltac:(lia)
                         ltac:(vm_compute; reflexivity)
                         ltac:(vm_compute; reflexivity)))).
Defined.

Lemma on_batch_begin_warm_up_witness :
  ∃ self,
    ToyCycle.growing = Py.Ok self ∧
    Cycle.on_batch_begin Cycle.linear self
      {| Cycle.local_epoch_number := 1; Cycle.batches_per_epoch := 10;
         Cycle.batch_number := 1 |}
    = Py.Ok (Cycle.set_lr self ToyCycle.warm).
Proof.
  destruct ToyCycle.growing as [self|e] eqn:Hinit;
    [|apply (f_equal Py.returned) in Hinit; vm_compute in Hinit; discriminate Hinit].
  exists self. split; [reflexivity|].
  exact (on_batch_begin_warm_up Cycle.linear ToyCycle.groups ToyCycle.highest
           ToyCycle.lowest 3 1 2 2 ToyCycle.warm "linear" self 0 10 1 Hinit
           ltac:(lia) ltac:(lia) ltac:(lia) ltac:(lia) ltac:(lia) ltac:(lia)
           ltac:(lia) ltac:(lia)).
Defined.

Lemma on_batch_begin_epoch_zero_witness :
  ∃ self,
    ToyCycle.growing = Py.Ok self ∧
    (Qc_of_Z (-35) / Qc_of_Z 40 < Q2Qc 0)%Qc ∧
    Cycle.on_batch_begin Cycle.linear self
      {| Cycle.local_epoch_number := 0; Cycle.batches_per_epoch := 10;
         Cycle.batch_number := 5 |}
    = (try lr <- Cycle.interpolated Cycle.linear self
                   (Cycle.Finite (Qc_of_Z (-35) / Qc_of_Z 40)%Qc);
       Py.Ok (Cycle.set_lr self lr)).
Proof.
  destruct ToyCycle.growing as [self|e] eqn:Hinit;
    [|apply (f_equal Py.returned) in Hinit; vm_compute in Hinit; discriminate Hinit].
  exists self. split; [reflexivity|].
  exact (on_batch_begin_epoch_zero Cycle.linear ToyCycle.groups ToyCycle.highest
           ToyCycle.lowest 3 1 2 2 ToyCycle.warm "linear" self 10 5 Hinit
           ltac:(lia) ltac:(left; lia) ltac:(lia) ltac:(lia)
           ltac:(vm_compute; reflexivity) ltac:(vm_compute; reflexivity)).
Defined.

Lemma on_batch_begin_beyond_schedule_witness :
  ∃ self,
    ToyCycle.growing = Py.Ok self ∧
    Cycle.on_batch_begin Cycle.linear self
      {| Cycle.local_epoch_number := 8; Cycle.batches_per_epoch := 10;
         Cycle.batch_number := 0 |}
    = Py.Raise Py.IndexError.
Proof.
  destruct ToyCycle.growing as [self|e] eqn:Hinit;
    [|apply (f_equal Py.returned) in Hinit; vm_compute in Hinit; discriminate Hinit].
  exists self. split; [reflexivity|].
  apply (on_batch_begin_beyond_schedule Cycle.linear ToyCycle.groups ToyCycle.highest
           ToyCycle.lowest 3 1 2 2 ToyCycle.warm "linear" self 7 _ Hinit).
  - vm_compute in Hinit. injection Hinit as <-. reflexivity.
  - left. cbn. lia.
Defined.

Lemma on_batch_begin_frame_witness :
  ∃ self self',
    ToyCycle.growing = Py.Ok self ∧
    Cycle.on_batch_begin Cycle.linear self
      {| Cycle.local_epoch_number := 5; Cycle.batches_per_epoch := 10;
         Cycle.batch_number := 5 |} = Py.Ok self' ∧
    Cycle.cycle_starts self' = Cycle.cycle_starts self ∧
    length (Cycle.optimizer self') = length (Cycle.optimizer self).
Proof.
  destruct ToyCycle.growing as [self|e] eqn:Hinit;
    [|apply (f_equal Py.returned) in Hinit; vm_compute in Hinit; discriminate Hinit].
  destruct (Cycle.on_batch_begin Cycle.linear self
              {| Cycle.local_epoch_number := 5; Cycle.batches_per_epoch := 10;
                 Cycle.batch_number := 5 |}) as [self'|e] eqn:Hrun;
    [|vm_compute in Hinit; injection Hinit as <-;
      apply (f_equal Py.returned) in Hrun; vm_compute in Hrun; discriminate Hrun].
  exists self, self'. split; [reflexivity|]. split; [exact Hrun|].
  destruct (on_batch_begin_frame Cycle.linear self self' _ Hrun)
    as (_ & _ & _ & _ & _ & _ & _ & _ & _ & _ & _ & Hstarts & Hlength & _).
  split; [exact Hstarts|exact Hlength].
Defined.

Lemma set_lr_groups_witness :
  ∃ self,
    ToyCycle.growing = Py.Ok self ∧
    Cycle.optimizer (Cycle.set_lr self (Cycle.List [Cycle.Num (Q2Qc 3)])) !! 1%nat
    = Some (<["momentum" := Cycle.Num (Q2Qc (9 # 10))]>
              {[ "lr" := Cycle.Num (Q2Qc 1) ]}).
Proof.
  destruct ToyCycle.growing as [self|e] eqn:Hinit;
    [|apply (f_equal Py.returned) in Hinit; vm_compute in Hinit; discriminate Hinit].
  exists self. split; [reflexivity|].
  apply (proj2 (set_lr_groups self (Cycle.List [Cycle.Num (Q2Qc 3)])) 1%nat).
  vm_compute in Hinit. injection Hinit as <-. reflexivity.
Defined.


Lemma set_up_phase_installs_callback_witness :
  ∃ phase' groups,
    Cycle.set_up_phase
      (Cycle.phase_init (Source := unit) ToyCycle.factory ToyCycle.highest ToyCycle.lowest
         3 1 2 "linear" ToyCycle.warm 2 false) tt tt = Py.Ok (phase', groups) ∧
    groups = ToyCycle.factory tt ∧
    Cycle._optimizer_instance phase' = Some groups.
Proof.
  destruct (Cycle.set_up_phase
              (Cycle.phase_init (Source := unit) ToyCycle.factory ToyCycle.highest
                 ToyCycle.lowest 3 1 2 "linear" ToyCycle.warm 2 false) tt tt)
    as [[phase' groups]|e] eqn:Hrun;
    [|apply (f_equal Py.returned) in Hrun; vm_compute in Hrun; discriminate Hrun].
  exists phase', groups. split; [reflexivity|].
  destruct (set_up_phase_installs_callback _ _ _ _ _ _ _ _ _ _ _ _ _ _ Hrun)
    as (Hgroups & Hinstance & _).
  split; [exact Hgroups|exact Hinstance].
Defined.

(** ** Checks of the classic storage *)

Lemma checkpoint_names_are_told_apart_witness :
  Classic.recognised (Classic.checkpoint_filename 12) = Some 12%Z.
Proof.
  apply (proj1 (checkpoint_names_are_told_apart 12)). lia.
Defined.

Lemma last_epoch_is_the_largest_index_witness :
  (2 ≤ Classic.last_epoch_of
         ["checkpoint_00000001.data"; "checkpoint_hidden_00000003.data";
          "checkpoint_00000002.data"])%Z.
Proof.
  apply (proj1 (proj2 (last_epoch_is_the_largest_index
                         ["checkpoint_00000001.data"; "checkpoint_hidden_00000003.data";
                          "checkpoint_00000002.data"]))
           "checkpoint_00000002.data" 2%Z).
  - do 2 apply list_elem_of_further. apply list_elem_of_here.
  - reflexivity.
Defined.

Lemma checkpoint_then_resume_witness :
  ∃ self' files' restored hidden_state,
    Classic.checkpoint ToyStorage.storage (ToyStorage.epoch 1) ToyStorage.trained None ∅
    = Py.Ok (self', files') ∧
    Classic.resume_learning ToyStorage.storage ToyStorage.fresh files'
    = Py.Ok (restored, ToyStorage.trained, 1%Z, Some hidden_state).
Proof.
  destruct (Classic.checkpoint ToyStorage.storage (ToyStorage.epoch 1)
              ToyStorage.trained None ∅) as [[self' files']|e] eqn:Hrun;
    [|apply (f_equal Py.returned) in Hrun; vm_compute in Hrun; discriminate Hrun].
  eexists self', files', _, _. split; [reflexivity|].
  apply (checkpoint_then_resume ToyStorage.storage (ToyStorage.epoch 1)
           ToyStorage.trained None ∅ self' files' ToyStorage.storage
           ToyStorage.fresh Hrun).
  - cbn. lia.
  - intros x idx [obj Hx]. rewrite lookup_empty in Hx. discriminate.
  - reflexivity.
Defined.

Lemma checkpoint_cleans_once_witness :
  ∃ self' files',
    Classic.checkpoint ToyStorage.storage (ToyStorage.epoch 1) ToyStorage.trained None ∅
    = Py.Ok (self', files') ∧
    Classic.cleaned self' = true ∧
    Classic.backend self' = [1%Z].
Proof.
  destruct (Classic.checkpoint ToyStorage.storage (ToyStorage.epoch 1)
              ToyStorage.trained None ∅) as [[self' files']|e] eqn:Hrun;
    [|apply (f_equal Py.returned) in Hrun; vm_compute in Hrun; discriminate Hrun].
  exists self', files'. split; [reflexivity|].
  destruct (checkpoint_cleans_once ToyStorage.storage (ToyStorage.epoch 1)
              ToyStorage.trained None ∅ self' files' Hrun ltac:(cbn; lia))
    as (Hcleaned & Hbackend & _).
  split; [exact Hcleaned|exact Hbackend].
Defined.

Lemma checkpoint_needs_previous_files_witness :
  Classic.checkpoint ToyStorage.storage (ToyStorage.epoch 3) ToyStorage.trained None
    ToyStorage.first_files
  = Py.Raise (Py.FileNotFoundError (Classic.checkpoint_filename (3 - 1))).
Proof.
  apply (proj1 (checkpoint_needs_previous_files ToyStorage.storage (ToyStorage.epoch 3)
                  ToyStorage.trained None ToyStorage.first_files
                  ltac:(cbn; lia) ltac:(reflexivity))).
  vm_compute. reflexivity.
Defined.

Lemma resume_learning_outcomes_witness :
  ∃ self' model' epoch hidden,
    Classic.resume_learning ToyStorage.storage ToyStorage.fresh ToyStorage.first_files
    = Py.Ok (self', model', epoch, hidden) ∧
    (0 ≤ epoch)%Z.
Proof.
  destruct (Classic.resume_learning ToyStorage.storage ToyStorage.fresh
              ToyStorage.first_files) as [[[[self' model'] epoch] hidden]|e] eqn:Hrun;
    [|apply (f_equal Py.returned) in Hrun; vm_compute in Hrun; discriminate Hrun].
  exists self', model', epoch, hidden. split; [reflexivity|].
  exact (proj1 (resume_learning_outcomes ToyStorage.storage ToyStorage.fresh
                  ToyStorage.first_files self' model' epoch hidden Hrun)).
Defined.
